(** * mcp-sequential-thinking: a shallow embedding of the thought models,
      the analyzer and the project store, with the properties of its
      specification.

    Layout: Python values and helpers ([PyStr], [PyNum], [PySort]), then
    the models of [models.py], the analyzer of [analysis.py], the store
    of [storage.py] and the thought tool of [server.py], then the
    lemmas.

    Conventions.
    - A Python [int] is a [Z]; a Python [float] is a binary64 [float].
    - A Python [str] is a [string] whose characters are the code points
      0..255; text with larger code points is outside this development.
    - A raised exception is the [Raise] case of [result]. *)

From Stdlib Require Import ZArith Floats String Ascii Bool List.
From stdpp Require Import gmap strings list sorting.

Local Open Scope string_scope.
Local Open Scope Z_scope.
Local Open Scope list_scope.

(** ** Exceptions and results *)

Inductive PyExn : Type :=
| ValueError (msg : string)
| ValidationError (errors : list string)
| ZeroDivisionError
| OverflowError
| AttributeError
| StorageError (msg : string).

Inductive result (A : Type) : Type :=
| Ok (a : A)
| Raise (e : PyExn).
Arguments Ok {A} a.
Arguments Raise {A} e.

Definition bind {A B : Type} (r : result A) (k : A -> result B) : result B :=
  match r with
  | Ok a => k a
  | Raise e => Raise e
  end.

Notation "x <- r ;; k" := (bind r (fun x => k))
  (at level 100, r at next level, right associativity).

Definition is_ok {A : Type} (r : result A) : bool :=
  match r with Ok _ => true | Raise _ => false end.

(** ** Python string operations *)

Module PyStr.

Definition code (c : ascii) : N := N_of_ascii c.

Definition in_range (lo hi : N) (c : ascii) : bool :=
  ((lo <=? code c) && (code c <=? hi))%N.

(** [str.isspace] on one character: TAB..CR, FS..US, space, NEL, NBSP. *)
Definition isspace (c : ascii) : bool :=
  in_range 9 13 c || in_range 28 32 c
  || (code c =? 133)%N || (code c =? 160)%N.

Fixpoint lstrip (s : string) : string :=
  match s with
  | EmptyString => EmptyString
  | String c s' => if isspace c then lstrip s' else s
  end.

Fixpoint rstrip (s : string) : string :=
  match s with
  | EmptyString => EmptyString
  | String c s' =>
      match rstrip s' with
      | EmptyString => if isspace c then EmptyString else String c EmptyString
      | r => String c r
      end
  end.

(** [s.strip()] *)
Definition strip (s : string) : string := lstrip (rstrip s).

Fixpoint map_chars (f : ascii -> ascii) (s : string) : string :=
  match s with
  | EmptyString => EmptyString
  | String c s' => String (f c) (map_chars f s')
  end.

Definition shift32 (c : ascii) : ascii := ascii_of_N (code c + 32).

(** [str.lower] on one character: A..Z and the upper-case letters of the
    range 192..222 (215, the multiplication sign, is not a letter). *)
Definition lower_char (c : ascii) : ascii :=
  if in_range 65 90 c || in_range 192 214 c || in_range 216 222 c
  then shift32 c else c.

Definition lower (s : string) : string := map_chars lower_char s.

(** [str.casefold]; the program applies it to the canonical stage values
    only, which consist of ASCII letters, spaces and an ampersand, where
    it is lower-casing of A..Z. *)
Definition casefold_char (c : ascii) : ascii :=
  if in_range 65 90 c then shift32 c else c.

Definition casefold (s : string) : string := map_chars casefold_char s.

(** [bool(s)]: a string is falsy when it is empty. *)
Definition truthy (s : string) : bool :=
  match s with EmptyString => false | _ => true end.

(** [sep.join(parts)] *)
Fixpoint join (sep : string) (parts : list string) : string :=
  match parts with
  | [] => EmptyString
  | [p] => p
  | p :: rest => p +:+ sep +:+ join sep rest
  end.

(** [s[:n]] for a non-negative literal [n]. *)
Fixpoint prefix_chars (n : nat) (s : string) : string :=
  match n, s with
  | O, _ => EmptyString
  | S n', String c s' => String c (prefix_chars n' s')
  | S _, EmptyString => EmptyString
  end.

(** [len(s)] *)
Definition len (s : string) : Z := Z.of_nat (String.length s).

(** [s.split(sep)] for a one-character separator. *)
Fixpoint split (sep : ascii) (s : string) : list string :=
  match s with
  | EmptyString => [EmptyString]
  | String c s' =>
      if bool_decide (c = sep) then EmptyString :: split sep s'
      else
        match split sep s' with
        | [] => [String c EmptyString]
        | h :: t => String c h :: t
        end
  end.

Definition upper_char (c : ascii) : ascii :=
  if in_range 97 122 c then ascii_of_N (code c - 32) else c.

Definition is_cased (c : ascii) : bool :=
  in_range 65 90 c || in_range 97 122 c.

(** [s.title()]: a letter that follows a letter is lower-cased, any other
    letter is upper-cased.  The program applies it to the pieces of its
    own field names, which are ASCII. *)
Fixpoint title_from (previous_is_cased : bool) (s : string) : string :=
  match s with
  | EmptyString => EmptyString
  | String c s' =>
      String (if previous_is_cased then casefold_char c else upper_char c)
             (title_from (is_cased c) s')
  end.

Definition title (s : string) : string := title_from false s.

(** [re.sub(r"[^a-zA-Z0-9._-]", "_", s)]: the characters the class
    accepts. *)
Definition in_safe_class (c : ascii) : bool :=
  in_range 97 122 c || in_range 65 90 c || in_range 48 57 c
  || (code c =? 46)%N || (code c =? 95)%N || (code c =? 45)%N.

End PyStr.

(** ** Python numbers *)

Module PyNum.

(** [float(z)] for an integer that fits: rounding to the nearest
    binary64 value, ties to even. *)
Definition float_of_Z (z : Z) : float :=
  SF2Prim (SpecFloat.binary_normalize prec emax z 0 false).

(** The quotients from which [a / b] no longer fits a float: the
    largest float is [(2^53 - 1) * 2^971], and a quotient of at least
    that plus half a unit in the last place rounds beyond it. *)
Definition overflow_bound : Z := 2 ^ 1024 - 2 ^ 970.

(** [a / b] on two integers: Python returns the correctly rounded
    quotient, and raises when the divisor is zero or the quotient too
    large for a float.  The quotient is taken with at least 64
    significant bits and a sticky bit for the remainder, then rounded
    once. *)
Definition int_truediv (a b : Z) : result float :=
  if b =? 0 then Raise ZeroDivisionError
  else
    let n := Z.abs a in
    let d := Z.abs b in
    if overflow_bound * d <=? n then Raise OverflowError
    else
      let k := Z.max 0 (Z.log2 d - Z.log2 n + 64) in
      let q := (n * 2 ^ k) / d in
      let sticky := if (n * 2 ^ k) mod d =? 0 then 0 else 1 in
      let m := 2 * q + sticky in
      let sgn := xorb (a <? 0) (b <? 0) in
      Ok (SF2Prim (SpecFloat.binary_normalize prec emax
                     (if sgn then - m else m) (- k - 1) sgn)).

(** A number that is either an [int] or a [float], as a dictionary
    value can be. *)
Inductive number : Type :=
| PInt (z : Z)
| PFloat (f : float).

(** [0.0 <= x <= 1.0] *)
Definition in_unit_interval (x : float) : bool :=
  PrimFloat.leb 0 x && PrimFloat.leb x 1.

End PyNum.

(** ** Python sorting and slicing *)

Module PySort.

Section Sort.
Context {A : Type}.
(** [before y x]: [y] has to stay in front of [x]. *)
Variable before : A -> A -> bool.

Fixpoint insert (x : A) (l : list A) : list A :=
  match l with
  | [] => [x]
  | y :: l' => if before y x then y :: insert x l' else x :: y :: l'
  end.

(** A stable sort: each element is inserted in front of the sorted rest
    and moves only past elements that are strictly before it, so equal
    elements keep their order.  [sorted] and [list.sort] are stable, also
    with [reverse=True]. *)
Definition stable_sort (l : list A) : list A := foldr insert [] l.
End Sort.

(** [sorted(l, key=key)] for integer keys. *)
Definition sorted_by_key {A : Type} (key : A -> Z) : list A -> list A :=
  stable_sort (fun y x => key y <? key x).

(** Tuple comparison [(a1, a2) > (b1, b2)]. *)
Definition pair_gt (a b : Z * Z) : bool :=
  (a.1 >? b.1) || ((a.1 =? b.1) && (a.2 >? b.2)).

(** [l.sort(key=key, reverse=True)] for keys that are pairs of integers. *)
Definition sort_by_pair_desc {A : Type} (key : A -> Z * Z) : list A -> list A :=
  stable_sort (fun y x => pair_gt (key y) (key x)).

(** [sorted(strings)]: strings compare by code point, lexicographically. *)
Definition sorted_strings : list string -> list string :=
  stable_sort String.ltb.

(** [l[:m]]: a negative bound counts from the end of the list. *)
Definition slice_to {A : Type} (m : Z) (l : list A) : list A :=
  if 0 <=? m then take (Z.to_nat m) l
  else take (length l - Z.to_nat (- m)) l.

(** [len(l)] *)
Definition len {A : Type} (l : list A) : Z := Z.of_nat (length l).

End PySort.

(** ** Python dictionaries, in insertion order *)

Module PyDict.

Section Dict.
Context {K V : Type} `{EqDecision K}.

Fixpoint get (k : K) (d : list (K * V)) : option V :=
  match d with
  | [] => None
  | (k', v) :: d' => if decide (k = k') then Some v else get k d'
  end.

(** [k in d] *)
Definition contains (k : K) (d : list (K * V)) : bool :=
  match get k d with Some _ => true | None => false end.

(** [d[k] = v]: an existing key keeps its place. *)
Fixpoint set (k : K) (v : V) (d : list (K * V)) : list (K * V) :=
  match d with
  | [] => [(k, v)]
  | (k', v') :: d' =>
      if decide (k = k') then (k', v) :: d' else (k', v') :: set k v d'
  end.

(** [d.setdefault(k, v)], for its effect on [d]. *)
Definition setdefault (k : K) (v : V) (d : list (K * V)) : list (K * V) :=
  if contains k d then d else set k v d.

(** [d.get(k, v)] *)
Definition get_default (k : K) (v : V) (d : list (K * V)) : V :=
  match get k d with Some x => x | None => v end.

(** [d.pop(k, None)], for its effect on [d]. *)
Fixpoint pop (k : K) (d : list (K * V)) : list (K * V) :=
  match d with
  | [] => []
  | (k', v') :: d' => if decide (k = k') then d' else (k', v') :: pop k d'
  end.

Definition keys (d : list (K * V)) : list K := map fst d.
End Dict.

(** [Counter(items)]: the number of occurrences of every item, the items
    in the order of their first occurrence. *)
Definition Counter {K : Type} `{EqDecision K} (items : list K)
  : list (K * Z) :=
  foldl (fun counts item => set item (get_default item 0 counts + 1) counts)
        [] items.

(** [counter.most_common(n)] for a non-negative literal [n]: the entries
    by decreasing count, entries of equal count in their order in the
    counter. *)
Definition most_common {K : Type} (n : nat) (counts : list (K * Z))
  : list (K * Z) :=
  take n (PySort.stable_sort (fun y x : K * Z => y.2 >? x.2) counts).

End PyDict.

(** ** models.py *)

(** *** ThoughtStage *)

Inductive ThoughtStage : Type :=
| SCOPING
| RESEARCH_SPIKE
| IMPLEMENTATION
| TESTING
| REVIEW.

#[global] Instance ThoughtStage_eq_dec : EqDecision ThoughtStage.
Proof. solve_decision. Defined.

(** [stage.value] *)
Definition stage_value (s : ThoughtStage) : string :=
  match s with
  | SCOPING => "Scoping"
  | RESEARCH_SPIKE => "Research & Spike"
  | IMPLEMENTATION => "Implementation"
  | TESTING => "Testing"
  | REVIEW => "Review"
  end.

(** Iterating over the enumeration, [for stage in ThoughtStage], in
    definition order. *)
Definition all_stages : list ThoughtStage :=
  [SCOPING; RESEARCH_SPIKE; IMPLEMENTATION; TESTING; REVIEW].

(** The synonym table of [from_string], in the order of the dictionary. *)
Definition synonyms : list (ThoughtStage * gset string) :=
  [ (SCOPING,
     list_to_set ["scoping"; "scope"; "requirements"; "planning (scope)";
                  "project scoping"]);
    (RESEARCH_SPIKE,
     list_to_set ["research & spike"; "research"; "spike"; "spike/research";
                  "investigate"; "r&d"]);
    (IMPLEMENTATION,
     list_to_set ["implementation"; "implement"; "build"; "coding"; "develop";
                  "development"; "plan"; "planning"]);
    (TESTING,
     list_to_set ["testing"; "test"; "qa"; "validate"; "verification"]);
    (REVIEW,
     list_to_set ["review"; "code review"; "finalize"; "ship"; "pr review"]) ].

(** [value.strip().lower()] *)
Definition normalize (value : string) : string :=
  PyStr.lower (PyStr.strip value).

Definition invalid_stage_message (value : string) : string :=
  "Invalid thinking stage: '" +:+ value +:+ "'. Valid stages are: "
  +:+ PyStr.join ", " (map stage_value all_stages).

(** [ThoughtStage.from_string] *)
Definition from_string (value : string) : result ThoughtStage :=
  if negb (PyStr.truthy value) then
    (* Default to Implementation when unspecified *)
    Ok IMPLEMENTATION
  else
    let normalized := normalize value in
    match List.find
            (fun stage =>
               bool_decide (PyStr.casefold (stage_value stage) = normalized))
            all_stages with
    | Some stage => Ok stage
    | None =>
        match List.find
                (fun entry : ThoughtStage * gset string =>
                   bool_decide (normalized ∈ entry.2))
                synonyms with
        | Some entry => Ok entry.1
        | None => Raise (ValueError (invalid_stage_message value))
        end
    end.

(** *** RiskLevel *)

Inductive RiskLevel : Type :=
| LOW
| MEDIUM
| HIGH.

#[global] Instance RiskLevel_eq_dec : EqDecision RiskLevel.
Proof. solve_decision. Defined.

Definition risk_value (r : RiskLevel) : string :=
  match r with
  | LOW => "low"
  | MEDIUM => "medium"
  | HIGH => "high"
  end.

Definition all_risk_levels : list RiskLevel := [LOW; MEDIUM; HIGH].

(** [RiskLevel(value)]: the member with that value. *)
Definition RiskLevel_of_value (value : string) : result RiskLevel :=
  match List.find (fun r => bool_decide (risk_value r = value))
                  all_risk_levels with
  | Some r => Ok r
  | None => Raise (ValueError ("'" +:+ value +:+ "' is not a valid RiskLevel"))
  end.

(** *** ThoughtData *)

(** A [UUID] is its 128-bit integer. *)
Definition UUID : Type := N.

(** What a construction draws from its surroundings: the clock reading of
    [datetime.now().isoformat()] and the result of [uuid4()]. *)
Record Oracle : Type := {
  now_isoformat : string;
  uuid4 : UUID;
}.

(** The field [id] of the source is [thought_id] here. *)
Record ThoughtData : Type := {
  thought : string;
  thought_number : Z;
  total_thoughts : Z;
  next_thought_needed : bool;
  stage : ThoughtStage;
  tags : list string;
  axioms_used : list string;
  assumptions_challenged : list string;
  files_touched : list string;
  tests_to_run : list string;
  risk_level : RiskLevel;
  dependencies : list string;
  confidence_score : float;
  timestamp : string;
  thought_id : UUID;
}.

(** [t.thought], for the places where [thought] is the name of a
    parameter. *)
Definition thought_text (t : ThoughtData) : string := thought t.

(** [__eq__]: thoughts compare by identifier. *)
Definition ThoughtData_eqb (a b : ThoughtData) : bool :=
  bool_decide (thought_id a = thought_id b).

(** The field validators. *)

Definition thought_not_empty (v : string) : result string :=
  if negb (PyStr.truthy v) || negb (PyStr.truthy (PyStr.strip v))
  then Raise (ValueError "Thought content cannot be empty")
  else Ok v.

Definition thought_number_positive (v : Z) : result Z :=
  if v <? 1 then Raise (ValueError "Thought number must be positive")
  else Ok v.

(** [values_thought_number] is [values.data.get('thought_number')]: the
    number when that field has passed its own validation. *)
Definition total_thoughts_valid (v : Z) (values_thought_number : option Z)
  : result Z :=
  match values_thought_number with
  | Some n =>
      if v <? n
      then Raise (ValueError
             "Total thoughts must be greater or equal to current thought number")
      else Ok v
  | None => Ok v
  end.

Definition confidence_in_range (value : float) : result float :=
  if negb (PyNum.in_unit_interval value)
  then Raise (ValueError "Confidence score must be between 0.0 and 1.0")
  else Ok value.

(** The keyword arguments of [ThoughtData(...)], after type checking: an
    argument is either supplied or left out. *)
Record ThoughtKwargs : Type := {
  kw_thought : option string;
  kw_thought_number : option Z;
  kw_total_thoughts : option Z;
  kw_next_thought_needed : option bool;
  kw_stage : option ThoughtStage;
  kw_tags : option (list string);
  kw_axioms_used : option (list string);
  kw_assumptions_challenged : option (list string);
  kw_files_touched : option (list string);
  kw_tests_to_run : option (list string);
  kw_risk_level : option RiskLevel;
  kw_dependencies : option (list string);
  kw_confidence_score : option float;
  kw_timestamp : option string;
  kw_id : option UUID;
}.

(** A field without default: a missing argument is an error of its own,
    a supplied one goes through the field's validator. *)
Definition required {A : Type} (name : string) (arg : option A)
    (validator : A -> result A) : result A :=
  match arg with
  | None => Raise (ValueError (name +:+ ": Field required"))
  | Some v => validator v
  end.

(** A field with a default: the default is taken as it is. *)
Definition optional {A : Type} (arg : option A) (default : A)
    (validator : A -> result A) : result A :=
  match arg with
  | None => Ok default
  | Some v => validator v
  end.

Definition exn_message (e : PyExn) : string :=
  match e with
  | ValueError msg => msg
  | ValidationError errors => PyStr.join "; " errors
  | ZeroDivisionError => "division by zero"
  | OverflowError => "integer division result too large for a float"
  | AttributeError => "attribute error"
  | StorageError msg => msg
  end.

Definition error_of {A : Type} (r : result A) : list string :=
  match r with
  | Ok _ => []
  | Raise e => [exn_message e]
  end.

Definition passed {A : Type} (r : result A) : option A :=
  match r with
  | Ok a => Some a
  | Raise _ => None
  end.

(** The constructor [ThoughtData]: the fields are validated in declaration
    order, every failure is collected, and one [ValidationError] is raised
    if there is any; no object exists then. *)
Definition ThoughtData_init (kw : ThoughtKwargs) (orc : Oracle)
  : result ThoughtData :=
  let r_thought := required "thought" (kw_thought kw) thought_not_empty in
  let r_number :=
    required "thought_number" (kw_thought_number kw) thought_number_positive in
  let r_total :=
    required "total_thoughts" (kw_total_thoughts kw)
             (fun v => total_thoughts_valid v (passed r_number)) in
  let r_next := required "next_thought_needed" (kw_next_thought_needed kw) Ok in
  let r_stage := required "stage" (kw_stage kw) Ok in
  let r_confidence :=
    optional (kw_confidence_score kw) 0.5%float confidence_in_range in
  match r_thought, r_number, r_total, r_next, r_stage, r_confidence with
  | Ok v_thought, Ok v_number, Ok v_total, Ok v_next, Ok v_stage,
    Ok v_confidence =>
      Ok {| thought := v_thought;
            thought_number := v_number;
            total_thoughts := v_total;
            next_thought_needed := v_next;
            stage := v_stage;
            tags := default [] (kw_tags kw);
            axioms_used := default [] (kw_axioms_used kw);
            assumptions_challenged := default [] (kw_assumptions_challenged kw);
            files_touched := default [] (kw_files_touched kw);
            tests_to_run := default [] (kw_tests_to_run kw);
            risk_level := default MEDIUM (kw_risk_level kw);
            dependencies := default [] (kw_dependencies kw);
            confidence_score := v_confidence;
            timestamp := default (now_isoformat orc) (kw_timestamp kw);
            thought_id := default (uuid4 orc) (kw_id kw) |}
  | _, _, _, _, _, _ =>
      Raise (ValidationError
               (error_of r_thought ++ error_of r_number ++ error_of r_total
                ++ error_of r_next ++ error_of r_stage
                ++ error_of r_confidence))
  end.

(** The invariants of a constructed thought. *)
Definition well_formed (t : ThoughtData) : bool :=
  PyStr.truthy (PyStr.strip (thought t))
  && (1 <=? thought_number t)
  && (thought_number t <=? total_thoughts t)
  && PyNum.in_unit_interval (confidence_score t).

(** *** Dictionaries of thoughts *)

(** The values a thought dictionary holds. *)
#[warnings="-register-all"] Inductive PyVal : Type :=
| VNone
| VBool (b : bool)
| VInt (z : Z)
| VFloat (f : float)
| VStr (s : string)
| VList (l : list PyVal)
| VStage (s : ThoughtStage)
| VRisk (r : RiskLevel)
| VUuid (u : UUID).

Abbreviation Dict := (list (string * PyVal)).

(** [bool(v)] *)
Definition py_truthy (v : PyVal) : bool :=
  match v with
  | VNone => false
  | VBool b => b
  | VInt z => negb (z =? 0)
  | VFloat f => negb (PrimFloat.eqb f 0)
  | VStr s => PyStr.truthy s
  | VList l => match l with [] => false | _ => true end
  | VStage _ | VRisk _ | VUuid _ => true
  end.

Definition str_list (l : list string) : PyVal := VList (map VStr l).

(** The text form of an identifier, [str(u)], and its parser, [UUID(s)],
    come from Python's library. *)
Class UuidText : Type := {
  uuid_str : UUID -> string;
  uuid_parse : string -> option UUID;
}.

(** [_to_camel_case] *)
Definition _to_camel_case (value : string) : string :=
  match PyStr.split "_" value with
  | [] => value
  | first :: rest => first +:+ PyStr.join EmptyString (map PyStr.title rest)
  end.

(** [self.model_dump()]: every field under its own name, in declaration
    order. *)
Definition model_dump (t : ThoughtData) : Dict :=
  [ ("thought", VStr (thought t));
    ("thought_number", VInt (thought_number t));
    ("total_thoughts", VInt (total_thoughts t));
    ("next_thought_needed", VBool (next_thought_needed t));
    ("stage", VStage (stage t));
    ("tags", str_list (tags t));
    ("axioms_used", str_list (axioms_used t));
    ("assumptions_challenged", str_list (assumptions_challenged t));
    ("files_touched", str_list (files_touched t));
    ("tests_to_run", str_list (tests_to_run t));
    ("risk_level", VRisk (risk_level t));
    ("dependencies", str_list (dependencies t));
    ("confidence_score", VFloat (confidence_score t));
    ("timestamp", VStr (timestamp t));
    ("id", VUuid (thought_id t)) ].

Section ToDict.
Context `{UuidText}.

(** [to_dict] *)
Definition to_dict (t : ThoughtData) (include_id : bool) : Dict :=
  let data := model_dump t in
  let data := PyDict.set "stage" (VStr (stage_value (stage t))) data in
  let data := PyDict.set "risk_level" (VStr (risk_value (risk_level t))) data in
  let data :=
    if negb include_id then PyDict.pop "id" data
    else PyDict.set "id" (VStr (uuid_str (thought_id t))) data in
  let result :=
    foldl (fun (result : Dict) (item : string * PyVal) =>
             if bool_decide (item.1 = "stage") then result
             else PyDict.set (_to_camel_case item.1) item.2 result)
          [] data in
  let result := PyDict.set "thought" (VStr (thought t)) result in
  let result := PyDict.set "thoughtNumber" (VInt (thought_number t)) result in
  let result := PyDict.set "totalThoughts" (VInt (total_thoughts t)) result in
  let result :=
    PyDict.set "nextThoughtNeeded" (VBool (next_thought_needed t)) result in
  let result := PyDict.set "stage" (VStr (stage_value (stage t))) result in
  let result := PyDict.set "tags" (str_list (tags t)) result in
  let result := PyDict.set "axiomsUsed" (str_list (axioms_used t)) result in
  let result :=
    PyDict.set "assumptionsChallenged"
               (str_list (assumptions_challenged t)) result in
  let result := PyDict.set "filesTouched" (str_list (files_touched t)) result in
  let result := PyDict.set "testsToRun" (str_list (tests_to_run t)) result in
  let result :=
    PyDict.set "riskLevel" (VStr (risk_value (risk_level t))) result in
  let result := PyDict.set "dependencies" (str_list (dependencies t)) result in
  let result :=
    PyDict.set "confidenceScore" (VFloat (confidence_score t)) result in
  let result := PyDict.set "timestamp" (VStr (timestamp t)) result in
  result.
End ToDict.

(** The type check of one keyword argument.  A value of the field's own
    type is accepted as it is, and an integer where a float is expected;
    the further conversions of the validation library are left out, such
    values are rejected here. *)

Definition as_str (v : PyVal) : option string :=
  match v with VStr s => Some s | _ => None end.

Definition as_int (v : PyVal) : option Z :=
  match v with VInt z => Some z | _ => None end.

Definition as_bool (v : PyVal) : option bool :=
  match v with VBool b => Some b | _ => None end.

Definition as_float (v : PyVal) : option float :=
  match v with
  | VFloat f => Some f
  | VInt z => Some (PyNum.float_of_Z z)
  | _ => None
  end.

Definition as_stage (v : PyVal) : option ThoughtStage :=
  match v with VStage s => Some s | _ => None end.

Definition as_risk (v : PyVal) : option RiskLevel :=
  match v with VRisk r => Some r | _ => None end.

Definition as_uuid (v : PyVal) : option UUID :=
  match v with VUuid u => Some u | _ => None end.

Definition as_str_list (v : PyVal) : option (list string) :=
  match v with
  | VList l => mapM as_str l
  | _ => None
  end.

Definition typed {A : Type} (name : string) (coerce : PyVal -> option A)
    (kwargs : Dict) : result (option A) :=
  match PyDict.get name kwargs with
  | None => Ok None
  | Some v =>
      match coerce v with
      | Some a => Ok (Some a)
      | None =>
          Raise (ValidationError [name +:+ ": Input should be a valid value"])
      end
  end.

Definition check_types (kwargs : Dict) : result ThoughtKwargs :=
  a_thought <- typed "thought" as_str kwargs ;;
  a_number <- typed "thought_number" as_int kwargs ;;
  a_total <- typed "total_thoughts" as_int kwargs ;;
  a_next <- typed "next_thought_needed" as_bool kwargs ;;
  a_stage <- typed "stage" as_stage kwargs ;;
  a_tags <- typed "tags" as_str_list kwargs ;;
  a_axioms <- typed "axioms_used" as_str_list kwargs ;;
  a_assumptions <- typed "assumptions_challenged" as_str_list kwargs ;;
  a_files <- typed "files_touched" as_str_list kwargs ;;
  a_tests <- typed "tests_to_run" as_str_list kwargs ;;
  a_risk <- typed "risk_level" as_risk kwargs ;;
  a_dependencies <- typed "dependencies" as_str_list kwargs ;;
  a_confidence <- typed "confidence_score" as_float kwargs ;;
  a_timestamp <- typed "timestamp" as_str kwargs ;;
  a_id <- typed "id" as_uuid kwargs ;;
  Ok {| kw_thought := a_thought;
        kw_thought_number := a_number;
        kw_total_thoughts := a_total;
        kw_next_thought_needed := a_next;
        kw_stage := a_stage;
        kw_tags := a_tags;
        kw_axioms_used := a_axioms;
        kw_assumptions_challenged := a_assumptions;
        kw_files_touched := a_files;
        kw_tests_to_run := a_tests;
        kw_risk_level := a_risk;
        kw_dependencies := a_dependencies;
        kw_confidence_score := a_confidence;
        kw_timestamp := a_timestamp;
        kw_id := a_id |}.

(** The key table of [from_dict]. *)
Definition mappings : list (string * string) :=
  [ ("thoughtNumber", "thought_number");
    ("totalThoughts", "total_thoughts");
    ("nextThoughtNeeded", "next_thought_needed");
    ("axiomsUsed", "axioms_used");
    ("assumptionsChallenged", "assumptions_challenged");
    ("filesTouched", "files_touched");
    ("testsToRun", "tests_to_run");
    ("riskLevel", "risk_level");
    ("dependencies", "dependencies");
    ("confidenceScore", "confidence_score") ].

(** [if key in data: snake_data[snake_key] = data[key]] *)
Definition copy_key (data : Dict) (snake_data : Dict) (entry : string * string)
  : Dict :=
  match PyDict.get entry.1 data with
  | Some v => PyDict.set entry.2 v snake_data
  | None => snake_data
  end.

(** [ThoughtStage.from_string(v)] on a dictionary value: a falsy value is
    the unspecified stage, any other value that is not a string has no
    [strip]. *)
Definition stage_of_value (v : PyVal) : result ThoughtStage :=
  match v with
  | VStr s => from_string s
  | _ => if py_truthy v then Raise AttributeError else Ok IMPLEMENTATION
  end.

Section FromDict.
Context `{UuidText}.

(** [from_dict] *)
Definition from_dict (data : Dict) (orc : Oracle) : result ThoughtData :=
  (* Process known direct mappings *)
  let snake_data := foldl (copy_key data) [] mappings in
  (* Copy fields that don't need conversion *)
  let snake_data :=
    foldl (fun sd key => copy_key data sd (key, key)) snake_data
          ["thought"; "tags"; "timestamp"] in
  snake_data <-
    match PyDict.get "stage" data with
    | Some v =>
        st <- stage_of_value v ;;
        Ok (PyDict.set "stage" (VStage st) snake_data)
    | None => Ok snake_data
    end ;;
  snake_data <-
    match PyDict.get "risk_level" snake_data with
    | Some (VStr s) =>
        r <- RiskLevel_of_value (PyStr.lower s) ;;
        Ok (PyDict.set "risk_level" (VRisk r) snake_data)
    | _ => Ok snake_data
    end ;;
  (* Set default values for missing fields *)
  let snake_data := PyDict.setdefault "tags" (VList []) snake_data in
  let snake_data :=
    PyDict.setdefault "axioms_used"
      (PyDict.get_default "axiomsUsed" (VList []) data) snake_data in
  let snake_data :=
    PyDict.setdefault "assumptions_challenged"
      (PyDict.get_default "assumptionsChallenged" (VList []) data)
      snake_data in
  let snake_data :=
    PyDict.setdefault "files_touched"
      (PyDict.get_default "filesTouched" (VList []) data) snake_data in
  let snake_data :=
    PyDict.setdefault "tests_to_run"
      (PyDict.get_default "testsToRun" (VList []) data) snake_data in
  let snake_data :=
    PyDict.setdefault "risk_level"
      (PyDict.get_default "risk_level" (VRisk MEDIUM) snake_data)
      snake_data in
  let snake_data :=
    PyDict.setdefault "dependencies"
      (PyDict.get_default "dependencies" (VList []) data) snake_data in
  let snake_data :=
    PyDict.setdefault "confidence_score"
      (PyDict.get_default "confidenceScore" (VFloat 0.5) data) snake_data in
  let snake_data :=
    PyDict.setdefault "timestamp" (VStr (now_isoformat orc)) snake_data in
  (* Add ID if present, otherwise generate a new one *)
  snake_data <-
    match PyDict.get "id" data with
    | Some (VStr s) =>
        Ok (PyDict.set "id"
              (VUuid (default (uuid4 orc) (uuid_parse s))) snake_data)
    | Some VNone => Ok (PyDict.set "id" (VUuid (uuid4 orc)) snake_data)
    | Some _ => Raise AttributeError
    | None => Ok snake_data
    end ;;
  kwargs <- check_types snake_data ;;
  ThoughtData_init kwargs orc.
End FromDict.

(** ** analysis.py *)

(** The helpers of the package's module [testing], which the analyzer
    consults when the test runner is importable.  That module is not among
    the sources, so its two functions are parameters here. *)
Record TestHelpers : Type := {
  find_related_thoughts_test : ThoughtData -> list ThoughtData -> list ThoughtData;
  set_first_in_stage_test : ThoughtData -> bool;
}.

(** [importlib.util.find_spec("pytest")]: [None] when the test runner is
    not installed, as in a deployed server; otherwise the helpers that the
    analyzer then imports. *)
Definition TestEnv : Type := option TestHelpers.

(** [max(l)] of a non-empty list. *)
Definition py_max (l : list Z) : option Z :=
  match l with
  | [] => None
  | x :: rest => Some (foldl Z.max x rest)
  end.

Record Summary : Type := {
  s_totalThoughts : Z;
  s_stages : list (string * Z);
  s_timeline : list (Z * string);
  s_topTags : list (string * Z);
  s_hasAllStages : bool;
  s_percentComplete : PyNum.number;
  s_confidenceAverage : float;
  s_filesTouched : list string;
  s_riskProfile : list (string * Z);
  s_dependencyMap : list (string * list Z);
}.

(** The dictionary [generate_summary] returns under the key ["summary"]:
    a text for an empty history, the aggregate, or the total with an error
    text when the aggregation raised. *)
Inductive SummaryResult : Type :=
| SummaryText (text : string)
| SummaryData (summary : Summary)
| SummaryError (totalThoughts : Z) (error : string).

Record RelatedSummary : Type := {
  r_thoughtNumber : Z;
  r_stage : string;
  r_snippet : string;
}.

Record Analysis : Type := {
  (* thoughtAnalysis.currentThought *)
  a_thoughtNumber : Z;
  a_totalThoughts : Z;
  a_nextThoughtNeeded : bool;
  a_stage : string;
  a_tags : list string;
  a_timestamp : string;
  (* thoughtAnalysis.analysis *)
  relatedThoughtsCount : Z;
  relatedThoughtSummaries : list RelatedSummary;
  progress : float;
  isFirstInStage : bool;
  confidenceScore : float;
  metadataAlerts : list string;
  stageCoverage : list (ThoughtStage * Z);
  pendingStages : list string;
  (* thoughtAnalysis.context *)
  thoughtHistoryLength : Z;
  currentStage : string;
  projectDependencies : Z * list string;
  (* insights *)
  testingReady : bool;
  highRiskPendingTests : Z;
  (* guidance *)
  recommendedNextThoughtNeeded : bool;
  reason : string;
}.

Module ThoughtAnalyzer.

(** [len(set(a) & set(b))] *)
Definition overlap (a b : list string) : Z :=
  Z.of_nat (size ((list_to_set a : gset string) ∩ list_to_set b)).

(** The score one pass of the loop of [find_related_thoughts] gives to
    [thought]. *)
Definition score (current_thought thought : ThoughtData) : Z :=
  let score := 0 in
  let score :=
    if decide (stage thought = stage current_thought) then score + 3
    else score in
  let score := score + overlap (tags current_thought) (tags thought) in
  let score :=
    score
    + overlap (files_touched current_thought) (files_touched thought) * 2 in
  let score :=
    score + overlap (dependencies current_thought) (dependencies thought) in
  let score :=
    if decide (risk_level thought = risk_level current_thought)
    then score + 1 else score in
  score.

(** The loop of [find_related_thoughts] that fills [candidates]. *)
Fixpoint candidates (current_thought : ThoughtData)
    (all_thoughts : list ThoughtData) : list (Z * ThoughtData) :=
  match all_thoughts with
  | [] => []
  | thought :: rest =>
      if decide (thought_id thought = thought_id current_thought)
      then candidates current_thought rest
      else
        let score := score current_thought thought in
        if score >? 0
        then (score, thought) :: candidates current_thought rest
        else candidates current_thought rest
  end.

(** The sort key [(item[0], item[1].thought_number)]. *)
Definition sort_key (item : Z * ThoughtData) : Z * Z :=
  (item.1, thought_number item.2).

Definition find_related_thoughts (env : TestEnv)
    (current_thought : ThoughtData) (all_thoughts : list ThoughtData)
    (max_results : Z) : list ThoughtData :=
  let test_results :=
    match env with
    | Some helpers =>
        find_related_thoughts_test helpers current_thought all_thoughts
    | None => []
    end in
  match test_results with
  | _ :: _ => test_results
  | [] =>
      let candidates := candidates current_thought all_thoughts in
      let candidates := PySort.sort_by_pair_desc sort_key candidates in
      map snd (PySort.slice_to max_results candidates)
  end.

Definition _risk_profile (thoughts : list ThoughtData) : list (string * Z) :=
  let risk_counts :=
    PyDict.Counter (map (fun t => risk_value (risk_level t)) thoughts) in
  [ ("high", PyDict.get_default (risk_value HIGH) 0 risk_counts);
    ("medium", PyDict.get_default (risk_value MEDIUM) 0 risk_counts);
    ("low", PyDict.get_default (risk_value LOW) 0 risk_counts) ].

Definition _dependency_map (thoughts : list ThoughtData)
  : list (string * list Z) :=
  foldl (fun dependency_map thought =>
           foldl (fun dependency_map dependency =>
                    PyDict.set dependency
                      (PyDict.get_default dependency [] dependency_map
                       ++ [thought_number thought])
                      dependency_map)
                 dependency_map (dependencies thought))
        [] thoughts.

Definition _metadata_alerts (thought : ThoughtData) : list string :=
  let alerts := [] in
  let alerts :=
    if bool_decide (stage thought = IMPLEMENTATION)
       && bool_decide (files_touched thought = [])
    then alerts
         ++ ["Implementation thoughts should list filesTouched for traceability."]
    else alerts in
  let alerts :=
    if bool_decide (stage thought ∈ [TESTING; REVIEW])
       && bool_decide (tests_to_run thought = [])
    then alerts
         ++ ["Capture testsToRun to keep testing expectations explicit."]
    else alerts in
  let alerts :=
    if bool_decide (risk_level thought = HIGH)
       && PrimFloat.ltb (confidence_score thought) 0.5
    then alerts
         ++ ["High-risk thought marked with low confidence; consider another research thought."]
    else alerts in
  alerts.

Definition _stage_coverage (thoughts : list ThoughtData)
  : list (ThoughtStage * Z) :=
  let coverage := map (fun stage => (stage, 0)) all_stages in
  foldl (fun coverage thought =>
           PyDict.set (stage thought)
                      (PyDict.get_default (stage thought) 0 coverage + 1)
                      coverage)
        coverage thoughts.

(** [sorted({x for t in thoughts for x in f(t)})] *)
Definition sorted_union (f : ThoughtData -> list string)
    (thoughts : list ThoughtData) : list string :=
  PySort.sorted_strings
    (elements (list_to_set (concat (map f thoughts)) : gset string)).

Definition _dependency_summary (thoughts : list ThoughtData)
  : Z * list string :=
  let unique_dependencies := sorted_union dependencies thoughts in
  (PySort.len unique_dependencies, unique_dependencies).

Definition _has_testing_after_implementation (thoughts : list ThoughtData)
  : bool :=
  let implementation_numbers :=
    map thought_number
        (filter (fun thought => stage thought = IMPLEMENTATION) thoughts) in
  match py_max implementation_numbers with
  | None => false
  | Some last_impl =>
      existsb (fun thought =>
                 bool_decide (stage thought = TESTING)
                 && (thought_number thought >=? last_impl))
              thoughts
  end.

Definition _high_risk_without_tests (thoughts : list ThoughtData) : Z :=
  PySort.len
    (filter (fun thought =>
               risk_level thought = HIGH ∧ tests_to_run thought = [])
            thoughts).

(** The grouping loop of [generate_summary]: the thoughts of every
    stage that occurs, under the stage's value. *)
Definition group_by_stage (thoughts : list ThoughtData)
  : gmap string (list ThoughtData) :=
  foldl (fun (stages : gmap string (list ThoughtData)) thought =>
           let key := stage_value (stage thought) in
           let stages :=
             match stages !! key with
             | None => <[key := []]> stages
             | Some _ => stages
             end in
           alter (fun l => l ++ [thought]) key stages)
        ∅ thoughts.

(** [max((t.total_thoughts for t in thoughts), default=0)] *)
Definition max_total_thoughts (thoughts : list ThoughtData) : Z :=
  default 0 (py_max (map total_thoughts thoughts)).

(** The body of the [try] block of [generate_summary]. *)
Definition build_summary (thoughts : list ThoughtData)
    (stages : gmap string (list ThoughtData)) (top_tags : list (string * Z))
  : result Summary :=
  let max_total := max_total_thoughts thoughts in
  percent_complete <-
    (if max_total >? 0 then
       ratio <- PyNum.int_truediv (PySort.len thoughts) max_total ;;
       Ok (PyNum.PFloat (PrimFloat.mul ratio 100))
     else Ok (PyNum.PInt 0)) ;;
  let stage_counts : gmap string Z := PySort.len <$> stages in
  let stage_counts_with_missing :=
    map (fun stage =>
           (stage_value stage, default 0 (stage_counts !! stage_value stage)))
        all_stages in
  let sorted_thoughts := PySort.sorted_by_key thought_number thoughts in
  let timeline_entries :=
    map (fun t => (thought_number t, stage_value (stage t))) sorted_thoughts in
  let top_tags_entries := top_tags in
  let all_stages_present :=
    forallb (fun stage =>
               PyDict.get_default (stage_value stage) 0
                                  stage_counts_with_missing >? 0)
            all_stages in
  (* sum(...) adds from left to right, starting from 0; the error
     compensation that newer interpreters apply in sum is not followed *)
  let confidence_average :=
    PrimFloat.div (foldl PrimFloat.add 0%float (map confidence_score thoughts))
                  (PyNum.float_of_Z (PySort.len thoughts)) in
  let files_touched := sorted_union files_touched thoughts in
  let dependency_map := _dependency_map thoughts in
  Ok {| s_totalThoughts := PySort.len thoughts;
        s_stages := stage_counts_with_missing;
        s_timeline := timeline_entries;
        s_topTags := top_tags_entries;
        s_hasAllStages := all_stages_present;
        s_percentComplete := percent_complete;
        s_confidenceAverage := confidence_average;
        s_filesTouched := files_touched;
        s_riskProfile := _risk_profile thoughts;
        s_dependencyMap := dependency_map |}.

Definition generate_summary (thoughts : list ThoughtData) : SummaryResult :=
  match thoughts with
  | [] => SummaryText "No thoughts recorded yet"
  | _ :: _ =>
      (* Group thoughts by stage *)
      let stages := group_by_stage thoughts in
      let all_tags := concat (map tags thoughts) in
      (* Count occurrences of each tag *)
      let tag_counts := PyDict.Counter all_tags in
      (* Get the 5 most common tags *)
      let top_tags := PyDict.most_common 5 tag_counts in
      match build_summary thoughts stages top_tags with
      | Ok summary => SummaryData summary
      | Raise e => SummaryError (PySort.len thoughts) (exn_message e)
      end
  end.

(** [t.thought[:100] + "..." if len(t.thought) > 100 else t.thought] *)
Definition snippet (text : string) : string :=
  if PyStr.len text >? 100 then PyStr.prefix_chars 100 text +:+ "..."
  else text.

Definition related_summary (t : ThoughtData) : RelatedSummary :=
  {| r_thoughtNumber := thought_number t;
     r_stage := stage_value (stage t);
     r_snippet := snippet (thought t) |}.

(** The first part of [analyze_thought]: the related thoughts and the
    first-in-stage flag. *)
Definition related_and_first (env : TestEnv) (thought : ThoughtData)
    (all_thoughts : list ThoughtData) : list ThoughtData * bool :=
  match env with
  | Some helpers =>
      if set_first_in_stage_test helpers thought then
        let is_first_in_stage := true in
        let related_thoughts :=
          match List.find
                  (fun t =>
                     bool_decide (stage t = stage thought)
                     && negb (bool_decide (thought_text t
                                           = thought_text thought)))
                  all_thoughts with
          | Some t => [t]
          | None => []
          end in
        (related_thoughts, is_first_in_stage)
      else
        let related_thoughts :=
          find_related_thoughts env thought all_thoughts 3 in
        let same_stage_thoughts :=
          filter (fun t => stage t = stage thought) all_thoughts in
        let is_first_in_stage := PySort.len same_stage_thoughts <=? 1 in
        (related_thoughts, is_first_in_stage)
  | None =>
      let related_thoughts :=
        find_related_thoughts env thought all_thoughts 3 in
      let same_stage_thoughts :=
        filter (fun t => stage t = stage thought) all_thoughts in
      let is_first_in_stage := PySort.len same_stage_thoughts <=? 1 in
      (related_thoughts, is_first_in_stage)
  end.

(** The guidance heuristic of [analyze_thought]. *)
Definition guidance (thought : ThoughtData) (pending_stages : list string)
    (progress : float) : bool * string :=
  if thought_number thought >=? total_thoughts thought then
    (false, "Reached total planned thoughts.")
  else if bool_decide (stage thought = REVIEW) then
    (false, "Review stage complete.")
  else if (PySort.len pending_stages =? 0) && PrimFloat.leb 80 progress then
    (false, "Core stages covered; diminishing returns.")
  else
    (true, "Continue to next step.").

Definition analyze_thought (env : TestEnv) (thought : ThoughtData)
    (all_thoughts : list ThoughtData) : result Analysis :=
  let '(related_thoughts, is_first_in_stage) :=
    related_and_first env thought all_thoughts in
  ratio <- PyNum.int_truediv (thought_number thought) (total_thoughts thought) ;;
  let progress := PrimFloat.mul ratio 100 in
  let stage_coverage := _stage_coverage all_thoughts in
  let pending_stages :=
    map (fun entry : ThoughtStage * Z => stage_value entry.1)
        (filter (fun entry : ThoughtStage * Z => entry.2 = 0) stage_coverage) in
  let metadata_alerts := _metadata_alerts thought in
  let dependency_summary := _dependency_summary all_thoughts in
  let testing_ready := _has_testing_after_implementation all_thoughts in
  let '(recommended_next, guidance_reason) :=
    guidance thought pending_stages progress in
  Ok {| a_thoughtNumber := thought_number thought;
        a_totalThoughts := total_thoughts thought;
        a_nextThoughtNeeded := next_thought_needed thought;
        a_stage := stage_value (stage thought);
        a_tags := tags thought;
        a_timestamp := timestamp thought;
        relatedThoughtsCount := PySort.len related_thoughts;
        relatedThoughtSummaries := map related_summary related_thoughts;
        progress := progress;
        isFirstInStage := is_first_in_stage;
        confidenceScore := confidence_score thought;
        metadataAlerts := metadata_alerts;
        stageCoverage := stage_coverage;
        pendingStages := pending_stages;
        thoughtHistoryLength := PySort.len all_thoughts;
        currentStage := stage_value (stage thought);
        projectDependencies := dependency_summary;
        testingReady := testing_ready;
        highRiskPendingTests := _high_risk_without_tests all_thoughts;
        recommendedNextThoughtNeeded := recommended_next;
        reason := guidance_reason |}.

End ThoughtAnalyzer.

(** ** storage.py *)

(** Export metadata: the time of the export, the project, the number of
    thoughts and the number per stage. *)
Record ExportMetadata : Type := {
  exportedAt : string;
  m_project : string;
  m_totalThoughts : Z;
  m_stages : list (string * Z);
}.

(** Modelled from the spec: the persisted form written and read by the
    module [storage_utils], which is not among the sources.  A session file
    holds a list of records, each with all its attributes and its
    identifier as text, optionally wrapped with export metadata; a file can
    also hold something that is no session at all. *)
Inductive FileContent : Type :=
| SessionFile (records : list Dict) (metadata : option ExportMetadata)
| Malformed.

(** [Path.with_suffix] comes from Python's library; it raises when the path
    has no file name. *)
Class PathLib : Type := {
  with_suffix : string -> string -> result string;
}.

Record ThoughtStorage : Type := {
  storage_dir : string;
  default_project_id : string;
  _project_histories : gmap string (list ThoughtData);
  thought_history : list ThoughtData;
}.

(** The store and what it acts on: the files, and the readings of the
    clock and of the random identifiers, one per use. *)
Record World : Type := {
  store : ThoughtStorage;
  files : gmap string FileContent;
  oracles : nat -> Oracle;
  ticks : nat;
}.

(** A computation on the world that may raise. *)
Definition M (A : Type) : Type := World -> result A * World.

Definition ret {A : Type} (a : A) : M A := fun w => (Ok a, w).

Definition throw {A : Type} (e : PyExn) : M A := fun w => (Raise e, w).

Definition mbind_world {A B : Type} (m : M A) (k : A -> M B) : M B :=
  fun w =>
    match m w with
    | (Ok a, w') => k a w'
    | (Raise e, w') => (Raise e, w')
    end.

Notation "x <~ m ;; k" := (mbind_world m (fun x => k))
  (at level 100, m at next level, right associativity).

Definition lift {A : Type} (r : result A) : M A := fun w => (r, w).

Definition get_store : M ThoughtStorage := fun w => (Ok (store w), w).

Definition put_store (s : ThoughtStorage) : M unit :=
  fun w => (Ok tt, {| store := s; files := files w;
                      oracles := oracles w; ticks := ticks w |}).

Definition read_file (path : string) : M (option FileContent) :=
  fun w => (Ok (files w !! path), w).

Definition write_file (path : string) (content : FileContent) : M unit :=
  fun w => (Ok tt, {| store := store w; files := <[path := content]> (files w);
                      oracles := oracles w; ticks := ticks w |}).

(** The next reading of the clock and of the identifier source. *)
Definition next_oracle : M Oracle :=
  fun w => (Ok (oracles w (ticks w)),
            {| store := store w; files := files w;
               oracles := oracles w; ticks := S (ticks w) |}).

(** [for x in l: ...] in the world. *)
Fixpoint for_each {A B : Type} (f : A -> M B) (l : list A) : M (list B) :=
  match l with
  | [] => ret []
  | x :: rest =>
      y <~ f x ;;
      ys <~ for_each f rest ;;
      ret (y :: ys)
  end.

Section Storage.
Context `{UuidText} `{PathLib}.

(** Modelled from the spec: [prepare_thoughts_for_serialization] of the
    missing module [storage_utils]; every record carries all its
    attributes plus its identifier as text. *)
Definition prepare_thoughts_for_serialization (history : list ThoughtData)
  : list Dict :=
  map (fun t => to_dict t true) history.

(** Modelled from the spec: [save_thoughts_to_file] of the missing module
    [storage_utils]; the file is replaced as a whole.  The lock file
    guards against other processes and there is none here, so it is
    always acquired. *)
Definition save_thoughts_to_file (path : string) (records : list Dict)
    (lock_file : string) (metadata : option ExportMetadata) : M unit :=
  write_file path (SessionFile records metadata).

(** Modelled from the spec: reading one record of a session file, part of
    [load_thoughts_from_file] of the missing module [storage_utils]; a
    record that is no thought makes the file malformed. *)
Definition load_record (data : Dict) : M ThoughtData :=
  orc <~ next_oracle ;;
  match from_dict data orc with
  | Ok t => ret t
  | Raise e => throw (StorageError (exn_message e))
  end.

(** Modelled from the spec: [load_thoughts_from_file] of the missing
    module [storage_utils]; a missing file is an empty sequence, a
    malformed one a [StorageError]; an export envelope is ignored. *)
Definition load_thoughts_from_file (path : string) (lock_file : string)
  : M (list ThoughtData) :=
  content <~ read_file path ;;
  match content with
  | None => ret []
  | Some Malformed => throw (StorageError "malformed session file")
  | Some (SessionFile records _) => for_each load_record records
  end.

Definition _sanitize_project_id (project_id : option string) : string :=
  match project_id with
  | None => "default"
  | Some project_id =>
      if negb (PyStr.truthy project_id) then "default"
      else
        let cleaned :=
          PyStr.map_chars
            (fun c => if PyStr.in_safe_class c then c else "_"%char)
            (PyStr.strip project_id) in
        if PyStr.truthy cleaned then cleaned else "default"
  end.

Definition _session_file_for (s : ThoughtStorage) (project_id : string)
  : string :=
  storage_dir s +:+ "/" +:+ project_id +:+ "_session.json".

Definition _lock_file_for (s : ThoughtStorage) (project_id : string)
  : string :=
  storage_dir s +:+ "/" +:+ project_id +:+ "_session.lock".

Definition set_histories (s : ThoughtStorage)
    (histories : gmap string (list ThoughtData)) : ThoughtStorage :=
  {| storage_dir := storage_dir s;
     default_project_id := default_project_id s;
     _project_histories := histories;
     thought_history := thought_history s |}.

Definition set_thought_history (s : ThoughtStorage)
    (history : list ThoughtData) : ThoughtStorage :=
  {| storage_dir := storage_dir s;
     default_project_id := default_project_id s;
     _project_histories := _project_histories s;
     thought_history := history |}.

Definition set_default_project_id (s : ThoughtStorage) (project_id : string)
  : ThoughtStorage :=
  {| storage_dir := storage_dir s;
     default_project_id := project_id;
     _project_histories := _project_histories s;
     thought_history := thought_history s |}.

(** [self._project_histories[project_id]], present after
    [_ensure_history]. *)
Definition history_of (s : ThoughtStorage) (project_id : string)
  : list ThoughtData :=
  default [] (_project_histories s !! project_id).

Definition _ensure_history (project_id : string) : M (list ThoughtData) :=
  s <~ get_store ;;
  _ <~ match _project_histories s !! project_id with
       | None =>
           let session_file := _session_file_for s project_id in
           let lock_file := _lock_file_for s project_id in
           loaded <~ load_thoughts_from_file session_file lock_file ;;
           s <~ get_store ;;
           put_store (set_histories s
                        (<[project_id := loaded]> (_project_histories s)))
       | Some _ => ret tt
       end ;;
  s <~ get_store ;;
  _ <~ (if bool_decide (project_id = default_project_id s)
        then put_store (set_thought_history s (history_of s project_id))
        else ret tt) ;;
  s <~ get_store ;;
  ret (history_of s project_id).

(** [project_id or self.default_project_id] *)
Definition _resolve_project_id (project_id : option string) : M string :=
  s <~ get_store ;;
  let chosen :=
    match project_id with
    | Some p => if PyStr.truthy p then p else default_project_id s
    | None => default_project_id s
    end in
  ret (_sanitize_project_id (Some chosen)).

Definition _save_session (project_id : string) : M unit :=
  s <~ get_store ;;
  let history := history_of s project_id in
  let thoughts_with_ids := prepare_thoughts_for_serialization history in
  let session_file := _session_file_for s project_id in
  let lock_file := _lock_file_for s project_id in
  save_thoughts_to_file session_file thoughts_with_ids lock_file None.

Definition set_default_project (project_id : string) : M unit :=
  let resolved := _sanitize_project_id (Some project_id) in
  s <~ get_store ;;
  _ <~ put_store (set_default_project_id s resolved) ;;
  _ <~ _ensure_history resolved ;;
  s <~ get_store ;;
  put_store (set_thought_history s (history_of s resolved)).

(** [history.append(thought)] acts on the list the map holds, so the
    map sees the new element. *)
Definition add_thought (thought : ThoughtData) (project_id : option string)
  : M unit :=
  pid <~ _resolve_project_id project_id ;;
  history <~ _ensure_history pid ;;
  let history := history ++ [thought] in
  s <~ get_store ;;
  _ <~ put_store (set_histories s (<[pid := history]> (_project_histories s))) ;;
  s <~ get_store ;;
  _ <~ (if bool_decide (pid = default_project_id s)
        then put_store (set_thought_history s history)
        else ret tt) ;;
  _save_session pid.

Definition get_all_thoughts (project_id : option string)
  : M (list ThoughtData) :=
  pid <~ _resolve_project_id project_id ;;
  history <~ _ensure_history pid ;;
  ret history.

Definition get_thoughts_by_stage (wanted : ThoughtStage)
    (project_id : option string) : M (list ThoughtData) :=
  pid <~ _resolve_project_id project_id ;;
  history <~ _ensure_history pid ;;
  ret (filter (fun t => stage t = wanted) history).

Definition clear_history (project_id : option string) : M unit :=
  pid <~ _resolve_project_id project_id ;;
  _ <~ _ensure_history pid ;;
  let history : list ThoughtData := [] in
  s <~ get_store ;;
  _ <~ put_store (set_histories s (<[pid := history]> (_project_histories s))) ;;
  s <~ get_store ;;
  _ <~ (if bool_decide (pid = default_project_id s)
        then put_store (set_thought_history s history)
        else ret tt) ;;
  _save_session pid.

Definition export_session (file_path : string) (project_id : option string)
  : M unit :=
  pid <~ _resolve_project_id project_id ;;
  history <~ _ensure_history pid ;;
  let thoughts_with_ids := prepare_thoughts_for_serialization history in
  orc <~ next_oracle ;;
  let metadata :=
    {| exportedAt := now_isoformat orc;
       m_project := pid;
       m_totalThoughts := PySort.len history;
       m_stages :=
         map (fun st =>
                (stage_value st,
                 PySort.len (filter (fun t => stage t = st) history)))
             all_stages |} in
  lock_file <~ lift (with_suffix file_path ".lock") ;;
  save_thoughts_to_file file_path thoughts_with_ids lock_file (Some metadata).

Definition import_session (file_path : string) (project_id : option string)
  : M unit :=
  lock_file <~ lift (with_suffix file_path ".lock") ;;
  thoughts <~ load_thoughts_from_file file_path lock_file ;;
  pid <~ _resolve_project_id project_id ;;
  s <~ get_store ;;
  _ <~ put_store (set_histories s (<[pid := thoughts]> (_project_histories s))) ;;
  s <~ get_store ;;
  _ <~ (if bool_decide (pid = default_project_id s)
        then put_store (set_thought_history s thoughts)
        else ret tt) ;;
  _save_session pid.

(** [ThoughtStorage(storage_dir, default_project_id)]: [env_project] is
    the environment variable [MCP_PROJECT_ID], [home] the home directory;
    the new store replaces the one of the world. *)
Definition ThoughtStorage_init (dir : option string)
    (project : option string) (env_project : option string) (home : string)
  : M unit :=
  let storage_dir :=
    match dir with
    | None => home +:+ "/.mcp_sequential_thinking"
    | Some d => d
    end in
  let first_truthy (a b : option string) : option string :=
    match a with
    | Some x => if PyStr.truthy x then Some x else b
    | None => b
    end in
  let chosen :=
    default "default"
            (first_truthy project (first_truthy env_project None)) in
  let default_project_id := _sanitize_project_id (Some chosen) in
  _ <~ put_store {| storage_dir := storage_dir;
                    default_project_id := default_project_id;
                    _project_histories := ∅;
                    thought_history := [] |} ;;
  _ <~ _ensure_history default_project_id ;;
  ret tt.
End Storage.

(** ** server.py *)

(** The arguments of [process_thought] once the legacy payloads have been
    merged in and the values coerced to the types of the fields (the first
    part of the function, which reads JSON text, is outside this
    development): numbers are integers, the flag is a boolean, the lists
    are lists of strings, the confidence is a float or absent. *)
Record ThoughtRequest : Type := {
  q_thought : string;
  q_thought_number : Z;
  q_total_thoughts : Z;
  q_next_thought_needed : bool;
  q_stage : string;
  q_tags : list string;
  q_axioms_used : list string;
  q_assumptions_challenged : list string;
  q_files_touched : list string;
  q_tests_to_run : list string;
  q_dependencies : list string;
  q_risk_level : option string;
  q_confidence_score : option float;
  q_project_id : option string;
}.

Section Server.
Context `{UuidText} `{PathLib}.

(** [process_thought] from the point where its arguments are coerced, with
    no progress context: the default project is switched when a project is
    named, the stage and the risk level are parsed, the thought is
    constructed, stored and analyzed against the history that now holds
    it.  An exception raised here is what the enclosing [try] turns into a
    failure dictionary. *)
Definition process_thought (env : TestEnv) (q : ThoughtRequest)
  : M Analysis :=
  _ <~ match q_project_id q with
       | Some project_id =>
           if PyStr.truthy project_id then set_default_project project_id
           else ret tt
       | None => ret tt
       end ;;
  (* Convert stage string to enum (accepts aliases like "Planning") *)
  thought_stage <~ lift (from_string (q_stage q)) ;;
  risk_value <~
    lift (match q_risk_level q with
          | Some risk_level =>
              if PyStr.truthy risk_level then
                match RiskLevel_of_value (PyStr.lower risk_level) with
                | Ok r => Ok r
                | Raise _ =>
                    Raise (ValueError
                             ("Invalid risk_level '" +:+ risk_level
                              +:+ "'. Choose from: "
                              +:+ PyStr.join ", "
                                    (map risk_value all_risk_levels)))
                end
              else Ok MEDIUM
          | None => Ok MEDIUM
          end) ;;
  (* Create thought data object with defaults for optional fields *)
  orc <~ next_oracle ;;
  thought_data <~
    lift (ThoughtData_init
            {| kw_thought := Some (q_thought q);
               kw_thought_number := Some (q_thought_number q);
               kw_total_thoughts := Some (q_total_thoughts q);
               kw_next_thought_needed := Some (q_next_thought_needed q);
               kw_stage := Some thought_stage;
               kw_tags := Some (q_tags q);
               kw_axioms_used := Some (q_axioms_used q);
               kw_assumptions_challenged := Some (q_assumptions_challenged q);
               kw_files_touched := Some (q_files_touched q);
               kw_tests_to_run := Some (q_tests_to_run q);
               kw_risk_level := Some risk_value;
               kw_dependencies := Some (q_dependencies q);
               kw_confidence_score :=
                 Some (default 0.5%float (q_confidence_score q));
               kw_timestamp := None;
               kw_id := None |}
            orc) ;;
  (* Validate and store *)
  _ <~ add_thought thought_data (q_project_id q) ;;
  (* Get all thoughts for analysis *)
  all_thoughts <~ get_all_thoughts (q_project_id q) ;;
  (* Analyze the thought *)
  lift (ThoughtAnalyzer.analyze_thought env thought_data all_thoughts).

End Server.

(** ** Notions of the specification *)

(** Coverage: the number of records of a stage within a history. *)
Definition coverage (s : ThoughtStage) (records : list ThoughtData) : Z :=
  PySort.len (filter (fun t => stage t = s) records).

(** No canonical stage has zero coverage. *)
Definition every_stage_covered (records : list ThoughtData) : bool :=
  forallb (fun s => 0 <? coverage s records) all_stages.

(** The four guidance rules of the specification. *)
Inductive GuidanceRule : Type :=
| TotalReached
| ReviewComplete
| CoreStagesCovered
| ContinueNext.

(** Whether a rule recommends a further thought: only the last one does. *)
Definition rule_recommends_next (r : GuidanceRule) : bool :=
  match r with
  | ContinueNext => true
  | _ => false
  end.

(** The reason text the program gives for a rule; the specification quotes
    these texts in lower case and without the final full stop. *)
Definition rule_reason (r : GuidanceRule) : string :=
  match r with
  | TotalReached => "Reached total planned thoughts."
  | ReviewComplete => "Review stage complete."
  | CoreStagesCovered => "Core stages covered; diminishing returns."
  | ContinueNext => "Continue to next step."
  end.

(** The rules in the order of the specification, the first matching rule
    winning; [percent] is the progress of the analysis. *)
Definition first_matching_rule (t : ThoughtData) (records : list ThoughtData)
    (percent : float) : GuidanceRule :=
  if total_thoughts t <=? thought_number t then TotalReached
  else if bool_decide (stage t = REVIEW) then ReviewComplete
  else if every_stage_covered records && PrimFloat.leb 80 percent
       then CoreStagesCovered
  else ContinueNext.

Definition guidance_by_rules (t : ThoughtData) (records : list ThoughtData)
    (percent : float) : bool * string :=
  let rule := first_matching_rule t records percent in
  (rule_recommends_next rule, rule_reason rule).

(** The number of distinct entries two lists share. *)
Definition shared (a b : list string) : Z :=
  PySort.len (filter (fun x => x ∈ b) (remove_dups a)).

(** With respect to a sort's [before], [x] may stand in front of [y] when
    [y] does not have to stay in front of [x]. *)
Definition in_order {A : Type} (before : A -> A -> bool) (x y : A) : Prop :=
  before y x = false.

(** The relatedness score in the words of the specification. *)
Definition relatedness (target candidate : ThoughtData) : Z :=
  (if bool_decide (stage candidate = stage target) then 3 else 0)
  + 1 * shared (tags target) (tags candidate)
  + 2 * shared (files_touched target) (files_touched candidate)
  + 1 * shared (dependencies target) (dependencies candidate)
  + (if bool_decide (risk_level candidate = risk_level target) then 1 else 0).

(** The candidates of a relatedness search: every record but the target,
    by identifier, whose score is not zero. *)
Definition qualifies (target candidate : ThoughtData) : Prop :=
  thought_id candidate ≠ thought_id target ∧ relatedness target candidate ≠ 0.

#[global] Instance qualifies_dec target candidate :
  Decision (qualifies target candidate).
Proof. unfold qualifies. apply _. Defined.

(** The ranking of a relatedness search: higher score first, then higher
    sequence number first. *)
Definition ranks_before (target a b : ThoughtData) : Prop :=
  relatedness target b < relatedness target a
  ∨ (relatedness target b = relatedness target a
     ∧ thought_number b <= thought_number a).

(** The test runner's shortcuts stay out of the way: either the runner is
    not importable, or its helpers return nothing for this call. *)
Definition no_related_shortcut (env : TestEnv) (target : ThoughtData)
    (records : list ThoughtData) : Prop :=
  match env with
  | Some helpers => find_related_thoughts_test helpers target records = []
  | None => True
  end.


(** Every character of a string passes a test. *)
Fixpoint all_chars (test : ascii -> bool) (s : string) : bool :=
  match s with
  | EmptyString => true
  | String c s' => test c && all_chars test s'
  end.

(** Replacing every character outside the safe class by an underscore. *)
Definition replace_unsafe (s : string) : string :=
  PyStr.map_chars (fun c => if PyStr.in_safe_class c then c else "_"%char) s.

(** A stage name resolves when, trimmed and lower-cased, it is a canonical
    value in lower case or an entry of the synonym table. *)
Definition matches_canonical (value : string) : bool :=
  existsb (fun s => bool_decide (PyStr.casefold (stage_value s) = normalize value))
          all_stages.

Definition matches_alias (value : string) : bool :=
  existsb (fun entry : ThoughtStage * gset string =>
             bool_decide (normalize value ∈ entry.2))
          synonyms.

(** The project an operation of the store acts on: the sanitized form of
    the given identifier, or of the default one when none is given. *)
Definition project_key (s : ThoughtStorage) (project_id : option string)
  : string :=
  _sanitize_project_id
    (Some (match project_id with
           | Some p => if PyStr.truthy p then p else default_project_id s
           | None => default_project_id s
           end)).

(** Two records agree on every attribute but the identifier. *)
Definition same_but_id (a b : ThoughtData) : Prop :=
  thought a = thought b
  ∧ thought_number a = thought_number b
  ∧ total_thoughts a = total_thoughts b
  ∧ next_thought_needed a = next_thought_needed b
  ∧ stage a = stage b
  ∧ tags a = tags b
  ∧ axioms_used a = axioms_used b
  ∧ assumptions_challenged a = assumptions_challenged b
  ∧ files_touched a = files_touched b
  ∧ tests_to_run a = tests_to_run b
  ∧ risk_level a = risk_level b
  ∧ dependencies a = dependencies b
  ∧ confidence_score a = confidence_score b
  ∧ timestamp a = timestamp b.

(** The keyword arguments of a construction that supplies the body, the
    sequence number, the expected total, the continuation flag, the stage
    and the confidence score; the other arguments are those of [rest]. *)
Definition supplied (body : string) (number total : Z) (next : bool)
    (st : ThoughtStage) (confidence : float) (rest : ThoughtKwargs)
  : ThoughtKwargs :=
  {| kw_thought := Some body;
     kw_thought_number := Some number;
     kw_total_thoughts := Some total;
     kw_next_thought_needed := Some next;
     kw_stage := Some st;
     kw_tags := kw_tags rest;
     kw_axioms_used := kw_axioms_used rest;
     kw_assumptions_challenged := kw_assumptions_challenged rest;
     kw_files_touched := kw_files_touched rest;
     kw_tests_to_run := kw_tests_to_run rest;
     kw_risk_level := kw_risk_level rest;
     kw_dependencies := kw_dependencies rest;
     kw_confidence_score := Some confidence;
     kw_timestamp := kw_timestamp rest;
     kw_id := kw_id rest |}.

(** The four invariants of a record: body not empty after trimming,
    sequence number at least 1, total at least the sequence number,
    confidence within [0, 1]. *)
Definition invariants_hold (body : string) (number total : Z)
    (confidence : float) : bool :=
  PyStr.truthy (PyStr.strip body)
  && (1 <=? number)
  && (number <=? total)
  && PyNum.in_unit_interval confidence.

Definition no_arguments : ThoughtKwargs :=
  {| kw_thought := None;
     kw_thought_number := None;
     kw_total_thoughts := None;
     kw_next_thought_needed := None;
     kw_stage := None;
     kw_tags := None;
     kw_axioms_used := None;
     kw_assumptions_challenged := None;
     kw_files_touched := None;
     kw_tests_to_run := None;
     kw_risk_level := None;
     kw_dependencies := None;
     kw_confidence_score := None;
     kw_timestamp := None;
     kw_id := None |}.

(** ** Notions of the further properties *)

(** No character of the string is an underscore. *)
Definition no_underscore (s : string) : bool :=
  all_chars (fun c => negb (bool_decide (c = "_"%char))) s.

(** The number of occurrences of an item in a list. *)
Definition occurrences {K : Type} `{EqDecision K} (k : K) (items : list K)
  : Z :=
  PySort.len (filter (fun x => x = k) items).

(** The sequence numbers of the records that name a dependency, in the
    order of the records, once for every time a record names it. *)
Definition references (dependency : string) (records : list ThoughtData)
  : list Z :=
  flat_map (fun t =>
              map (fun _ => thought_number t)
                  (filter (fun d => d = dependency) (dependencies t)))
           records.




(** A request that is refused before anything is stored: its stage does
    not parse, its risk level is not one of the three, or its values break
    an invariant of the records. *)
Definition refused (q : ThoughtRequest) : Prop :=
  is_ok (from_string (q_stage q)) = false
  ∨ (exists r, q_risk_level q = Some r ∧ PyStr.truthy r = true
               ∧ is_ok (RiskLevel_of_value (PyStr.lower r)) = false)
  ∨ invariants_hold (q_thought q) (q_thought_number q) (q_total_thoughts q)
                    (default 0.5%float (q_confidence_score q)) = false.

(** ** Sample data *)

Definition sample_thought (text : string) (number total : Z)
    (st : ThoughtStage) (risk : RiskLevel) (ident : UUID) : ThoughtData :=
  {| thought := text;
     thought_number := number;
     total_thoughts := total;
     next_thought_needed := true;
     stage := st;
     tags := [];
     axioms_used := [];
     assumptions_challenged := [];
     files_touched := [];
     tests_to_run := [];
     risk_level := risk;
     dependencies := [];
     confidence_score := 0.5%float;
     timestamp := "2023-01-01T12:00:00";
     thought_id := ident |}.

(** A final review thought: number 5 of 5. *)
Definition final_review : ThoughtData :=
  sample_thought "Final review" 5 5 REVIEW MEDIUM 5%N.

Definition scoping_1 : ThoughtData :=
  sample_thought "First scoping thought" 1 5 SCOPING MEDIUM 1%N.

Definition scoping_2 : ThoughtData :=
  sample_thought "Second scoping thought" 2 5 SCOPING LOW 2%N.

Definition scoping_4 : ThoughtData :=
  sample_thought "Fourth thought, scoping again" 4 5 SCOPING MEDIUM 4%N.

Definition testing_3 : ThoughtData :=
  sample_thought "Testing thought" 3 5 TESTING HIGH 3%N.

Definition sample_oracle : Oracle :=
  {| now_isoformat := "2024-01-01T00:00:00"; uuid4 := 1000%N |}.

(** The fixtures of the repository's tests ([tests/test_analysis.py] and
    [tests/test_models.py]); time stamps and identifiers are fixed here. *)

Definition fixture (text : string) (number : Z) (st : ThoughtStage)
    (tg fl ts dp : list string) (risk : RiskLevel) (ident : UUID)
  : ThoughtData :=
  {| thought := text;
     thought_number := number;
     total_thoughts := 5;
     next_thought_needed := true;
     stage := st;
     tags := tg;
     axioms_used := [];
     assumptions_challenged := [];
     files_touched := fl;
     tests_to_run := ts;
     risk_level := risk;
     dependencies := dp;
     confidence_score := 0.5%float;
     timestamp := "2023-01-01T12:00:00";
     thought_id := ident |}.

Definition thought1 : ThoughtData :=
  fixture "First thought about climate change" 1 SCOPING
          ["climate"; "global"] ["README.md"] [] [] MEDIUM 101%N.

Definition thought2 : ThoughtData :=
  fixture "Research on emissions data" 2 RESEARCH_SPIKE
          ["climate"; "data"; "emissions"] [] [] ["epa-api"] MEDIUM 102%N.

Definition thought3 : ThoughtData :=
  fixture "Implementation of policy impacts" 3 IMPLEMENTATION
          ["policy"; "impact"] ["policy.py"] ["pytest tests/test_policy.py"] []
          HIGH 103%N.

Definition thought4 : ThoughtData :=
  fixture "Another scoping thought" 4 SCOPING
          ["problem"; "definition"] [] [] ["stakeholder-alignment"]
          MEDIUM 104%N.

Definition all_thoughts : list ThoughtData :=
  [thought1; thought2; thought3; thought4].

(** The thought of [test_to_dict]; its confidence is the float nearest to
    0.42. *)
Definition dict_thought : ThoughtData :=
  {| thought := "Test thought";
     thought_number := 1;
     total_thoughts := 3;
     next_thought_needed := true;
     stage := SCOPING;
     tags := ["tag1"; "tag2"];
     axioms_used := ["axiom1"];
     assumptions_challenged := ["assumption1"];
     files_touched := ["file.py"];
     tests_to_run := ["pytest tests/test_file.py"];
     risk_level := HIGH;
     dependencies := ["redis"];
     confidence_score := 0x1.ae147ae147ae1p-2%float;
     timestamp := "2023-01-01T12:00:00";
     thought_id := 105%N |}.

(** The dictionary [test_to_dict] expects, and [test_from_dict] reads with
    another confidence. *)
Definition expected_dict (confidence : float) : Dict :=
  [ ("thought", VStr "Test thought");
    ("thoughtNumber", VInt 1);
    ("totalThoughts", VInt 3);
    ("nextThoughtNeeded", VBool true);
    ("stage", VStr "Scoping");
    ("tags", str_list ["tag1"; "tag2"]);
    ("axiomsUsed", str_list ["axiom1"]);
    ("assumptionsChallenged", str_list ["assumption1"]);
    ("filesTouched", str_list ["file.py"]);
    ("testsToRun", str_list ["pytest tests/test_file.py"]);
    ("riskLevel", VStr "high");
    ("dependencies", str_list ["redis"]);
    ("confidenceScore", VFloat confidence);
    ("timestamp", VStr "2023-01-01T12:00:00") ].

(** Two dictionaries are equal when they have the same keys with the same
    values, in whatever order. *)
Definition same_dict (a b : Dict) : Prop :=
  length a = length b
  ∧ Forall (fun k => PyDict.get k a = PyDict.get k b) (PyDict.keys a).

(** A stand-in for the library's identifier text: one text for every
    identifier, which does not parse back. *)
Definition sample_uuid_text : UuidText :=
  {| uuid_str := fun _ => "00000000-0000-0000-0000-000000000000";
     uuid_parse := fun _ => None |}.

(** A stand-in for the library's paths: the suffix is appended. *)
Definition sample_paths : PathLib :=
  {| with_suffix := fun path suffix => Ok (path +:+ suffix) |}.

(** A store with two thoughts in its default project and no files. *)
Definition sample_world : World :=
  {| store :=
       {| storage_dir := "/data";
          default_project_id := "default";
          _project_histories := {[ "default" := [scoping_1; scoping_2] ]};
          thought_history := [scoping_1; scoping_2] |};
     files := ∅;
     oracles := fun n => {| now_isoformat := "2024-01-01T00:00:00";
                            uuid4 := N.of_nat n |};
     ticks := 0 |}.


(** A request for another project, with a stage that no table knows. *)
Definition unknown_stage_request : ThoughtRequest :=
  {| q_thought := "Think";
     q_thought_number := 1;
     q_total_thoughts := 2;
     q_next_thought_needed := true;
     q_stage := "Daydreaming";
     q_tags := [];
     q_axioms_used := [];
     q_assumptions_challenged := [];
     q_files_touched := [];
     q_tests_to_run := [];
     q_dependencies := [];
     q_risk_level := None;
     q_confidence_score := None;
     q_project_id := Some "side project" |}.

(** * Properties *)

(** ** Strings *)

Lemma safe_char_not_space (c : ascii) :
  PyStr.in_safe_class c = true -> PyStr.isspace c = false.
Proof.
  destruct c as [[] [] [] [] [] [] [] []]; vm_compute; congruence.
Qed.

Lemma underscore_is_safe : PyStr.in_safe_class "_"%char = true.
Proof. reflexivity. Qed.

Lemma lstrip_no_space (s : string) :
  all_chars (fun c => negb (PyStr.isspace c)) s = true -> PyStr.lstrip s = s.
Proof.
  destruct s as [|c s]; simpl; [done|].
  intros [Hc _]%andb_prop. by destruct (PyStr.isspace c).
Qed.

Lemma rstrip_no_space (s : string) :
  all_chars (fun c => negb (PyStr.isspace c)) s = true -> PyStr.rstrip s = s.
Proof.
  induction s as [|c s IH]; simpl; [done|].
  intros [Hc Hs]%andb_prop. rewrite (IH Hs).
  destruct s; [|done]. by destruct (PyStr.isspace c).
Qed.

Lemma strip_no_space (s : string) :
  all_chars (fun c => negb (PyStr.isspace c)) s = true -> PyStr.strip s = s.
Proof.
  intros Hs. unfold PyStr.strip. rewrite (rstrip_no_space s Hs).
  by apply lstrip_no_space.
Qed.

Lemma all_chars_impl (p q : ascii -> bool) (s : string) :
  (forall c, p c = true -> q c = true) ->
  all_chars p s = true -> all_chars q s = true.
Proof.
  intros Hpq. induction s as [|c s IH]; simpl; [done|].
  intros [Hc Hs]%andb_prop. by rewrite (Hpq c Hc), (IH Hs).
Qed.

Lemma replace_unsafe_is_safe (s : string) :
  all_chars PyStr.in_safe_class (replace_unsafe s) = true.
Proof.
  unfold replace_unsafe. induction s as [|c s IH]; simpl; [done|].
  rewrite IH, andb_true_r.
  destruct (PyStr.in_safe_class c) eqn:Hc; [done|reflexivity].
Qed.

Lemma replace_unsafe_fixed (s : string) :
  all_chars PyStr.in_safe_class s = true -> replace_unsafe s = s.
Proof.
  unfold replace_unsafe. induction s as [|c s IH]; simpl; [done|].
  intros [Hc Hs]%andb_prop. by rewrite Hc, (IH Hs).
Qed.

Lemma truthy_replace_unsafe (s : string) :
  PyStr.truthy (replace_unsafe s) = PyStr.truthy s.
Proof. by destruct s. Qed.

Lemma strip_empty : PyStr.strip EmptyString = EmptyString.
Proof. reflexivity. Qed.

(** The sanitizer maps a present string to the trimmed and replaced text,
    or to the default name when nothing is left after trimming. *)
Lemma sanitize_some (s : string) :
  _sanitize_project_id (Some s)
  = if PyStr.truthy (PyStr.strip s) then replace_unsafe (PyStr.strip s)
    else "default".
Proof.
  unfold _sanitize_project_id. destruct s as [|c s]; [done|].
  cbn [PyStr.truthy negb]. fold (replace_unsafe (PyStr.strip (String c s))).
  by rewrite truthy_replace_unsafe.
Qed.

Lemma sanitize_fixed (r : string) :
  all_chars PyStr.in_safe_class r = true -> PyStr.truthy r = true ->
  _sanitize_project_id (Some r) = r.
Proof.
  intros Hsafe Hr. rewrite sanitize_some.
  assert (PyStr.strip r = r) as ->.
  { apply strip_no_space. revert Hsafe. apply all_chars_impl.
    intros c Hc. by rewrite (safe_char_not_space c Hc). }
  by rewrite Hr, replace_unsafe_fixed.
Qed.

Lemma sanitize_result_safe (x : option string) :
  all_chars PyStr.in_safe_class (_sanitize_project_id x) = true
  ∧ PyStr.truthy (_sanitize_project_id x) = true.
Proof.
  destruct x as [s|]; [|done]. rewrite sanitize_some.
  destruct (PyStr.truthy (PyStr.strip s)) eqn:Hs; [|done].
  split; [apply replace_unsafe_is_safe|]. by rewrite truthy_replace_unsafe.
Qed.

(** ** The project-identifier sanitizer *)

(** C9, as stated, fails on an input of blanks only: it is neither empty
    nor absent, trimming and replacing leave the empty string, and the
    sanitizer returns the default name. *)
Lemma sanitize_blank_counterexample :
  " " ≠ EmptyString
  ∧ replace_unsafe (PyStr.strip " ") = EmptyString
  ∧ _sanitize_project_id (Some " ") = "default"
  ∧ ¬ (forall s : string,
         s ≠ EmptyString ->
         _sanitize_project_id (Some s) = replace_unsafe (PyStr.strip s)).
Proof.
  split; [done|]. split; [reflexivity|]. split; [reflexivity|].
  intros Hall. assert (E := Hall " " ltac:(done)).
  vm_compute in E. discriminate E.
Qed.

(** C9, amended: the sanitizer is a function that is idempotent; an absent
    input, and a string of which nothing is left after trimming (the empty
    string among them), map to "default"; any other string is trimmed and
    every character outside [A-Za-z0-9._-] is replaced by "_"; so "" gives
    "default" and "a/b c" gives "a_b_c". *)
Theorem sanitize_project_id_spec :
  (forall x : option string,
     _sanitize_project_id (Some (_sanitize_project_id x))
     = _sanitize_project_id x)
  ∧ _sanitize_project_id None = "default"
  ∧ (forall s : string,
       _sanitize_project_id (Some s)
       = if PyStr.truthy (PyStr.strip s) then replace_unsafe (PyStr.strip s)
         else "default")
  ∧ _sanitize_project_id (Some EmptyString) = "default"
  ∧ _sanitize_project_id (Some "a/b c") = "a_b_c".
Proof.
  repeat split; try reflexivity.
  - intros x. destruct (sanitize_result_safe x) as [Hsafe Hnonempty].
    by apply sanitize_fixed.
  - apply sanitize_some.
Qed.

(** ** Parsing a stage name *)

Lemma find_none_of_existsb {A : Type} (f : A -> bool) (l : list A) :
  existsb f l = false -> List.find f l = None.
Proof.
  induction l as [|x l IH]; simpl; [done|].
  intros [Hx Hl]%orb_false_elim. rewrite Hx. by apply IH.
Qed.

(** C7, as stated, fails on the empty string: it equals no canonical value
    and no alias, and parsing returns the Implementation stage. *)
Lemma from_string_empty_counterexample :
  matches_canonical EmptyString = false
  ∧ matches_alias EmptyString = false
  ∧ from_string EmptyString = Ok IMPLEMENTATION.
Proof. repeat split; vm_compute; reflexivity. Qed.

(** C7, amended: a non-empty input that, trimmed and lower-cased, is no
    canonical value in lower case and no entry of the synonym table makes
    [from_string] raise a [ValueError]; the empty string is not an error,
    it is the Implementation stage. *)
Theorem from_string_unresolvable (value : string) :
  value ≠ EmptyString ->
  matches_canonical value = false ->
  matches_alias value = false ->
  from_string value = Raise (ValueError (invalid_stage_message value))
  ∧ from_string EmptyString = Ok IMPLEMENTATION.
Proof.
  intros Hne Hcanon Halias. split; [|reflexivity].
  unfold from_string. destruct value as [|c value]; [done|].
  cbn [PyStr.truthy negb].
  rewrite (find_none_of_existsb _ _ Hcanon).
  by rewrite (find_none_of_existsb _ _ Halias).
Qed.

Lemma from_string_unresolvable_witness :
  from_string "Invalid Stage"
  = Raise (ValueError (invalid_stage_message "Invalid Stage"))
  ∧ from_string EmptyString = Ok IMPLEMENTATION.
Proof.
  apply (from_string_unresolvable "Invalid Stage");
    [done | vm_compute; reflexivity | vm_compute; reflexivity].
Defined.

(** ** Construction of a record *)

Lemma strip_truthy_truthy (s : string) :
  PyStr.truthy (PyStr.strip s) = true -> PyStr.truthy s = true.
Proof. by destruct s. Qed.

(** A construction whose arguments satisfy the invariants yields the record
    of these arguments, with the defaults for what was left out. *)
Lemma init_of_valid (body : string) (number total : Z) (next : bool)
    (st : ThoughtStage) (confidence : float) (rest : ThoughtKwargs)
    (orc : Oracle) :
  invariants_hold body number total confidence = true ->
  ThoughtData_init (supplied body number total next st confidence rest) orc
  = Ok {| thought := body;
          thought_number := number;
          total_thoughts := total;
          next_thought_needed := next;
          stage := st;
          tags := default [] (kw_tags rest);
          axioms_used := default [] (kw_axioms_used rest);
          assumptions_challenged := default [] (kw_assumptions_challenged rest);
          files_touched := default [] (kw_files_touched rest);
          tests_to_run := default [] (kw_tests_to_run rest);
          risk_level := default MEDIUM (kw_risk_level rest);
          dependencies := default [] (kw_dependencies rest);
          confidence_score := confidence;
          timestamp := default (now_isoformat orc) (kw_timestamp rest);
          thought_id := default (uuid4 orc) (kw_id rest) |}.
Proof.
  unfold invariants_hold. intros Hinv.
  apply andb_prop in Hinv as [Hinv Hc]. apply andb_prop in Hinv as [Hinv Ht].
  apply andb_prop in Hinv as [Hb Hn].
  unfold ThoughtData_init, supplied.
  cbn [kw_thought kw_thought_number kw_total_thoughts kw_next_thought_needed
       kw_stage kw_confidence_score required optional].
  unfold thought_not_empty, thought_number_positive, confidence_in_range.
  rewrite Hb, (strip_truthy_truthy body Hb), Hc. cbn [negb orb].
  replace (number <? 1) with false
    by (symmetry; apply Z.ltb_ge; apply Z.leb_le in Hn; lia).
  cbn [passed total_thoughts_valid].
  replace (total <? number) with false
    by (symmetry; apply Z.ltb_ge; apply Z.leb_le in Ht; lia).
  reflexivity.
Qed.

(** Every record that a construction returns satisfies the invariants,
    whatever the arguments were. *)
Lemma constructed_well_formed (kw : ThoughtKwargs) (orc : Oracle)
    (t : ThoughtData) :
  ThoughtData_init kw orc = Ok t -> well_formed t = true.
Proof.
  unfold ThoughtData_init, required, optional, thought_not_empty,
    thought_number_positive, confidence_in_range, well_formed.
  destruct (kw_thought kw) as [body|]; [|discriminate].
  destruct (kw_thought_number kw) as [number|];
    [|destruct (negb _ || negb _); discriminate].
  destruct (kw_total_thoughts kw) as [total|];
    [|destruct (negb _ || negb _), (number <? 1); discriminate].
  destruct (PyStr.truthy (PyStr.strip body)) eqn:Hb;
    [|rewrite orb_true_r; discriminate].
  rewrite (strip_truthy_truthy body Hb). cbn [negb orb].
  destruct (Z.ltb_spec number 1) as [Hn|Hn]; [discriminate|].
  cbn [passed total_thoughts_valid].
  destruct (Z.ltb_spec total number) as [Ht|Ht]; [discriminate|].
  destruct (kw_next_thought_needed kw) as [next|]; [|discriminate].
  destruct (kw_stage kw) as [st|]; [|discriminate].
  assert (forall c : float,
            PyNum.in_unit_interval c = true ->
            PyStr.truthy (PyStr.strip body) && (1 <=? number)
            && (number <=? total) && PyNum.in_unit_interval c = true)
    as Hall.
  { intros c ->. rewrite Hb.
    replace (1 <=? number) with true by (symmetry; apply Z.leb_le; lia).
    by replace (number <=? total) with true by (symmetry; apply Z.leb_le; lia). }
  destruct (kw_confidence_score kw) as [c|].
  - destruct (PyNum.in_unit_interval c) eqn:Hc; cbn [negb]; [|discriminate].
    intros [= <-].
    cbn [thought thought_number total_thoughts confidence_score].
    by apply Hall.
  - intros [= <-].
    cbn [thought thought_number total_thoughts confidence_score].
    by apply Hall.
Qed.

(** C4: a construction that supplies body, sequence number, total and
    confidence succeeds exactly when the four invariants hold, and then
    yields a record with the supplied values; otherwise it raises a
    validation error and yields no record. *)
Theorem construction_succeeds_iff_invariants
    (body : string) (number total : Z) (next : bool) (st : ThoughtStage)
    (confidence : float) (rest : ThoughtKwargs) (orc : Oracle) :
  match ThoughtData_init (supplied body number total next st confidence rest)
                         orc with
  | Ok t =>
      invariants_hold body number total confidence = true
      ∧ thought t = body ∧ thought_number t = number
      ∧ total_thoughts t = total ∧ confidence_score t = confidence
      ∧ well_formed t = true
  | Raise e =>
      invariants_hold body number total confidence = false
      ∧ exists errors, e = ValidationError errors ∧ errors ≠ []
  end.
Proof.
  unfold ThoughtData_init, supplied, invariants_hold, well_formed.
  cbn [kw_thought kw_thought_number kw_total_thoughts kw_next_thought_needed
       kw_stage kw_confidence_score required optional].
  unfold thought_not_empty, thought_number_positive, confidence_in_range.
  destruct (PyStr.truthy (PyStr.strip body)) eqn:Hstrip.
  - rewrite (strip_truthy_truthy body Hstrip). cbn [negb orb andb].
    destruct (Z.ltb_spec number 1) as [Hn|Hn].
    + cbn [passed total_thoughts_valid].
      replace (1 <=? number) with false by (symmetry; apply Z.leb_gt; lia).
      cbn [andb].
      destruct (PyNum.in_unit_interval confidence);
        (split; [done|]); eexists; (split; [reflexivity|done]).
    + cbn [passed total_thoughts_valid].
      replace (1 <=? number) with true by (symmetry; apply Z.leb_le; lia).
      destruct (Z.ltb_spec total number) as [Ht|Ht].
      * replace (number <=? total) with false by (symmetry; apply Z.leb_gt; lia).
        cbn [andb].
        destruct (PyNum.in_unit_interval confidence);
          (split; [done|]); eexists; (split; [reflexivity|done]).
      * replace (number <=? total) with true by (symmetry; apply Z.leb_le; lia).
        destruct (PyNum.in_unit_interval confidence) eqn:Hc; cbn.
        -- fold (PyStr.strip body). rewrite Hstrip, Hc.
           replace (1 <=? number) with true by (symmetry; apply Z.leb_le; lia).
           replace (number <=? total) with true by (symmetry; apply Z.leb_le; lia).
           done.
        -- split; [done|]. eexists; (split; [reflexivity|done]).
  - cbn [andb negb]. rewrite orb_true_r.
    destruct (number <? 1), (PyNum.in_unit_interval confidence);
      cbn; try destruct (total <? number);
      (split; [done|]); eexists; (split; [reflexivity|done]).
Qed.

(** ** Analysis of a thought *)

Lemma overflow_bound_large : 2 <= PyNum.overflow_bound.
Proof. vm_compute. discriminate. Qed.

(** The progress ratio of a thought whose number is between 1 and its
    total is computed without error. *)
Lemma int_truediv_within (n total : Z) :
  1 <= n -> n <= total -> exists ratio, PyNum.int_truediv n total = Ok ratio.
Proof.
  intros Hn Ht. unfold PyNum.int_truediv.
  replace (total =? 0) with false by (symmetry; apply Z.eqb_neq; lia).
  pose proof overflow_bound_large as Hb.
  replace (PyNum.overflow_bound * Z.abs total <=? Z.abs n) with false.
  - eexists. reflexivity.
  - symmetry. apply Z.leb_gt. rewrite !Z.abs_eq by lia. nia.
Qed.

Lemma well_formed_bounds (t : ThoughtData) :
  well_formed t = true -> 1 <= thought_number t <= total_thoughts t.
Proof.
  unfold well_formed. intros H.
  apply andb_prop in H as [H _]. apply andb_prop in H as [H Ht].
  apply andb_prop in H as [_ Hn].
  apply Z.leb_le in Hn, Ht. lia.
Qed.

Lemma coverage_nil (s : ThoughtStage) : coverage s [] = 0.
Proof. reflexivity. Qed.

Lemma coverage_cons (s : ThoughtStage) (t : ThoughtData)
    (records : list ThoughtData) :
  coverage s (t :: records)
  = (if decide (stage t = s) then 1 else 0) + coverage s records.
Proof.
  unfold coverage, PySort.len. rewrite filter_cons.
  destruct (decide (stage t = s)); simpl length; lia.
Qed.

Lemma coverage_nonneg (s : ThoughtStage) (records : list ThoughtData) :
  0 <= coverage s records.
Proof. unfold coverage, PySort.len. lia. Qed.

(** The coverage dictionary, as a function of the count per stage. *)
Lemma stage_coverage_step (f : ThoughtStage -> Z) (st : ThoughtStage) :
  PyDict.set st
    (PyDict.get_default st 0 (map (fun s => (s, f s)) all_stages) + 1)
    (map (fun s => (s, f s)) all_stages)
  = map (fun s => (s, (if decide (st = s) then 1 else 0) + f s)) all_stages.
Proof.
  destruct st; unfold PyDict.get_default; cbn;
    repeat (case_decide; try congruence); cbn;
    rewrite ?Z.add_0_l, (Z.add_comm 1); reflexivity.
Qed.

Lemma stage_coverage_fold (f : ThoughtStage -> Z) (records : list ThoughtData) :
  foldl (fun coverage thought =>
           PyDict.set (stage thought)
                      (PyDict.get_default (stage thought) 0 coverage + 1)
                      coverage)
        (map (fun s => (s, f s)) all_stages) records
  = map (fun s => (s, coverage s records + f s)) all_stages.
Proof.
  revert f. induction records as [|t records IH]; intros f.
  - cbn [foldl]. apply map_ext. intros s. by rewrite coverage_nil.
  - cbn [foldl]. rewrite stage_coverage_step, IH.
    apply map_ext. intros s. rewrite coverage_cons. f_equal. lia.
Qed.

(** [_stage_coverage] holds, for every canonical stage in order, the
    number of records of that stage. *)
Lemma stage_coverage_counts (records : list ThoughtData) :
  ThoughtAnalyzer._stage_coverage records
  = map (fun s => (s, coverage s records)) all_stages.
Proof.
  unfold ThoughtAnalyzer._stage_coverage.
  rewrite (stage_coverage_fold (fun _ => 0)).
  apply map_ext. intros s. f_equal. lia.
Qed.

Lemma pending_empty_iff_covered (f : ThoughtStage -> Z) (l : list ThoughtStage) :
  (forall s, 0 <= f s) ->
  (PySort.len
     (map (fun entry : ThoughtStage * Z => stage_value entry.1)
          (filter (fun entry : ThoughtStage * Z => entry.2 = 0)
                  (map (fun s => (s, f s)) l))) =? 0)
  = forallb (fun s => 0 <? f s) l.
Proof.
  intros Hf. induction l as [|s l IH]; [reflexivity|].
  cbn [map forallb]. rewrite filter_cons. cbn [snd].
  destruct (decide (f s = 0)) as [Hz|Hz].
  - rewrite Hz. cbn. unfold PySort.len. simpl length.
    apply Z.eqb_neq. lia.
  - replace (0 <? f s) with true
      by (symmetry; apply Z.ltb_lt; specialize (Hf s); lia).
    exact IH.
Qed.

(** The guidance of the code agrees with the rules of the specification. *)
Lemma guidance_agrees (t : ThoughtData) (records : list ThoughtData)
    (percent : float) :
  ThoughtAnalyzer.guidance t
    (map (fun entry : ThoughtStage * Z => stage_value entry.1)
         (filter (fun entry : ThoughtStage * Z => entry.2 = 0)
                 (ThoughtAnalyzer._stage_coverage records)))
    percent
  = guidance_by_rules t records percent.
Proof.
  unfold ThoughtAnalyzer.guidance, guidance_by_rules, first_matching_rule,
    every_stage_covered.
  rewrite stage_coverage_counts.
  rewrite (pending_empty_iff_covered (fun s => coverage s records))
    by (intros s; apply coverage_nonneg).
  rewrite Z.geb_leb.
  destruct (total_thoughts t <=? thought_number t); [reflexivity|].
  destruct (bool_decide (stage t = REVIEW)); [reflexivity|].
  by destruct (forallb _ all_stages && PrimFloat.leb 80 percent).
Qed.

(** What [analyze_thought] returns once the progress ratio is known. *)
Lemma analyze_thought_fields (env : TestEnv) (t : ThoughtData)
    (records : list ThoughtData) (ratio : float) :
  PyNum.int_truediv (thought_number t) (total_thoughts t) = Ok ratio ->
  exists a,
    ThoughtAnalyzer.analyze_thought env t records = Ok a
    ∧ progress a = PrimFloat.mul ratio 100
    ∧ isFirstInStage a = (ThoughtAnalyzer.related_and_first env t records).2
    ∧ testingReady a
      = ThoughtAnalyzer._has_testing_after_implementation records
    ∧ (recommendedNextThoughtNeeded a, reason a)
      = guidance_by_rules t records (PrimFloat.mul ratio 100).
Proof.
  intros Hratio. unfold ThoughtAnalyzer.analyze_thought.
  destruct (ThoughtAnalyzer.related_and_first env t records)
    as [related first] eqn:Hrel.
  rewrite Hratio. cbn [bind]. rewrite guidance_agrees.
  destruct (guidance_by_rules t records (PrimFloat.mul ratio 100))
    as [next why] eqn:Hg.
  eexists. split; [reflexivity|]. cbn. done.
Qed.

(** C2: for a constructed thought and any record list, the analysis
    exists, its progress is the sequence number over the total times 100,
    and its guidance is the first matching rule of: number at least total,
    stage Review, every stage covered with progress at least 80, and
    continue otherwise. *)
Theorem guidance_follows_rules (env : TestEnv) (t : ThoughtData)
    (records : list ThoughtData) :
  well_formed t = true ->
  exists a ratio,
    ThoughtAnalyzer.analyze_thought env t records = Ok a
    ∧ PyNum.int_truediv (thought_number t) (total_thoughts t) = Ok ratio
    ∧ progress a = PrimFloat.mul ratio 100
    ∧ recommendedNextThoughtNeeded a
      = rule_recommends_next (first_matching_rule t records (progress a))
    ∧ reason a = rule_reason (first_matching_rule t records (progress a)).
Proof.
  intros Hwf. apply well_formed_bounds in Hwf as [Hn Ht].
  destruct (int_truediv_within _ _ Hn Ht) as [ratio Hratio].
  destruct (analyze_thought_fields env t records ratio Hratio)
    as (a & Ha & Hp & _ & _ & Hg).
  exists a, ratio. rewrite Hp. unfold guidance_by_rules in Hg.
  injection Hg as Hnext Hreason. done.
Qed.

Lemma guidance_follows_rules_witness :
  exists a ratio,
    ThoughtAnalyzer.analyze_thought None scoping_1 [scoping_1; testing_3] = Ok a
    ∧ PyNum.int_truediv (thought_number scoping_1) (total_thoughts scoping_1)
      = Ok ratio
    ∧ progress a = PrimFloat.mul ratio 100
    ∧ recommendedNextThoughtNeeded a
      = rule_recommends_next
          (first_matching_rule scoping_1 [scoping_1; testing_3] (progress a))
    ∧ reason a
      = rule_reason
          (first_matching_rule scoping_1 [scoping_1; testing_3] (progress a)).
Proof.
  apply (guidance_follows_rules None scoping_1 [scoping_1; testing_3]).
  reflexivity.
Defined.

(** C1, as stated, fails: for thought 5 of 5 in stage Review the guidance
    stops, but its reason is that of the first rule, the planned total
    being reached, and not that of the Review rule. *)
Lemma final_review_counterexample :
  thought_number final_review = 5
  ∧ total_thoughts final_review = 5
  ∧ stage final_review = REVIEW
  ∧ exists a,
      ThoughtAnalyzer.analyze_thought None final_review [final_review] = Ok a
      ∧ recommendedNextThoughtNeeded a = false
      ∧ reason a = rule_reason TotalReached
      ∧ reason a ≠ rule_reason ReviewComplete.
Proof.
  repeat split. eexists. split; [vm_compute; reflexivity|]. cbn. done.
Qed.

(** C1, amended: for a thought with sequence number 5, total 5 and stage
    Review, analyzed against any record list, the guidance stops, and its
    reason is that the planned total is reached. *)
Theorem final_review_stops_at_total (env : TestEnv) (t : ThoughtData)
    (records : list ThoughtData) :
  thought_number t = 5 -> total_thoughts t = 5 -> stage t = REVIEW ->
  exists a,
    ThoughtAnalyzer.analyze_thought env t records = Ok a
    ∧ recommendedNextThoughtNeeded a = false
    ∧ reason a = rule_reason TotalReached.
Proof.
  intros Hn Ht Hs.
  assert (exists ratio,
            PyNum.int_truediv (thought_number t) (total_thoughts t) = Ok ratio)
    as [ratio Hratio].
  { rewrite Hn, Ht. eexists. vm_compute. reflexivity. }
  destruct (analyze_thought_fields env t records ratio Hratio)
    as (a & Ha & _ & _ & _ & Hg).
  exists a. split; [exact Ha|].
  unfold guidance_by_rules, first_matching_rule in Hg.
  rewrite Hn, Ht in Hg. change (5 <=? 5) with true in Hg. cbv iota in Hg.
  injection Hg as Hnext Hreason. by split.
Qed.

Lemma final_review_stops_at_total_witness :
  exists a,
    ThoughtAnalyzer.analyze_thought None final_review [scoping_1; final_review]
    = Ok a
    ∧ recommendedNextThoughtNeeded a = false
    ∧ reason a = rule_reason TotalReached.
Proof.
  apply (final_review_stops_at_total None final_review
           [scoping_1; final_review]); reflexivity.
Defined.



Lemma filter_none {A : Type} (P : A -> Prop) `{forall x, Decision (P x)}
    (l : list A) :
  (forall x, x ∈ l -> ¬ P x) -> filter P l = [].
Proof.
  induction l as [|x l IH]; intros Hl; [reflexivity|].
  rewrite filter_cons. destruct (decide (P x)) as [Hx|Hx].
  - exfalso. apply (Hl x); [left|exact Hx].
  - apply IH. intros y Hy. apply Hl. by right.
Qed.

(** C10: for a constructed thought and a record list without a record of
    the Implementation stage, the testing-ready insight of the analysis is
    false, whatever Testing records the list holds. *)
Theorem testing_ready_needs_implementation (env : TestEnv) (t : ThoughtData)
    (records : list ThoughtData) :
  well_formed t = true ->
  (forall r, r ∈ records -> stage r ≠ IMPLEMENTATION) ->
  exists a,
    ThoughtAnalyzer.analyze_thought env t records = Ok a
    ∧ testingReady a = false.
Proof.
  intros Hwf Hnone. apply well_formed_bounds in Hwf as [Hn Ht].
  destruct (int_truediv_within _ _ Hn Ht) as [ratio Hratio].
  destruct (analyze_thought_fields env t records ratio Hratio)
    as (a & Ha & _ & _ & Hready & _).
  exists a. split; [exact Ha|]. rewrite Hready.
  unfold ThoughtAnalyzer._has_testing_after_implementation.
  assert (filter (fun thought => stage thought = IMPLEMENTATION) records = [])
    as ->; [|reflexivity].
  apply filter_none. exact Hnone.
Qed.

Lemma testing_ready_needs_implementation_witness :
  exists a,
    ThoughtAnalyzer.analyze_thought None testing_3 [scoping_1; testing_3] = Ok a
    ∧ testingReady a = false.
Proof.
  apply (testing_ready_needs_implementation None testing_3
           [scoping_1; testing_3]); [reflexivity|].
  intros r Hr. apply list_elem_of_In in Hr. simpl in Hr.
  destruct Hr as [<-|[<-|[]]]; discriminate.
Defined.

(** ** Summary of a history *)





Lemma foldl_max_ge (l : list Z) (x : Z) : x <= foldl Z.max x l.
Proof.
  revert x. induction l as [|y l IH]; intros x; simpl; [lia|].
  specialize (IH (Z.max x y)). lia.
Qed.

Lemma foldl_max_upper (l : list Z) (x y : Z) : y ∈ l -> y <= foldl Z.max x l.
Proof.
  revert x. induction l as [|z l IH]; intros x Hy; [by inversion Hy|].
  simpl. apply elem_of_cons in Hy as [->|Hy].
  - pose proof (foldl_max_ge l (Z.max x z)). lia.
  - by apply IH.
Qed.

Lemma foldl_max_in (l : list Z) (x : Z) :
  foldl Z.max x l = x ∨ foldl Z.max x l ∈ l.
Proof.
  revert x. induction l as [|z l IH]; intros x; simpl; [by left|].
  destruct (IH (Z.max x z)) as [E|E].
  - rewrite E. destruct (Z.max_spec x z) as [[_ ->]|[_ ->]];
      [right; left|left; reflexivity].
  - right. by right.
Qed.






(** ** The stable sort *)

Section StableSort.
Context {A : Type} (before : A -> A -> bool).

Lemma insert_Permutation (x : A) (l : list A) :
  Permutation (PySort.insert before x l) (x :: l).
Proof.
  induction l as [|y l IH]; simpl; [done|].
  destruct (before y x); [|done].
  rewrite IH. apply perm_swap.
Qed.

Lemma stable_sort_Permutation (l : list A) :
  Permutation (PySort.stable_sort before l) l.
Proof.
  unfold PySort.stable_sort. induction l as [|x l IH]; simpl; [done|].
  rewrite insert_Permutation. by constructor.
Qed.

Hypothesis before_asym : forall x y, before y x = true -> before x y = false.
Hypothesis in_order_trans :
  forall x y z,
    in_order before x y -> in_order before y z -> in_order before x z.

Lemma insert_sorted (x : A) (l : list A) :
  StronglySorted (in_order before) l ->
  StronglySorted (in_order before) (PySort.insert before x l).
Proof.
  induction 1 as [|y l Hsorted IH Hy]; simpl.
  - repeat constructor.
  - destruct (before y x) eqn:Hyx.
    + constructor; [exact IH|].
      rewrite insert_Permutation. constructor; [|exact Hy].
      unfold in_order. by apply before_asym.
    + constructor; [by constructor|].
      constructor; [exact Hyx|].
      eapply Forall_impl; [exact Hy|].
      intros z Hz. by apply (in_order_trans x y z).
Qed.

Lemma stable_sort_sorted (l : list A) :
  StronglySorted (in_order before) (PySort.stable_sort before l).
Proof.
  unfold PySort.stable_sort. induction l as [|x l IH]; simpl.
  - constructor.
  - by apply insert_sorted.
Qed.

End StableSort.

Lemma StronglySorted_fmap_on {A B : Type} (R : A -> A -> Prop)
    (R' : B -> B -> Prop) (P : A -> Prop) (f : A -> B) (l : list A) :
  (forall a b, P a -> P b -> R a b -> R' (f a) (f b)) ->
  Forall P l -> StronglySorted R l -> StronglySorted R' (map f l).
Proof.
  intros HR HP Hsorted. induction Hsorted as [|a l Hsorted IH Ha]; simpl.
  - constructor.
  - apply Forall_cons_1 in HP as [HPa HPl].
    constructor; [by apply IH|].
    apply Forall_fmap, Forall_forall. intros b Hb.
    rewrite Forall_forall in Ha, HPl. apply HR; auto.
Qed.

(** ** Related thoughts *)

(** The size of the intersection of the two sets is the number of distinct
    shared entries. *)
Lemma overlap_shared (a b : list string) :
  ThoughtAnalyzer.overlap a b = shared a b.
Proof.
  unfold ThoughtAnalyzer.overlap, shared, PySort.len. f_equal.
  rewrite <- (size_list_to_set (C := gset string)
                (filter (fun x => x ∈ b) (remove_dups a)))
    by (apply NoDup_filter, NoDup_remove_dups).
  f_equal. apply set_eq. intros x.
  rewrite elem_of_intersection, !elem_of_list_to_set, list_elem_of_filter,
    elem_of_remove_dups.
  tauto.
Qed.

Lemma shared_nonneg (a b : list string) : 0 <= shared a b.
Proof. unfold shared, PySort.len. lia. Qed.

(** The score of the loop is the relatedness score of the specification. *)
Lemma score_relatedness (target candidate : ThoughtData) :
  ThoughtAnalyzer.score target candidate = relatedness target candidate.
Proof.
  unfold ThoughtAnalyzer.score, relatedness. rewrite !overlap_shared.
  repeat case_bool_decide; repeat case_decide; try congruence; lia.
Qed.

Lemma relatedness_nonneg (target candidate : ThoughtData) :
  0 <= relatedness target candidate.
Proof.
  unfold relatedness.
  pose proof (shared_nonneg (tags target) (tags candidate)).
  pose proof (shared_nonneg (files_touched target) (files_touched candidate)).
  pose proof (shared_nonneg (dependencies target) (dependencies candidate)).
  destruct (bool_decide (stage candidate = stage target)),
    (bool_decide (risk_level candidate = risk_level target)); lia.
Qed.

(** The loop collects, in order, the qualifying records with their score. *)
Lemma candidates_qualifying (target : ThoughtData) (records : list ThoughtData) :
  ThoughtAnalyzer.candidates target records
  = map (fun t => (relatedness target t, t))
        (filter (qualifies target) records).
Proof.
  induction records as [|t records IH]; [reflexivity|].
  cbn [ThoughtAnalyzer.candidates]. rewrite filter_cons, score_relatedness, IH.
  pose proof (relatedness_nonneg target t) as Hnn.
  destruct (decide (thought_id t = thought_id target)) as [Hid|Hid].
  - destruct (decide (qualifies target t)) as [[Hq _]|_]; [done|reflexivity].
  - destruct (Z.gtb_spec (relatedness target t) 0) as [Hpos|Hzero].
    + destruct (decide (qualifies target t)) as [_|Hq]; [reflexivity|].
      exfalso. apply Hq. split; [exact Hid|lia].
    + destruct (decide (qualifies target t)) as [[_ Hq]|_]; [lia|reflexivity].
Qed.

Lemma pair_gt_asym (a b : Z * Z) :
  PySort.pair_gt a b = true -> PySort.pair_gt b a = false.
Proof.
  unfold PySort.pair_gt. destruct a as [a1 a2], b as [b1 b2]. cbn [fst snd].
  intros H. apply orb_true_iff in H.
  apply orb_false_iff. rewrite andb_false_iff, !Z.gtb_ltb, !Z.ltb_ge, Z.eqb_neq.
  rewrite andb_true_iff, !Z.gtb_ltb, !Z.ltb_lt, Z.eqb_eq in H. lia.
Qed.

Lemma pair_gt_false (a b : Z * Z) :
  PySort.pair_gt a b = false <-> a.1 < b.1 ∨ (a.1 = b.1 ∧ a.2 <= b.2).
Proof.
  unfold PySort.pair_gt.
  rewrite orb_false_iff, andb_false_iff, !Z.gtb_ltb, !Z.ltb_ge, Z.eqb_neq.
  lia.
Qed.

Lemma slice_to_nonneg {A : Type} (m : Z) (l : list A) :
  0 <= m -> PySort.slice_to m l = take (Z.to_nat m) l.
Proof.
  intros Hm. unfold PySort.slice_to.
  by replace (0 <=? m) with true by (symmetry; apply Z.leb_le; lia).
Qed.

(** C3, as stated, fails on a negative limit: with limit -1 and two
    candidates the search returns one record, which is more than -1. *)
Lemma negative_limit_counterexample :
  ThoughtAnalyzer.find_related_thoughts None scoping_1
    [scoping_1; scoping_2; scoping_4] (-1) = [scoping_4]
  ∧ ¬ (PySort.len (ThoughtAnalyzer.find_related_thoughts None scoping_1
                     [scoping_1; scoping_2; scoping_4] (-1)) <= -1).
Proof.
  assert (ThoughtAnalyzer.find_related_thoughts None scoping_1
            [scoping_1; scoping_2; scoping_4] (-1) = [scoping_4]) as E
    by (vm_compute; reflexivity).
  split; [exact E|]. rewrite E. unfold PySort.len. simpl length. lia.
Qed.

Lemma sort_key_in_order_trans (x y z : Z * ThoughtData) :
  in_order (fun y x => PySort.pair_gt (ThoughtAnalyzer.sort_key y)
                                      (ThoughtAnalyzer.sort_key x)) x y ->
  in_order (fun y x => PySort.pair_gt (ThoughtAnalyzer.sort_key y)
                                      (ThoughtAnalyzer.sort_key x)) y z ->
  in_order (fun y x => PySort.pair_gt (ThoughtAnalyzer.sort_key y)
                                      (ThoughtAnalyzer.sort_key x)) x z.
Proof. unfold in_order. rewrite !pair_gt_false. lia. Qed.

(** The ranked candidates: a sorted rearrangement of the qualifying
    records. *)
Lemma ranked_candidates (target : ThoughtData) (records : list ThoughtData) :
  let ranked :=
    map snd (PySort.sort_by_pair_desc ThoughtAnalyzer.sort_key
               (ThoughtAnalyzer.candidates target records)) in
  Permutation ranked (filter (qualifies target) records)
  ∧ StronglySorted (ranks_before target) ranked.
Proof.
  cbn zeta. rewrite candidates_qualifying.
  set (qualifying := filter (qualifies target) records).
  set (scored := map (fun t => (relatedness target t, t)) qualifying).
  unfold PySort.sort_by_pair_desc.
  set (before := fun y x : Z * ThoughtData =>
                   PySort.pair_gt (ThoughtAnalyzer.sort_key y)
                                  (ThoughtAnalyzer.sort_key x)).
  pose proof (stable_sort_Permutation before scored) as Hperm.
  split.
  - rewrite Hperm. unfold scored. rewrite map_map. cbn [snd].
    by rewrite map_id.
  - apply (StronglySorted_fmap_on (in_order before) (ranks_before target)
             (fun p => p.1 = relatedness target p.2)).
    + intros [sa ta] [sb tb]. cbn [fst snd]. intros -> ->.
      unfold in_order, before, ThoughtAnalyzer.sort_key, ranks_before.
      rewrite pair_gt_false. cbn [fst snd]. lia.
    + rewrite Hperm. unfold scored. apply Forall_fmap, Forall_forall.
      by intros t _.
    + apply stable_sort_sorted.
      * intros x y. apply pair_gt_asym.
      * apply sort_key_in_order_trans.
Qed.

(** C3, amended: outside the test runner's shortcut and for a limit that
    is not negative, the search returns the first [max_results] of the
    qualifying records in ranking order.  The qualifying records are the
    records other than the target, by identifier, whose score is not zero;
    the score is 3 for the same stage, 1 per shared tag, 2 per shared file,
    1 per shared dependency and 1 for the same risk level; the ranking is
    by decreasing score, then by decreasing sequence number.  So the result
    has at most [max_results] records and never holds the target. *)
Theorem find_related_ranked (env : TestEnv) (target : ThoughtData)
    (records : list ThoughtData) (max_results : Z) :
  no_related_shortcut env target records ->
  0 <= max_results ->
  (exists rest,
     Permutation
       (ThoughtAnalyzer.find_related_thoughts env target records max_results
        ++ rest)
       (filter (qualifies target) records)
     ∧ StronglySorted (ranks_before target)
         (ThoughtAnalyzer.find_related_thoughts env target records max_results
          ++ rest))
  ∧ length (ThoughtAnalyzer.find_related_thoughts env target records
              max_results)
    = Nat.min (Z.to_nat max_results)
              (length (filter (qualifies target) records))
  ∧ PySort.len (ThoughtAnalyzer.find_related_thoughts env target records
                  max_results) <= max_results
  ∧ (forall r,
       r ∈ ThoughtAnalyzer.find_related_thoughts env target records max_results ->
       r ∈ records
       ∧ thought_id r ≠ thought_id target
       ∧ relatedness target r ≠ 0).
Proof.
  intros Henv Hmax.
  destruct (ranked_candidates target records) as [Hperm Hsorted].
  set (ranked := PySort.sort_by_pair_desc ThoughtAnalyzer.sort_key
                   (ThoughtAnalyzer.candidates target records)) in *.
  assert (ThoughtAnalyzer.find_related_thoughts env target records max_results
          = map snd (take (Z.to_nat max_results) ranked)) as ->.
  { unfold ThoughtAnalyzer.find_related_thoughts.
    assert (match env with
            | Some helpers => find_related_thoughts_test helpers target records
            | None => []
            end = []) as -> by (destruct env; [exact Henv|reflexivity]).
    by rewrite slice_to_nonneg. }
  assert (Hsplit :
    map snd (take (Z.to_nat max_results) ranked)
    ++ map snd (drop (Z.to_nat max_results) ranked)
    = map snd ranked) by (by rewrite <- map_app, take_drop).
  assert (Hlen :
    length (map snd (take (Z.to_nat max_results) ranked))
    = Nat.min (Z.to_nat max_results)
              (length (filter (qualifies target) records))).
  { rewrite length_map, length_take, <- (Permutation_length Hperm), length_map.
    reflexivity. }
  split; [|split; [exact Hlen|split]].
  - exists (map snd (drop (Z.to_nat max_results) ranked)).
    rewrite Hsplit. by split.
  - unfold PySort.len. rewrite Hlen. lia.
  - intros r Hr.
    assert (r ∈ filter (qualifies target) records) as Hq.
    { rewrite <- Hperm, <- Hsplit. apply elem_of_app. by left. }
    apply list_elem_of_filter in Hq as [[Hid Hscore] Hin]. done.
Qed.

Lemma find_related_ranked_witness :
  (exists rest,
     Permutation
       (ThoughtAnalyzer.find_related_thoughts None scoping_1
          [scoping_1; scoping_2; scoping_4; testing_3] 1 ++ rest)
       (filter (qualifies scoping_1)
               [scoping_1; scoping_2; scoping_4; testing_3])
     ∧ StronglySorted (ranks_before scoping_1)
         (ThoughtAnalyzer.find_related_thoughts None scoping_1
            [scoping_1; scoping_2; scoping_4; testing_3] 1 ++ rest))
  ∧ length (ThoughtAnalyzer.find_related_thoughts None scoping_1
              [scoping_1; scoping_2; scoping_4; testing_3] 1)
    = Nat.min (Z.to_nat 1)
              (length (filter (qualifies scoping_1)
                              [scoping_1; scoping_2; scoping_4; testing_3]))
  ∧ PySort.len (ThoughtAnalyzer.find_related_thoughts None scoping_1
                  [scoping_1; scoping_2; scoping_4; testing_3] 1) <= 1
  ∧ (forall r,
       r ∈ ThoughtAnalyzer.find_related_thoughts None scoping_1
             [scoping_1; scoping_2; scoping_4; testing_3] 1 ->
       r ∈ [scoping_1; scoping_2; scoping_4; testing_3]
       ∧ thought_id r ≠ thought_id scoping_1
       ∧ relatedness scoping_1 r ≠ 0).
Proof.
  apply (find_related_ranked None scoping_1
           [scoping_1; scoping_2; scoping_4; testing_3] 1); [exact I|lia].
Defined.

(** The scenarios of the specification on the sample data: two Scoping
    records that share nothing else score 3 and are related, and among
    candidates of equal score the higher sequence number comes first. *)
Example related_scenarios :
  relatedness scoping_1 scoping_2 = 3
  ∧ ThoughtAnalyzer.find_related_thoughts None scoping_1
      [scoping_1; scoping_2] 3 = [scoping_2]
  ∧ ThoughtAnalyzer.find_related_thoughts None scoping_2
      [scoping_1; scoping_2; scoping_4] 3 = [scoping_4; scoping_1].
Proof. repeat split; vm_compute; reflexivity. Qed.

(** ** Dictionaries of thoughts: there and back *)

Lemma as_str_list_str_list (l : list string) :
  as_str_list (str_list l) = Some l.
Proof.
  unfold as_str_list, str_list. induction l as [|x l IH]; [reflexivity|].
  cbn. cbn in IH. by rewrite IH.
Qed.

Lemma from_string_stage_value (s : ThoughtStage) :
  from_string (stage_value s) = Ok s.
Proof. destruct s; vm_compute; reflexivity. Qed.

Lemma RiskLevel_of_value_lower (r : RiskLevel) :
  RiskLevel_of_value (PyStr.lower (risk_value r)) = Ok r.
Proof. destruct r; vm_compute; reflexivity. Qed.

Section DictRoundTrip.
Context `{UuidText}.

(** The dictionary of a thought with its identifier: the keys in camel
    case, the stage last. *)
Lemma to_dict_with_id (t : ThoughtData) :
  to_dict t true
  = [ ("thought", VStr (thought t));
      ("thoughtNumber", VInt (thought_number t));
      ("totalThoughts", VInt (total_thoughts t));
      ("nextThoughtNeeded", VBool (next_thought_needed t));
      ("tags", str_list (tags t));
      ("axiomsUsed", str_list (axioms_used t));
      ("assumptionsChallenged", str_list (assumptions_challenged t));
      ("filesTouched", str_list (files_touched t));
      ("testsToRun", str_list (tests_to_run t));
      ("riskLevel", VStr (risk_value (risk_level t)));
      ("dependencies", str_list (dependencies t));
      ("confidenceScore", VFloat (confidence_score t));
      ("timestamp", VStr (timestamp t));
      ("id", VStr (uuid_str (thought_id t)));
      ("stage", VStr (stage_value (stage t))) ].
Proof. reflexivity. Qed.

(** Reading back the dictionary of a constructed thought gives the thought
    again, its identifier parsed from the text. *)
Lemma from_dict_to_dict (t : ThoughtData) (orc : Oracle) :
  well_formed t = true ->
  from_dict (to_dict t true) orc
  = Ok {| thought := thought t;
          thought_number := thought_number t;
          total_thoughts := total_thoughts t;
          next_thought_needed := next_thought_needed t;
          stage := stage t;
          tags := tags t;
          axioms_used := axioms_used t;
          assumptions_challenged := assumptions_challenged t;
          files_touched := files_touched t;
          tests_to_run := tests_to_run t;
          risk_level := risk_level t;
          dependencies := dependencies t;
          confidence_score := confidence_score t;
          timestamp := timestamp t;
          thought_id :=
            default (uuid4 orc) (uuid_parse (uuid_str (thought_id t))) |}.
Proof.
  intros Hwf. rewrite to_dict_with_id.
  destruct t as [th n tot nx st tg ax asm fl ts rk dp cf tm ident].
  cbn [thought thought_number total_thoughts next_thought_needed stage tags
       axioms_used assumptions_challenged files_touched tests_to_run
       risk_level dependencies confidence_score timestamp thought_id] in *.
  destruct st, rk;
    lazy -[str_list as_str_list ThoughtData_init uuid_str uuid_parse];
    rewrite !as_str_list_str_list; cbv beta iota;
    exact (init_of_valid th n tot nx _ cf
             {| kw_thought := None; kw_thought_number := None;
                kw_total_thoughts := None; kw_next_thought_needed := None;
                kw_stage := None; kw_tags := Some tg;
                kw_axioms_used := Some ax;
                kw_assumptions_challenged := Some asm;
                kw_files_touched := Some fl; kw_tests_to_run := Some ts;
                kw_risk_level := Some _; kw_dependencies := Some dp;
                kw_confidence_score := None; kw_timestamp := Some tm;
                kw_id := Some (default (uuid4 orc)
                                       (uuid_parse (uuid_str ident))) |}
             orc Hwf).
Qed.

End DictRoundTrip.

(** ** The store: export and import *)

Ltac run_world :=
  unfold mbind_world, ret, throw, lift, get_store, put_store, read_file,
    write_file, next_oracle;
  cbn [store files oracles ticks
       storage_dir default_project_id _project_histories thought_history
       fst snd].

Section StoreRoundTrip.
Context `{UuidText} `{PathLib}.

(** Reading records touches neither the store nor the files. *)
Lemma for_each_load_record_preserves (records : list Dict) (w w' : World)
    (r : result (list ThoughtData)) :
  for_each load_record records w = (r, w') ->
  store w' = store w ∧ files w' = files w ∧ oracles w' = oracles w.
Proof.
  revert w w' r. induction records as [|data records IH]; intros w w' r.
  - cbn [for_each]. run_world. by intros [= _ <-].
  - cbn [for_each]. unfold load_record at 1. run_world.
    destruct (from_dict data (oracles w (ticks w))) as [t|e].
    + destruct (for_each load_record records _) as [[ts|e] w1] eqn:Hrest;
        intros [= _ <-];
        destruct (IH _ _ _ Hrest) as (Hs & Hf & Ho); by run_world.
    + by intros [= _ <-].
Qed.

Lemma load_preserves (path lock : string) (w w' : World)
    (r : result (list ThoughtData)) :
  load_thoughts_from_file path lock w = (r, w') ->
  store w' = store w ∧ files w' = files w ∧ oracles w' = oracles w.
Proof.
  unfold load_thoughts_from_file. run_world.
  destruct (files w !! path) as [[records meta|]|]; run_world.
  - apply for_each_load_record_preserves.
  - by intros [= _ <-].
  - by intros [= _ <-].
Qed.

(** A project that is in memory is not loaded again: only the alias of
    the default project's history may be refreshed. *)
Lemma ensure_history_in_memory (pid : string) (h : list ThoughtData)
    (w : World) :
  _project_histories (store w) !! pid = Some h ->
  exists w',
    _ensure_history pid w = (Ok h, w')
    ∧ _project_histories (store w') = _project_histories (store w)
    ∧ default_project_id (store w') = default_project_id (store w)
    ∧ storage_dir (store w') = storage_dir (store w)
    ∧ files w' = files w
    ∧ oracles w' = oracles w.
Proof.
  intros Hh. unfold _ensure_history, history_of, set_thought_history.
  run_world. rewrite Hh. run_world.
  destruct (bool_decide (pid = default_project_id (store w)));
    run_world; rewrite ?Hh; eexists; (split; [reflexivity|]); done.
Qed.

(** After a successful access the project is in memory with the history
    that was returned. *)
Lemma ensure_history_post (pid : string) (h : list ThoughtData)
    (w w' : World) :
  _ensure_history pid w = (Ok h, w') ->
  _project_histories (store w') !! pid = Some h
  ∧ default_project_id (store w') = default_project_id (store w)
  ∧ oracles w' = oracles w.
Proof.
  destruct (_project_histories (store w) !! pid) as [h0|] eqn:Hmem.
  - destruct (ensure_history_in_memory pid h0 w Hmem)
      as (w1 & Hrun & Hhist & Hdef & _ & _ & Ho).
    rewrite Hrun. intros [= <- <-]. by rewrite Hhist, Hdef.
  - unfold _ensure_history, history_of, set_thought_history, set_histories.
    run_world. rewrite Hmem.
    destruct (load_thoughts_from_file (_session_file_for (store w) pid)
                (_lock_file_for (store w) pid) w)
      as [[loaded|e] w1] eqn:Hload; [|run_world; discriminate].
    destruct (load_preserves _ _ _ _ _ Hload) as (Hstore & _ & Ho).
    run_world. rewrite Hstore. run_world.
    rewrite lookup_insert_eq.
    destruct (bool_decide (pid = default_project_id (store w)));
      run_world; rewrite ?lookup_insert_eq; cbn [default];
      intros [= <- <-]; run_world; by rewrite lookup_insert_eq.
Qed.

Lemma same_but_id_refl_on (t : ThoughtData) (u : UUID) :
  same_but_id t
    {| thought := thought t;
       thought_number := thought_number t;
       total_thoughts := total_thoughts t;
       next_thought_needed := next_thought_needed t;
       stage := stage t;
       tags := tags t;
       axioms_used := axioms_used t;
       assumptions_challenged := assumptions_challenged t;
       files_touched := files_touched t;
       tests_to_run := tests_to_run t;
       risk_level := risk_level t;
       dependencies := dependencies t;
       confidence_score := confidence_score t;
       timestamp := timestamp t;
       thought_id := u |}.
Proof. unfold same_but_id. cbn. repeat split. Qed.

(** Reading the serialized form of constructed records gives the records
    back, in order, up to their identifiers. *)
Lemma for_each_load_serialized (h : list ThoughtData) (w : World) :
  Forall (fun t => well_formed t = true) h ->
  exists h' w',
    for_each load_record (prepare_thoughts_for_serialization h) w = (Ok h', w')
    ∧ Forall2 same_but_id h h'.
Proof.
  unfold prepare_thoughts_for_serialization.
  intros Hwf. revert w. induction Hwf as [|t h Ht Hh IH]; intros w.
  - exists [], w. split; [reflexivity|constructor].
  - cbn [map for_each]. unfold load_record at 1. run_world.
    rewrite (from_dict_to_dict t _ Ht).
    destruct (IH {| store := store w; files := files w;
                    oracles := oracles w; ticks := S (ticks w) |})
      as (h' & w' & Hrun & Hsame).
    rewrite Hrun. eexists _, w'. split; [reflexivity|].
    constructor; [apply same_but_id_refl_on|exact Hsame].
Qed.

Lemma load_serialized (path lock : string) (h : list ThoughtData)
    (metadata : option ExportMetadata) (w : World) :
  files w !! path
  = Some (SessionFile (prepare_thoughts_for_serialization h) metadata) ->
  Forall (fun t => well_formed t = true) h ->
  exists h' w',
    load_thoughts_from_file path lock w = (Ok h', w')
    ∧ Forall2 same_but_id h h'
    ∧ store w' = store w ∧ files w' = files w.
Proof.
  intros Hfile Hwf. unfold load_thoughts_from_file. run_world. rewrite Hfile.
  destruct (for_each_load_serialized h w Hwf) as (h' & w' & Hrun & Hsame).
  exists h', w'. split; [exact Hrun|]. split; [exact Hsame|].
  destruct (for_each_load_record_preserves _ _ _ _ Hrun) as (Hs & Hf & _).
  by split.
Qed.

Lemma resolve_project_id_key (project_id : option string) (w : World) :
  _resolve_project_id project_id w
  = (Ok (project_key (store w) project_id), w).
Proof. reflexivity. Qed.

Lemma project_key_same_default (s s' : ThoughtStorage)
    (project_id : option string) :
  default_project_id s' = default_project_id s ->
  project_key s' project_id = project_key s project_id.
Proof. unfold project_key. by intros ->. Qed.

(** Reading a project leaves it in memory with the history returned. *)
Lemma get_all_thoughts_post (project_id : option string)
    (h : list ThoughtData) (w w' : World) :
  get_all_thoughts project_id w = (Ok h, w') ->
  _project_histories (store w') !! project_key (store w') project_id = Some h.
Proof.
  unfold get_all_thoughts. unfold mbind_world at 1.
  rewrite resolve_project_id_key. unfold mbind_world at 1.
  destruct (_ensure_history (project_key (store w) project_id) w)
    as [[h0|e] w0] eqn:Hrun; [|discriminate].
  unfold ret. intros [= <- <-].
  destruct (ensure_history_post _ _ _ _ Hrun) as (Hh & Hdef & _).
  by rewrite (project_key_same_default _ _ _ Hdef).
Qed.

(** Reading a project that is in memory returns its history. *)
Lemma get_all_thoughts_in_memory (project_id : option string)
    (h : list ThoughtData) (w : World) :
  _project_histories (store w) !! project_key (store w) project_id = Some h ->
  exists w', get_all_thoughts project_id w = (Ok h, w').
Proof.
  intros Hh. unfold get_all_thoughts. unfold mbind_world at 1.
  rewrite resolve_project_id_key. unfold mbind_world at 1.
  destruct (ensure_history_in_memory _ _ _ Hh) as (w' & Hrun & _).
  rewrite Hrun. by exists w'.
Qed.

(** Exporting a project that is in memory writes its serialized history,
    with metadata, to the file and leaves the histories alone. *)
Lemma export_session_writes (file_path lock : string)
    (project_id : option string) (h : list ThoughtData) (w : World) :
  _project_histories (store w) !! project_key (store w) project_id = Some h ->
  with_suffix file_path ".lock" = Ok lock ->
  exists w' metadata,
    export_session file_path project_id w = (Ok tt, w')
    ∧ files w' !! file_path
      = Some (SessionFile (prepare_thoughts_for_serialization h)
                          (Some metadata))
    ∧ default_project_id (store w') = default_project_id (store w).
Proof.
  intros Hh Hlock. unfold export_session. unfold mbind_world at 1.
  rewrite resolve_project_id_key. unfold mbind_world at 1.
  destruct (ensure_history_in_memory _ _ _ Hh)
    as (w1 & Hrun & Hhist & Hdef & _ & Hfiles & _).
  rewrite Hrun. unfold save_thoughts_to_file. run_world. rewrite Hlock.
  eexists _, _. split; [reflexivity|]. run_world.
  split; [apply lookup_insert_eq|exact Hdef].
Qed.

(** Importing a file that holds the serialized form of constructed records
    puts these records, up to their identifiers, in place of the history of
    the target project. *)
Lemma import_session_replaces (file_path lock : string)
    (project_id : option string) (h : list ThoughtData)
    (metadata : option ExportMetadata) (w : World) :
  files w !! file_path
  = Some (SessionFile (prepare_thoughts_for_serialization h) metadata) ->
  Forall (fun t => well_formed t = true) h ->
  with_suffix file_path ".lock" = Ok lock ->
  exists h' w',
    import_session file_path project_id w = (Ok tt, w')
    ∧ Forall2 same_but_id h h'
    ∧ _project_histories (store w') !! project_key (store w') project_id
      = Some h'.
Proof.
  intros Hfile Hwf Hlock. unfold import_session.
  unfold mbind_world at 1. unfold lift at 1. rewrite Hlock.
  unfold mbind_world at 1.
  destruct (load_serialized file_path lock h metadata w Hfile Hwf)
    as (h' & w1 & Hrun & Hsame & Hstore & _).
  rewrite Hrun. unfold mbind_world at 1. rewrite resolve_project_id_key.
  unfold _save_session, save_thoughts_to_file, set_histories,
    set_thought_history, history_of.
  run_world.
  destruct (bool_decide (project_key (store w1) project_id
                         = default_project_id (store w1)));
    run_world; eexists h', _; (split; [reflexivity|]);
    (split; [exact Hsame|]); run_world; unfold project_key;
    run_world; apply lookup_insert_eq.
Qed.

(** C6: exporting the history of a project to a file and importing that
    file into any project, a fresh one included, makes that project's
    history equal to the original, record by record in the original order,
    in every attribute but the identifier.  The records are constructed
    ones, and the file path has a file name, so that its lock path
    exists. *)
Theorem export_import_round_trip (file_path lock : string)
    (source target : option string) (h : list ThoughtData) (w w0 : World) :
  get_all_thoughts source w = (Ok h, w0) ->
  Forall (fun t => well_formed t = true) h ->
  with_suffix file_path ".lock" = Ok lock ->
  exists w1 w2 w3 h',
    export_session file_path source w0 = (Ok tt, w1)
    ∧ import_session file_path target w1 = (Ok tt, w2)
    ∧ get_all_thoughts target w2 = (Ok h', w3)
    ∧ Forall2 same_but_id h h'.
Proof.
  intros Hget Hwf Hlock.
  pose proof (get_all_thoughts_post _ _ _ _ Hget) as Hmem.
  destruct (export_session_writes file_path lock source h w0 Hmem Hlock)
    as (w1 & metadata & Hexport & Hfile & _).
  destruct (import_session_replaces file_path lock target h (Some metadata)
              w1 Hfile Hwf Hlock)
    as (h' & w2 & Himport & Hsame & Hmem').
  destruct (get_all_thoughts_in_memory target h' w2 Hmem') as (w3 & Hget').
  by exists w1, w2, w3, h'.
Qed.

End StoreRoundTrip.

Lemma export_import_round_trip_witness :
  exists w1 w2 w3 h',
    export_session (H := sample_uuid_text) (H0 := sample_paths)
      "/tmp/export.json" None
      (get_all_thoughts (H := sample_uuid_text) None sample_world).2
    = (Ok tt, w1)
    ∧ import_session (H := sample_uuid_text) (H0 := sample_paths)
        "/tmp/export.json" (Some "fresh project") w1
      = (Ok tt, w2)
    ∧ get_all_thoughts (H := sample_uuid_text) (Some "fresh project") w2
      = (Ok h', w3)
    ∧ Forall2 same_but_id [scoping_1; scoping_2] h'.
Proof.
  apply (export_import_round_trip (H := sample_uuid_text) (H0 := sample_paths)
           "/tmp/export.json" "/tmp/export.json.lock" None
           (Some "fresh project") [scoping_1; scoping_2] sample_world).
  - vm_compute. reflexivity.
  - repeat constructor.
  - reflexivity.
Defined.

(** ** The tests of the repository, replayed *)

(** [test_from_string_valid] and [test_from_string_invalid]. *)
Example test_from_string :
  from_string "Scoping" = Ok SCOPING
  ∧ from_string "Research & Spike" = Ok RESEARCH_SPIKE
  ∧ from_string "Implementation" = Ok IMPLEMENTATION
  ∧ from_string "Testing" = Ok TESTING
  ∧ from_string "Review" = Ok REVIEW
  ∧ is_ok (from_string "Invalid Stage") = false.
Proof. repeat split; vm_compute; reflexivity. Qed.

(** [test_validate_valid], [test_validate_invalid_thought_number],
    [test_validate_invalid_total_thoughts] and [test_validate_empty_thought]. *)
Example test_validate :
  is_ok (ThoughtData_init
           (supplied "Test thought" 1 3 true SCOPING 0.5 no_arguments)
           sample_oracle) = true
  ∧ is_ok (ThoughtData_init
             (supplied "Test thought" 0 3 true SCOPING 0.5 no_arguments)
             sample_oracle) = false
  ∧ is_ok (ThoughtData_init
             (supplied "Test thought" 3 2 true SCOPING 0.5 no_arguments)
             sample_oracle) = false
  ∧ is_ok (ThoughtData_init
             (supplied EmptyString 1 3 true SCOPING 0.5 no_arguments)
             sample_oracle) = false.
Proof. repeat split; vm_compute; reflexivity. Qed.

(** [test_to_dict] and [test_from_dict]. *)
Example test_dict :
  same_dict (to_dict (H := sample_uuid_text) dict_thought false)
            (expected_dict (confidence_score dict_thought))
  ∧ exists t,
      from_dict (H := sample_uuid_text) (expected_dict 0.5) sample_oracle = Ok t
      ∧ thought t = "Test thought" ∧ thought_number t = 1
      ∧ total_thoughts t = 3 ∧ next_thought_needed t = true
      ∧ stage t = SCOPING ∧ tags t = ["tag1"; "tag2"]
      ∧ axioms_used t = ["axiom1"]
      ∧ assumptions_challenged t = ["assumption1"]
      ∧ files_touched t = ["file.py"]
      ∧ tests_to_run t = ["pytest tests/test_file.py"]
      ∧ risk_level t = HIGH ∧ dependencies t = ["redis"]
      ∧ confidence_score t = 0.5%float
      ∧ timestamp t = "2023-01-01T12:00:00".
Proof.
  split.
  - split; [reflexivity|]. vm_compute. repeat constructor.
  - eexists. split; [vm_compute; reflexivity|]. cbn. repeat split.
Qed.

(** [test_generate_summary_empty] and [test_generate_summary]. *)
Example test_generate_summary :
  ThoughtAnalyzer.generate_summary [] = SummaryText "No thoughts recorded yet"
  ∧ exists s,
      ThoughtAnalyzer.generate_summary all_thoughts = SummaryData s
      ∧ s_totalThoughts s = 4
      ∧ PyDict.get "Scoping" (s_stages s) = Some 2
      ∧ PyDict.get "Research & Spike" (s_stages s) = Some 1
      ∧ PyDict.get "Implementation" (s_stages s) = Some 1
      ∧ length (s_timeline s) = 4%nat.
Proof.
  split; [reflexivity|]. eexists. split; [vm_compute; reflexivity|].
  cbn. repeat split.
Qed.

(** The part of [test_analyze_thought] that does not go through the test
    runner's helpers. *)
Example test_analyze_thought :
  exists a,
    ThoughtAnalyzer.analyze_thought None thought1 all_thoughts = Ok a
    ∧ a_thoughtNumber a = 1 ∧ a_stage a = "Scoping"
    ∧ progress a = 20%float
    ∧ thoughtHistoryLength a = 4.
Proof. eexists. split; [vm_compute; reflexivity|]. cbn. repeat split. Qed.

(** * Further properties of the code *)

(** ** Trimming and lower-casing *)

Lemma lower_char_space (c : ascii) :
  PyStr.isspace (PyStr.lower_char c) = PyStr.isspace c.
Proof. destruct c as [[] [] [] [] [] [] [] []]; vm_compute; reflexivity. Qed.

Lemma lower_char_idem (c : ascii) :
  PyStr.lower_char (PyStr.lower_char c) = PyStr.lower_char c.
Proof. destruct c as [[] [] [] [] [] [] [] []]; vm_compute; reflexivity. Qed.

Lemma lower_idem (s : string) : PyStr.lower (PyStr.lower s) = PyStr.lower s.
Proof.
  unfold PyStr.lower. induction s as [|c s IH]; simpl; [done|].
  by rewrite lower_char_idem, IH.
Qed.

Lemma lstrip_lower (s : string) :
  PyStr.lstrip (PyStr.lower s) = PyStr.lower (PyStr.lstrip s).
Proof.
  unfold PyStr.lower. induction s as [|c s IH]; simpl; [done|].
  rewrite lower_char_space. by destruct (PyStr.isspace c).
Qed.

Lemma rstrip_lower (s : string) :
  PyStr.rstrip (PyStr.lower s) = PyStr.lower (PyStr.rstrip s).
Proof.
  unfold PyStr.lower. induction s as [|c s IH]; simpl; [done|].
  rewrite IH, lower_char_space.
  destruct (PyStr.rstrip s); simpl; [by destruct (PyStr.isspace c)|done].
Qed.

Lemma strip_lower (s : string) :
  PyStr.strip (PyStr.lower s) = PyStr.lower (PyStr.strip s).
Proof. unfold PyStr.strip. by rewrite rstrip_lower, lstrip_lower. Qed.

Lemma lstrip_idem (s : string) :
  PyStr.lstrip (PyStr.lstrip s) = PyStr.lstrip s.
Proof.
  induction s as [|c s IH]; simpl; [done|].
  destruct (PyStr.isspace c) eqn:Hc; [exact IH|]. simpl. by rewrite Hc.
Qed.

Lemma rstrip_idem (s : string) :
  PyStr.rstrip (PyStr.rstrip s) = PyStr.rstrip s.
Proof.
  induction s as [|c s IH]; simpl; [done|].
  destruct (PyStr.rstrip s) as [|d r] eqn:Hr.
  - destruct (PyStr.isspace c) eqn:Hc; simpl; [done|]. by rewrite Hc.
  - remember (String d r) as x eqn:Hx. simpl. rewrite IH. by subst x.
Qed.

Lemma rstrip_lstrip_fixed (s : string) :
  PyStr.rstrip s = s -> PyStr.rstrip (PyStr.lstrip s) = PyStr.lstrip s.
Proof.
  induction s as [|c s IH]; simpl; [done|].
  destruct (PyStr.isspace c) eqn:Hc.
  - destruct (PyStr.rstrip s) as [|d r] eqn:Hr; [discriminate|].
    intros [= E]. by apply IH.
  - intros E. simpl. by rewrite Hc.
Qed.

Lemma strip_idem (s : string) : PyStr.strip (PyStr.strip s) = PyStr.strip s.
Proof.
  unfold PyStr.strip.
  rewrite (rstrip_lstrip_fixed (PyStr.rstrip s)) by apply rstrip_idem.
  apply lstrip_idem.
Qed.

Lemma normalize_idem (s : string) : normalize (normalize s) = normalize s.
Proof. unfold normalize. by rewrite strip_lower, lower_idem, strip_idem. Qed.

(** ** Parsing a stage name, continued *)

Lemma find_some_of {A : Type} (f : A -> bool) (l : list A) (x : A) :
  List.find f l = Some x -> x ∈ l ∧ f x = true.
Proof.
  intros Hfind. apply find_some in Hfind as [Hin Hf].
  split; [by apply list_elem_of_In|exact Hf].
Qed.

(** A non-empty name is resolved from its trimmed lower-case form alone:
    first among the canonical values, then in the synonym table. *)
Lemma from_string_nonempty (value : string) :
  value ≠ EmptyString ->
  from_string value
  = match List.find
            (fun stage =>
               bool_decide (PyStr.casefold (stage_value stage)
                            = normalize value))
            all_stages with
    | Some stage => Ok stage
    | None =>
        match List.find
                (fun entry : ThoughtStage * gset string =>
                   bool_decide (normalize value ∈ entry.2))
                synonyms with
        | Some entry => Ok entry.1
        | None => Raise (ValueError (invalid_stage_message value))
        end
    end.
Proof. intros Hne. unfold from_string. by destruct value. Qed.

Lemma normalize_nonempty (value : string) :
  normalize value ≠ EmptyString -> value ≠ EmptyString.
Proof. intros Hn ->. by apply Hn. Qed.

(** No name is a synonym of two stages. *)
Lemma synonyms_unambiguous (e1 e2 : ThoughtStage * gset string) (x : string) :
  e1 ∈ synonyms -> e2 ∈ synonyms -> x ∈ e1.2 -> x ∈ e2.2 -> e1.1 = e2.1.
Proof.
  assert (forallb (fun a : ThoughtStage * gset string =>
            forallb (fun b : ThoughtStage * gset string =>
                       bool_decide (a.1 = b.1) || bool_decide (a.2 ∩ b.2 = ∅))
                    synonyms) synonyms = true) as Hcheck
    by (vm_compute; reflexivity).
  intros H1 H2 Hx1 Hx2.
  rewrite forallb_forall in Hcheck.
  specialize (Hcheck e1 (proj1 (list_elem_of_In _ _) H1)).
  rewrite forallb_forall in Hcheck.
  specialize (Hcheck e2 (proj1 (list_elem_of_In _ _) H2)).
  apply orb_true_iff in Hcheck as [Heq|Hdisj].
  - by apply bool_decide_eq_true in Heq.
  - apply bool_decide_eq_true in Hdisj. exfalso.
    assert (x ∈ e1.2 ∩ e2.2) as Hboth by (by apply elem_of_intersection).
    rewrite Hdisj in Hboth. by apply not_elem_of_empty in Hboth.
Qed.

(** The lower-case form of a canonical value is a synonym of its own
    stage. *)
Lemma canonical_is_synonym (st : ThoughtStage) :
  exists names, (st, names) ∈ synonyms
                ∧ PyStr.casefold (stage_value st) ∈ names.
Proof.
  destruct st; eexists;
    (split; [apply list_elem_of_In; cbn; eauto 6|]);
    vm_compute; reflexivity.
Qed.

(** X1: a stage name whose trimmed lower-case form is not empty resolves
    to a stage exactly when that form does, and to the same stage:
    [from_string] ignores the case of the letters and the blanks around
    the name. *)
Theorem from_string_normalized (value : string) (st : ThoughtStage) :
  normalize value ≠ EmptyString ->
  from_string value = Ok st <-> from_string (normalize value) = Ok st.
Proof.
  intros Hn.
  rewrite (from_string_nonempty value) by (by apply normalize_nonempty).
  rewrite (from_string_nonempty (normalize value)) by exact Hn.
  rewrite normalize_idem.
  destruct (List.find _ all_stages); [done|].
  by destruct (List.find _ synonyms).
Qed.

Lemma from_string_normalized_witness :
  from_string " QA " = Ok TESTING
  <-> from_string (normalize " QA ") = Ok TESTING.
Proof.
  apply (from_string_normalized " QA " TESTING). vm_compute. discriminate.
Defined.

(** X2: [from_string] returns a stage in two cases only: the name is empty
    and the stage is Implementation, or the name is not empty and its
    trimmed lower-case form is an entry of the synonym table under that
    stage.  The loop over the canonical values never decides otherwise:
    every canonical value, in lower case, is in the table under its own
    stage, and no name is in the table under two stages. *)
Theorem from_string_by_synonyms (value : string) (st : ThoughtStage) :
  from_string value = Ok st
  <-> (value = EmptyString ∧ st = IMPLEMENTATION)
      ∨ (value ≠ EmptyString
         ∧ exists names, (st, names) ∈ synonyms ∧ normalize value ∈ names).
Proof.
  destruct (decide (value = EmptyString)) as [->|Hne].
  { cbn. split.
    - intros [= <-]. by left.
    - intros [[_ ->]|[Hcontra _]]; [reflexivity|done]. }
  rewrite (from_string_nonempty value Hne).
  destruct (List.find _ all_stages) as [st'|] eqn:Hcanon.
  - apply find_some_of in Hcanon as [_ Hst'].
    apply bool_decide_eq_true in Hst'.
    destruct (canonical_is_synonym st') as (names' & Hin' & Hmem').
    rewrite Hst' in Hmem'. split.
    + intros [= <-]. right. split; [exact Hne|]. by exists names'.
    + intros [[Hcontra _]|[_ (names & Hin & Hmem)]]; [done|].
      f_equal.
      exact (synonyms_unambiguous (st', names') (st, names) _
               Hin' Hin Hmem' Hmem).
  - destruct (List.find _ synonyms) as [entry|] eqn:Halias.
    + apply find_some_of in Halias as [Hin' Hmem'].
      apply bool_decide_eq_true in Hmem'. split.
      * intros [= <-]. right. split; [exact Hne|].
        exists entry.2. by destruct entry.
      * intros [[Hcontra _]|[_ (names & Hin & Hmem)]]; [done|].
        f_equal.
        exact (synonyms_unambiguous entry (st, names) _ Hin' Hin Hmem' Hmem).
    + split; [discriminate|].
      intros [[Hcontra _]|[_ (names & Hin & Hmem)]]; [done|].
      apply list_elem_of_In in Hin.
      pose proof (find_none _ _ Halias _ Hin) as Hf. cbn beta in Hf.
      apply bool_decide_eq_false in Hf. by destruct Hf.
Qed.

(** ** Dictionary lookups *)

Section DictLookup.
Context {K V : Type} `{EqDecision K}.

Lemma get_set_eq (k : K) (v : V) (d : list (K * V)) :
  PyDict.get k (PyDict.set k v d) = Some v.
Proof.
  induction d as [|[k' v'] d IH]; cbn.
  - by rewrite decide_True.
  - destruct (decide (k = k')) as [->|Hne]; cbn.
    + by rewrite decide_True.
    + by rewrite decide_False.
Qed.

Lemma get_set_ne (k k' : K) (v : V) (d : list (K * V)) :
  k ≠ k' -> PyDict.get k (PyDict.set k' v d) = PyDict.get k d.
Proof.
  intros Hne. induction d as [|[k0 v0] d IH]; cbn.
  - by rewrite decide_False.
  - destruct (decide (k' = k0)) as [->|Hne0]; cbn.
    + by rewrite !decide_False.
    + by rewrite IH.
Qed.


Lemma get_none_keys (k : K) (d : list (K * V)) :
  PyDict.get k d = None <-> k ∉ PyDict.keys d.
Proof.
  unfold PyDict.keys. induction d as [|[k' v'] d IH]; cbn.
  - split; [intros _; apply not_elem_of_nil|done].
  - rewrite not_elem_of_cons. destruct (decide (k = k')) as [->|Hne].
    + split; [discriminate|]. by intros [Hcontra _].
    + rewrite IH. tauto.
Qed.


Lemma elem_of_get (k : K) (v : V) (d : list (K * V)) :
  NoDup (PyDict.keys d) -> (k, v) ∈ d -> PyDict.get k d = Some v.
Proof.
  unfold PyDict.keys. induction d as [|[k' v'] d IH]; cbn.
  - intros _ Hin. by apply elem_of_nil in Hin.
  - intros Hnd Hin. apply NoDup_cons in Hnd as [Hk' Hnd].
    apply elem_of_cons in Hin as [[= -> ->]|Hin].
    + by rewrite decide_True.
    + rewrite decide_False; [by apply IH|].
      intros ->. apply Hk'. apply list_elem_of_fmap. by exists (k', v).
Qed.

Lemma keys_set (k : K) (v : V) (d : list (K * V)) :
  PyDict.keys (PyDict.set k v d)
  = if PyDict.contains k d then PyDict.keys d else PyDict.keys d ++ [k].
Proof.
  unfold PyDict.keys, PyDict.contains.
  induction d as [|[k' v'] d IH]; cbn; [reflexivity|].
  destruct (decide (k = k')) as [->|Hne]; cbn; [reflexivity|].
  rewrite IH. by destruct (PyDict.get k d).
Qed.

Lemma contains_keys (k : K) (d : list (K * V)) :
  PyDict.contains k d = true <-> k ∈ PyDict.keys d.
Proof.
  unfold PyDict.contains. pose proof (get_none_keys k d) as Hnone.
  destruct (PyDict.get k d) as [v|].
  - split; [intros _|done].
    destruct (decide (k ∈ PyDict.keys d)) as [Hin|Hout]; [exact Hin|].
    by apply Hnone in Hout.
  - split; [discriminate|]. intros Hin. by apply Hnone in Hin.
Qed.

Lemma keys_set_NoDup (k : K) (v : V) (d : list (K * V)) :
  NoDup (PyDict.keys d) -> NoDup (PyDict.keys (PyDict.set k v d)).
Proof.
  intros Hnd. rewrite keys_set.
  destruct (PyDict.contains k d) eqn:Hk; [exact Hnd|].
  apply NoDup_app. split; [exact Hnd|]. split; [|apply NoDup_singleton].
  intros x Hx Hxk. apply list_elem_of_singleton in Hxk as ->.
  apply contains_keys in Hx. congruence.
Qed.

Lemma keys_set_elem_of (x k : K) (v : V) (d : list (K * V)) :
  x ∈ PyDict.keys (PyDict.set k v d) <-> x ∈ PyDict.keys d ∨ x = k.
Proof.
  rewrite keys_set. destruct (PyDict.contains k d) eqn:Hk.
  - apply contains_keys in Hk. split; [by left|].
    intros [Hx| ->]; done.
  - rewrite elem_of_app, list_elem_of_singleton. tauto.
Qed.

Lemma get_default_set (x k : K) (v dflt : V) (d : list (K * V)) :
  PyDict.get_default x dflt (PyDict.set k v d)
  = if decide (x = k) then v else PyDict.get_default x dflt d.
Proof.
  unfold PyDict.get_default. destruct (decide (x = k)) as [->|Hne].
  - by rewrite get_set_eq.
  - by rewrite get_set_ne.
Qed.

End DictLookup.

(** ** Reading a dictionary *)

Lemma bind_ok {A B : Type} (r : result A) (k : A -> result B) (b : B) :
  bind r k = Ok b -> exists a, r = Ok a ∧ k a = Ok b.
Proof. destruct r as [a|e]; [|discriminate]. intros Hk. by exists a. Qed.






Section DictReading.
Context `{UuidText}.

End DictReading.


(** ** A dictionary written and read *)

Section DictWriting.
Context `{UuidText}.

Lemma to_dict_without_id (t : ThoughtData) :
  to_dict t false
  = [ ("thought", VStr (thought t));
      ("thoughtNumber", VInt (thought_number t));
      ("totalThoughts", VInt (total_thoughts t));
      ("nextThoughtNeeded", VBool (next_thought_needed t));
      ("tags", str_list (tags t));
      ("axiomsUsed", str_list (axioms_used t));
      ("assumptionsChallenged", str_list (assumptions_challenged t));
      ("filesTouched", str_list (files_touched t));
      ("testsToRun", str_list (tests_to_run t));
      ("riskLevel", VStr (risk_value (risk_level t)));
      ("dependencies", str_list (dependencies t));
      ("confidenceScore", VFloat (confidence_score t));
      ("timestamp", VStr (timestamp t));
      ("stage", VStr (stage_value (stage t))) ].
Proof. reflexivity. Qed.

Lemma from_dict_to_dict_without_id (t : ThoughtData) (orc : Oracle) :
  well_formed t = true ->
  from_dict (to_dict t false) orc
  = Ok {| thought := thought t;
          thought_number := thought_number t;
          total_thoughts := total_thoughts t;
          next_thought_needed := next_thought_needed t;
          stage := stage t;
          tags := tags t;
          axioms_used := axioms_used t;
          assumptions_challenged := assumptions_challenged t;
          files_touched := files_touched t;
          tests_to_run := tests_to_run t;
          risk_level := risk_level t;
          dependencies := dependencies t;
          confidence_score := confidence_score t;
          timestamp := timestamp t;
          thought_id := uuid4 orc |}.
Proof.
  intros Hwf. rewrite to_dict_without_id.
  destruct t as [th n tot nx st tg ax asm fl ts rk dp cf tm ident].
  cbn [thought thought_number total_thoughts next_thought_needed stage tags
       axioms_used assumptions_challenged files_touched tests_to_run
       risk_level dependencies confidence_score timestamp thought_id] in *.
  destruct st, rk;
    lazy -[str_list as_str_list ThoughtData_init uuid_str uuid_parse];
    rewrite !as_str_list_str_list; cbv beta iota;
    exact (init_of_valid th n tot nx _ cf
             {| kw_thought := None; kw_thought_number := None;
                kw_total_thoughts := None; kw_next_thought_needed := None;
                kw_stage := None; kw_tags := Some tg;
                kw_axioms_used := Some ax;
                kw_assumptions_challenged := Some asm;
                kw_files_touched := Some fl; kw_tests_to_run := Some ts;
                kw_risk_level := Some _; kw_dependencies := Some dp;
                kw_confidence_score := None; kw_timestamp := Some tm;
                kw_id := None |}
             orc Hwf).
Qed.

(** X4: whatever [from_dict] returns satisfies the invariants of a
    constructed record: a body that is not blank, a number of at least 1,
    a total of at least the number, a confidence within [0, 1]. *)
Theorem from_dict_validates (data : Dict) (orc : Oracle) (t : ThoughtData) :
  from_dict data orc = Ok t -> well_formed t = true.
Proof.
  unfold from_dict. intros Hrun.
  apply bind_ok in Hrun as (sd1 & _ & Hrun).
  apply bind_ok in Hrun as (sd2 & _ & Hrun). cbv zeta in Hrun.
  apply bind_ok in Hrun as (sd3 & _ & Hrun).
  apply bind_ok in Hrun as (kwargs & _ & Hrun).
  by apply (constructed_well_formed kwargs orc).
Qed.

(** X5: reading back the dictionary of a constructed record, written with
    or without its identifier, gives a record that agrees with the
    original on every attribute but the identifier.  Without the
    identifier the new record has a fresh one; with it, the identifier is
    parsed from its text, and replaced by a fresh one if the text does not
    parse. *)
Theorem to_dict_from_dict (t : ThoughtData) (include_id : bool)
    (orc : Oracle) :
  well_formed t = true ->
  exists t',
    from_dict (to_dict t include_id) orc = Ok t'
    ∧ same_but_id t t'
    ∧ thought_id t'
      = if include_id
        then default (uuid4 orc) (uuid_parse (uuid_str (thought_id t)))
        else uuid4 orc.
Proof.
  intros Hwf. destruct include_id.
  - rewrite (from_dict_to_dict t orc Hwf). eexists. split; [reflexivity|].
    split; [apply same_but_id_refl_on|reflexivity].
  - rewrite (from_dict_to_dict_without_id t orc Hwf).
    eexists. split; [reflexivity|].
    split; [apply same_but_id_refl_on|reflexivity].
Qed.

End DictWriting.

Lemma from_dict_validates_witness :
  well_formed
    {| thought := "Test thought";
       thought_number := 1;
       total_thoughts := 3;
       next_thought_needed := true;
       stage := SCOPING;
       tags := ["tag1"; "tag2"];
       axioms_used := ["axiom1"];
       assumptions_challenged := ["assumption1"];
       files_touched := ["file.py"];
       tests_to_run := ["pytest tests/test_file.py"];
       risk_level := HIGH;
       dependencies := ["redis"];
       confidence_score := 0.5%float;
       timestamp := "2023-01-01T12:00:00";
       thought_id := 1000%N |} = true.
Proof.
  apply (from_dict_validates (H := sample_uuid_text)
           (expected_dict 0.5%float) sample_oracle).
  vm_compute. reflexivity.
Defined.

Lemma to_dict_from_dict_witness :
  exists t',
    from_dict (H := sample_uuid_text)
      (to_dict (H := sample_uuid_text) dict_thought false) sample_oracle
    = Ok t'
    ∧ same_but_id dict_thought t'
    ∧ thought_id t' = uuid4 sample_oracle.
Proof.
  apply (to_dict_from_dict (H := sample_uuid_text) dict_thought false
           sample_oracle).
  vm_compute. reflexivity.
Defined.

(** ** Camel case *)

Lemma all_chars_app (test : ascii -> bool) (a b : string) :
  all_chars test (a +:+ b) = all_chars test a && all_chars test b.
Proof.
  induction a as [|c a IH]; [reflexivity|].
  change (String c a +:+ b) with (String c (a +:+ b)).
  cbn [all_chars]. by rewrite IH, andb_assoc.
Qed.

Lemma append_empty_r (s : string) : s +:+ EmptyString = s.
Proof.
  induction s as [|c s IH]; [reflexivity|].
  change (String c s +:+ EmptyString) with (String c (s +:+ EmptyString)).
  by rewrite IH.
Qed.

Lemma split_pieces (sep : ascii) (s : string) :
  PyStr.split sep s ≠ []
  ∧ Forall (fun piece =>
              all_chars (fun c => negb (bool_decide (c = sep))) piece = true)
           (PyStr.split sep s).
Proof.
  induction s as [|c s [IHne IH]]; cbn.
  - split; [done|]. by repeat constructor.
  - case_bool_decide as Hc.
    + split; [done|]. by constructor.
    + destruct (PyStr.split sep s) as [|h rest]; [done|].
      split; [done|]. apply Forall_cons_1 in IH as [Hh Hrest].
      constructor; [|exact Hrest]. cbn. rewrite Hh.
      by rewrite bool_decide_eq_false_2.
Qed.

Lemma split_without_sep (sep : ascii) (s : string) :
  all_chars (fun c => negb (bool_decide (c = sep))) s = true ->
  PyStr.split sep s = [s].
Proof.
  induction s as [|c s IH]; [reflexivity|]. cbn.
  intros Hs. apply andb_prop in Hs as [Hc Hs].
  destruct (bool_decide (c = sep)); [discriminate Hc|].
  by rewrite (IH Hs).
Qed.

Lemma title_char_no_underscore (c : ascii) :
  c ≠ "_"%char ->
  PyStr.casefold_char c ≠ "_"%char ∧ PyStr.upper_char c ≠ "_"%char.
Proof.
  destruct c as [[] [] [] [] [] [] [] []]; vm_compute; intros Hc; split;
    solve [discriminate | exact Hc].
Qed.

Lemma title_from_no_underscore (previous_is_cased : bool) (s : string) :
  no_underscore s = true ->
  no_underscore (PyStr.title_from previous_is_cased s) = true.
Proof.
  unfold no_underscore. revert previous_is_cased.
  induction s as [|c s IH]; intros previous_is_cased; [done|]. cbn.
  intros Hs. apply andb_prop in Hs as [Hc Hs].
  rewrite (IH _ Hs), andb_true_r.
  apply negb_true_iff, bool_decide_eq_false in Hc.
  destruct (title_char_no_underscore c Hc) as [Hfold Hupper].
  apply negb_true_iff, bool_decide_eq_false.
  by destruct previous_is_cased.
Qed.

Lemma join_titles_no_underscore (pieces : list string) :
  Forall (fun piece => no_underscore piece = true) pieces ->
  no_underscore (PyStr.join EmptyString (map PyStr.title pieces)) = true.
Proof.
  induction 1 as [|piece pieces Hpiece Hpieces IH]; [reflexivity|].
  cbn [map PyStr.join].
  destruct (map PyStr.title pieces) as [|p rest] eqn:Hmap.
  - by apply title_from_no_underscore.
  - unfold no_underscore in *. rewrite !all_chars_app. cbn [all_chars].
    rewrite IH, andb_true_r. by apply title_from_no_underscore.
Qed.

(** X6: for a name in ASCII, [_to_camel_case] leaves no underscore, returns
    a name without underscore as it is, and is therefore idempotent; it
    maps every snake-case key of the table of [from_dict] to the
    camel-case key that the table pairs with it. *)
Theorem to_camel_case_spec (value : string) :
  all_chars (PyStr.in_range 0 127) value = true ->
  no_underscore (_to_camel_case value) = true
  ∧ (no_underscore value = true -> _to_camel_case value = value)
  ∧ _to_camel_case (_to_camel_case value) = _to_camel_case value
  ∧ Forall (fun entry : string * string => _to_camel_case entry.2 = entry.1)
           mappings.
Proof.
  intros _.
  assert (Hfixed : forall s, no_underscore s = true -> _to_camel_case s = s).
  { intros s Hs. unfold _to_camel_case.
    rewrite (split_without_sep "_" s Hs). cbn. apply append_empty_r. }
  assert (Hclean : no_underscore (_to_camel_case value) = true).
  { unfold _to_camel_case.
    destruct (split_pieces "_" value) as [Hne Hpieces].
    destruct (PyStr.split "_" value) as [|first rest]; [done|].
    apply Forall_cons_1 in Hpieces as [Hfirst Hrest].
    unfold no_underscore. rewrite all_chars_app, Hfirst.
    by apply join_titles_no_underscore. }
  split; [exact Hclean|]. split; [apply Hfixed|].
  split; [by apply Hfixed|].
  repeat constructor.
Qed.

Lemma to_camel_case_spec_witness :
  no_underscore (_to_camel_case "next_thought_needed") = true
  ∧ (no_underscore "next_thought_needed" = true ->
     _to_camel_case "next_thought_needed" = "next_thought_needed")
  ∧ _to_camel_case (_to_camel_case "next_thought_needed")
    = _to_camel_case "next_thought_needed"
  ∧ Forall (fun entry : string * string => _to_camel_case entry.2 = entry.1)
           mappings.
Proof. apply (to_camel_case_spec "next_thought_needed"). reflexivity. Defined.

(** ** Counting *)

Lemma occurrences_nil {K : Type} `{EqDecision K} (k : K) :
  occurrences k [] = 0.
Proof. reflexivity. Qed.

Lemma occurrences_cons {K : Type} `{EqDecision K} (k x : K) (items : list K) :
  occurrences k (x :: items)
  = (if decide (x = k) then 1 else 0) + occurrences k items.
Proof.
  unfold occurrences, PySort.len. rewrite filter_cons.
  destruct (decide (x = k)); simpl length; lia.
Qed.



Section CounterFold.
Context {K : Type} `{EqDecision K}.

Lemma counter_fold (counts : list (K * Z)) (items : list K) :
  let result :=
    foldl (fun counts item =>
             PyDict.set item (PyDict.get_default item 0 counts + 1) counts)
          counts items in
  (forall k, PyDict.get_default k 0 result
             = PyDict.get_default k 0 counts + occurrences k items)
  ∧ (forall k, k ∈ PyDict.keys result <-> k ∈ PyDict.keys counts ∨ k ∈ items)
  ∧ (NoDup (PyDict.keys counts) -> NoDup (PyDict.keys result)).
Proof.
  cbn zeta. revert counts.
  induction items as [|x items IH]; intros counts; cbn [foldl].
  - split; [|split].
    + intros k. rewrite occurrences_nil. lia.
    + intros k. rewrite elem_of_nil. tauto.
    + done.
  - destruct (IH (PyDict.set x (PyDict.get_default x 0 counts + 1) counts))
      as (Hget & Hkeys & Hnd).
    split; [|split].
    + intros k. rewrite Hget, get_default_set, occurrences_cons.
      destruct (decide (k = x)) as [->|Hne].
      * rewrite decide_True by done. lia.
      * rewrite decide_False by done. lia.
    + intros k. rewrite Hkeys, keys_set_elem_of, elem_of_cons. tauto.
    + intros Hcounts. by apply Hnd, keys_set_NoDup.
Qed.

(** [Counter(items)] holds every item once, with the number of its
    occurrences. *)
Lemma Counter_spec (items : list K) :
  NoDup (PyDict.keys (PyDict.Counter items))
  ∧ (forall k, k ∈ PyDict.keys (PyDict.Counter items) <-> k ∈ items)
  ∧ (forall k, PyDict.get_default k 0 (PyDict.Counter items)
               = occurrences k items)
  ∧ (forall k n, (k, n) ∈ PyDict.Counter items -> n = occurrences k items).
Proof.
  unfold PyDict.Counter.
  destruct (counter_fold [] items) as (Hget & Hkeys & Hnd). cbn zeta in *.
  assert (NoDup (PyDict.keys
            (foldl (fun counts item =>
                      PyDict.set item (PyDict.get_default item 0 counts + 1)
                                 counts) [] items))) as Hnodup
    by (apply Hnd; constructor).
  split; [exact Hnodup|]. split; [|split].
  - intros k. rewrite Hkeys. cbn. rewrite elem_of_nil. tauto.
  - intros k. rewrite Hget. reflexivity.
  - intros k n Hin. rewrite <- (Z.add_0_l (occurrences k items)).
    change 0 with (PyDict.get_default k 0 ([] : list (K * Z))) at 1.
    rewrite <- Hget. unfold PyDict.get_default.
    by rewrite (elem_of_get k n _ Hnodup Hin).
Qed.

End CounterFold.

(** ** The risk profile *)

Lemma risk_value_inj (r1 r2 : RiskLevel) :
  risk_value r1 = risk_value r2 -> r1 = r2.
Proof. destruct r1, r2; simpl; intros E; try reflexivity; discriminate E. Qed.

Lemma occurrences_risk (r : RiskLevel) (records : list ThoughtData) :
  occurrences (risk_value r)
              (map (fun t => risk_value (risk_level t)) records)
  = PySort.len (filter (fun t => risk_level t = r) records).
Proof.
  induction records as [|t records IH]; [reflexivity|].
  cbn [map]. rewrite occurrences_cons, IH. unfold PySort.len.
  rewrite filter_cons.
  destruct (decide (risk_level t = r)) as [->|Hne].
  - rewrite decide_True by done. simpl length. lia.
  - rewrite decide_False by (intros E; by apply risk_value_inj in E).
    lia.
Qed.

(** X7: the risk profile has the keys "high", "medium" and "low", in this
    order, each with the number of records of that risk level, and the
    three numbers add up to the number of records. *)
Theorem risk_profile_counts (records : list ThoughtData) :
  ThoughtAnalyzer._risk_profile records
  = [ ("high", PySort.len (filter (fun t => risk_level t = HIGH) records));
      ("medium", PySort.len (filter (fun t => risk_level t = MEDIUM) records));
      ("low", PySort.len (filter (fun t => risk_level t = LOW) records)) ]
  ∧ foldr Z.add 0 (map snd (ThoughtAnalyzer._risk_profile records))
    = PySort.len records.
Proof.
  assert (ThoughtAnalyzer._risk_profile records
    = [ ("high", PySort.len (filter (fun t => risk_level t = HIGH) records));
        ("medium",
         PySort.len (filter (fun t => risk_level t = MEDIUM) records));
        ("low", PySort.len (filter (fun t => risk_level t = LOW) records)) ])
    as Hprofile.
  { unfold ThoughtAnalyzer._risk_profile.
    destruct (Counter_spec (map (fun t => risk_value (risk_level t)) records))
      as (_ & _ & Hget & _).
    by rewrite !Hget, !occurrences_risk. }
  split; [exact Hprofile|]. rewrite Hprofile. cbn [map snd foldr].
  clear Hprofile. unfold PySort.len.
  induction records as [|t records IH]; [reflexivity|].
  rewrite !filter_cons. destruct (risk_level t);
    repeat (case_decide; try congruence); simpl length; lia.
Qed.

(** ** The dependency map *)

Lemma dependency_fold_inner (n : Z) (dependency_map : list (string * list Z))
    (deps : list string) :
  let result :=
    foldl (fun dependency_map dependency =>
             PyDict.set dependency
               (PyDict.get_default dependency [] dependency_map ++ [n])
               dependency_map)
          dependency_map deps in
  (forall k, PyDict.get_default k [] result
             = PyDict.get_default k [] dependency_map
               ++ map (fun _ => n) (filter (fun d => d = k) deps))
  ∧ (forall k, k ∈ PyDict.keys result
               <-> k ∈ PyDict.keys dependency_map ∨ k ∈ deps)
  ∧ (NoDup (PyDict.keys dependency_map) -> NoDup (PyDict.keys result)).
Proof.
  cbn zeta. revert dependency_map.
  induction deps as [|d deps IH]; intros dependency_map; cbn [foldl].
  - split; [|split].
    + intros k. by rewrite filter_nil, app_nil_r.
    + intros k. rewrite elem_of_nil. tauto.
    + done.
  - destruct (IH (PyDict.set d (PyDict.get_default d [] dependency_map ++ [n])
                             dependency_map)) as (Hget & Hkeys & Hnd).
    split; [|split].
    + intros k. rewrite Hget, get_default_set, filter_cons.
      destruct (decide (k = d)) as [->|Hne].
      * rewrite decide_True by done. cbn [map]. by rewrite <- app_assoc.
      * by rewrite decide_False by done.
    + intros k. rewrite Hkeys, keys_set_elem_of, elem_of_cons. tauto.
    + intros Hmap. by apply Hnd, keys_set_NoDup.
Qed.

Lemma dependency_fold (dependency_map : list (string * list Z))
    (records : list ThoughtData) :
  let result :=
    foldl (fun dependency_map thought =>
             foldl (fun dependency_map dependency =>
                      PyDict.set dependency
                        (PyDict.get_default dependency [] dependency_map
                         ++ [thought_number thought])
                        dependency_map)
                   dependency_map (dependencies thought))
          dependency_map records in
  (forall k, PyDict.get_default k [] result
             = PyDict.get_default k [] dependency_map ++ references k records)
  ∧ (forall k, k ∈ PyDict.keys result
               <-> k ∈ PyDict.keys dependency_map
                   ∨ exists t, t ∈ records ∧ k ∈ dependencies t)
  ∧ (NoDup (PyDict.keys dependency_map) -> NoDup (PyDict.keys result)).
Proof.
  cbn zeta. revert dependency_map.
  induction records as [|t records IH]; intros dependency_map; cbn [foldl].
  - split; [|split].
    + intros k. unfold references. cbn. by rewrite app_nil_r.
    + intros k. split; [by left|]. intros [Hk|(t & Ht & _)]; [done|].
      by apply elem_of_nil in Ht.
    + done.
  - destruct (dependency_fold_inner (thought_number t) dependency_map
                (dependencies t)) as (Hget1 & Hkeys1 & Hnd1).
    cbn zeta in *.
    set (step := foldl _ dependency_map (dependencies t)) in *.
    destruct (IH step) as (Hget & Hkeys & Hnd).
    split; [|split].
    + intros k. rewrite Hget, Hget1. unfold references. cbn [flat_map].
      by rewrite <- app_assoc.
    + intros k. rewrite Hkeys, Hkeys1. split.
      * intros [[Hk|Hk]|(t' & Ht' & Hk)]; [by left| |].
        -- right. exists t. split; [left|done].
        -- right. exists t'. split; [by right|done].
      * intros [Hk|(t' & Ht' & Hk)]; [by left; left|].
        apply elem_of_cons in Ht' as [->|Ht']; [by left; right|].
        right. by exists t'.
    + intros Hmap. by apply Hnd, Hnd1.
Qed.

Lemma dependency_map_keys (records : list ThoughtData) :
  NoDup (PyDict.keys (ThoughtAnalyzer._dependency_map records))
  ∧ (forall dependency,
       dependency ∈ PyDict.keys (ThoughtAnalyzer._dependency_map records)
       <-> exists t, t ∈ records ∧ dependency ∈ dependencies t)
  ∧ (forall dependency,
       PyDict.get_default dependency []
         (ThoughtAnalyzer._dependency_map records)
       = references dependency records).
Proof.
  unfold ThoughtAnalyzer._dependency_map.
  destruct (dependency_fold [] records) as (Hget & Hkeys & Hnd).
  cbn zeta in *. split; [apply Hnd; constructor|]. split.
  - intros dependency. rewrite Hkeys. cbn. rewrite elem_of_nil. tauto.
  - intros dependency. by rewrite Hget.
Qed.

(** X8: the dependency map has every dependency once as a key; its keys
    are the dependencies named by some record; and under a dependency it
    holds the sequence numbers of the records that name it, in the order
    of the records, once for every time a record names it. *)
Theorem dependency_map_references (records : list ThoughtData) :
  NoDup (PyDict.keys (ThoughtAnalyzer._dependency_map records))
  ∧ (forall dependency,
       PyDict.contains dependency (ThoughtAnalyzer._dependency_map records)
       = true
       <-> exists t, t ∈ records ∧ dependency ∈ dependencies t)
  ∧ (forall dependency,
       PyDict.get_default dependency []
         (ThoughtAnalyzer._dependency_map records)
       = references dependency records).
Proof.
  destruct (dependency_map_keys records) as (Hnd & Hkeys & Hget).
  split; [exact Hnd|]. split; [|exact Hget].
  intros dependency. rewrite contains_keys. apply Hkeys.
Qed.

(** ** The order of strings *)

Lemma ascii_compare_lt_trans (a b c : ascii) :
  Ascii.compare a b = Lt -> Ascii.compare b c = Lt -> Ascii.compare a c = Lt.
Proof.
  unfold Ascii.compare. rewrite !N.compare_lt_iff. apply N.lt_trans.
Qed.

Lemma string_le_trans (x y z : string) :
  String.compare x y ≠ Gt -> String.compare y z ≠ Gt ->
  String.compare x z ≠ Gt.
Proof.
  revert y z. induction x as [|a x IH]; intros [|b y] [|c z]; cbn;
    try done.
  destruct (Ascii.compare a b) eqn:Hab; [| |done].
  - apply Ascii.compare_eq_iff in Hab as ->.
    destruct (Ascii.compare b c); [apply IH|done|done].
  - intros _. destruct (Ascii.compare b c) eqn:Hbc; [| |done].
    + apply Ascii.compare_eq_iff in Hbc as ->. by rewrite Hab.
    + by rewrite (ascii_compare_lt_trans a b c Hab Hbc).
Qed.

Lemma string_ltb_false (x y : string) :
  String.ltb y x = false <-> String.compare x y ≠ Gt.
Proof.
  unfold String.ltb. rewrite (String.compare_antisym y x).
  destruct (String.compare x y); cbn; split; done.
Qed.

Lemma string_ltb_asym (x y : string) :
  String.ltb y x = true -> String.ltb x y = false.
Proof.
  unfold String.ltb. rewrite (String.compare_antisym y x).
  by destruct (String.compare x y).
Qed.

Lemma string_in_order_trans (x y z : string) :
  in_order String.ltb x y -> in_order String.ltb y z ->
  in_order String.ltb x z.
Proof. unfold in_order. rewrite !string_ltb_false. apply string_le_trans. Qed.

Lemma string_in_order_strict (x y : string) :
  in_order String.ltb x y -> x ≠ y -> String.ltb x y = true.
Proof.
  unfold in_order, String.ltb. rewrite (String.compare_antisym y x).
  destruct (String.compare x y) eqn:Hxy; cbn; try done.
  intros _ Hne. apply String.compare_eq_iff in Hxy. congruence.
Qed.

Lemma strictly_sorted_strings (l : list string) :
  NoDup l -> StronglySorted (in_order String.ltb) l ->
  StronglySorted (fun a b => String.ltb a b = true) l.
Proof.
  intros Hnd Hsorted. induction Hsorted as [|a rest Hrest IH Ha];
    [constructor|].
  apply NoDup_cons in Hnd as [Hnotin Hnd].
  constructor; [by apply IH|].
  rewrite Forall_forall in Ha. apply Forall_forall. intros b Hb.
  apply string_in_order_strict; [by apply Ha|].
  intros ->. by apply Hnotin.
Qed.

(** Sorting distinct strings gives a strictly ascending list of the same
    strings. *)
Lemma sorted_strings_spec (l : list string) :
  NoDup l ->
  Permutation (PySort.sorted_strings l) l
  ∧ StronglySorted (fun a b => String.ltb a b = true)
                   (PySort.sorted_strings l).
Proof.
  intros Hnd. unfold PySort.sorted_strings.
  pose proof (stable_sort_Permutation String.ltb l) as Hperm.
  split; [exact Hperm|].
  apply strictly_sorted_strings; [by rewrite Hperm|].
  apply stable_sort_sorted; [apply string_ltb_asym|].
  apply string_in_order_trans.
Qed.

Lemma sorted_union_spec (f : ThoughtData -> list string)
    (records : list ThoughtData) :
  StronglySorted (fun a b => String.ltb a b = true)
                 (ThoughtAnalyzer.sorted_union f records)
  ∧ NoDup (ThoughtAnalyzer.sorted_union f records)
  ∧ (forall x, x ∈ ThoughtAnalyzer.sorted_union f records
               <-> exists t, t ∈ records ∧ x ∈ f t).
Proof.
  unfold ThoughtAnalyzer.sorted_union.
  set (items := elements (list_to_set (concat (map f records)) : gset string)).
  assert (NoDup items) as Hnd by apply NoDup_elements.
  destruct (sorted_strings_spec items Hnd) as [Hperm Hsorted].
  split; [exact Hsorted|]. split; [by rewrite Hperm|].
  intros x. rewrite Hperm. unfold items.
  rewrite elem_of_elements, elem_of_list_to_set, list_elem_of_In, in_concat.
  split.
  - intros (l & Hl & Hx). apply in_map_iff in Hl as (t & <- & Ht).
    exists t. by rewrite !list_elem_of_In.
  - intros (t & Ht & Hx). exists (f t).
    split; [|by apply list_elem_of_In]. apply in_map. by apply list_elem_of_In.
Qed.

(** ** Stability of the sort *)

Section Stability.
Context {A : Type} (before : A -> A -> bool) (P : A -> Prop)
  `{forall x, Decision (P x)}.
Hypothesis same_rank : forall x y, P x -> P y -> before x y = false.



End Stability.

(** ** The most common entries *)



(** ** The summary, field by field *)








Lemma filter_map_comm {A B : Type} (f : A -> B) (P : B -> Prop)
    `{forall y, Decision (P y)} (l : list A) :
  filter P (map f l) = map f (filter (fun x => P (f x)) l).
Proof.
  induction l as [|x l IH]; [reflexivity|].
  cbn [map]. rewrite !filter_cons. destruct (decide (P (f x))); cbn [map];
    by rewrite IH.
Qed.







(** ** Testing after implementation *)

(** X13: [_has_testing_after_implementation] holds exactly when some
    record is in the Implementation stage and some Testing record has a
    sequence number at least that of every Implementation record. *)
Theorem testing_ready_iff (records : list ThoughtData) :
  ThoughtAnalyzer._has_testing_after_implementation records = true
  <-> (exists i, i ∈ records ∧ stage i = IMPLEMENTATION)
      ∧ exists t, t ∈ records ∧ stage t = TESTING
                  ∧ forall i, i ∈ records -> stage i = IMPLEMENTATION ->
                              thought_number i <= thought_number t.
Proof.
  unfold ThoughtAnalyzer._has_testing_after_implementation.
  set (implementation := filter (fun t => stage t = IMPLEMENTATION) records).
  assert (Himpl : forall i, i ∈ implementation
                            <-> i ∈ records ∧ stage i = IMPLEMENTATION).
  { intros i. unfold implementation. rewrite list_elem_of_filter. tauto. }
  destruct implementation as [|i0 rest] eqn:Hlist; cbn [map py_max].
  - split; [discriminate|]. intros [(i & Hi) _].
    apply Himpl in Hi. by apply elem_of_nil in Hi.
  - set (last_impl := foldl Z.max (thought_number i0)
                            (map thought_number rest)).
    assert (Hupper : forall i, i ∈ records -> stage i = IMPLEMENTATION ->
                               thought_number i <= last_impl).
    { intros i Hi Hst.
      assert (i ∈ i0 :: rest) as Hin by (by apply Himpl).
      apply elem_of_cons in Hin as [->|Hin]; [apply foldl_max_ge|].
      apply foldl_max_upper, list_elem_of_fmap. by exists i. }
    assert (Hreached : exists i, i ∈ records ∧ stage i = IMPLEMENTATION
                                 ∧ thought_number i = last_impl).
    { destruct (foldl_max_in (map thought_number rest) (thought_number i0))
        as [E|E].
      - exists i0. destruct (proj1 (Himpl i0)) as [Hin Hst]; [left|]. done.
      - apply list_elem_of_fmap in E as (i & E & Hin). exists i.
        destruct (proj1 (Himpl i)) as [Hin' Hst]; [by right|]. done. }
    rewrite existsb_exists. split.
    + intros (t & Ht & Hcond). apply andb_prop in Hcond as [Hst Hge].
      apply bool_decide_eq_true in Hst. apply Z.geb_le in Hge.
      destruct Hreached as (i & Hi & Hsti & _).
      split; [by exists i|]. exists t.
      split; [by apply list_elem_of_In|]. split; [exact Hst|].
      intros j Hj Hstj. specialize (Hupper j Hj Hstj). lia.
    + intros [_ (t & Ht & Hst & Hafter)]. exists t.
      split; [by apply list_elem_of_In|].
      apply andb_true_intro. split; [by apply bool_decide_eq_true|].
      apply Z.geb_le. destruct Hreached as (i & Hi & Hsti & <-).
      by apply Hafter.
Qed.

(** ** Metadata alerts *)

(** X14: a thought gets at most two metadata alerts, since the alert on
    missing files and the alert on missing tests are for different stages,
    and at most one in the Scoping and Research stages; it gets none
    exactly when it lists files if it is an Implementation thought, lists
    tests if it is a Testing or Review thought, and has a confidence that
    is not below 0.5 if its risk is high. *)
Theorem metadata_alerts_spec (t : ThoughtData) :
  (length (ThoughtAnalyzer._metadata_alerts t) <= 2)%nat
  ∧ (stage t = SCOPING ∨ stage t = RESEARCH_SPIKE ->
     (length (ThoughtAnalyzer._metadata_alerts t) <= 1)%nat)
  ∧ (ThoughtAnalyzer._metadata_alerts t = []
     <-> (stage t = IMPLEMENTATION -> files_touched t ≠ [])
         ∧ (stage t = TESTING ∨ stage t = REVIEW -> tests_to_run t ≠ [])
         ∧ (risk_level t = HIGH ->
            PrimFloat.ltb (confidence_score t) 0.5 = false)).
Proof.
  unfold ThoughtAnalyzer._metadata_alerts.
  destruct t as [th n tot nx st tg ax asm fl ts rk dp cf tm ident].
  cbn [stage files_touched tests_to_run risk_level confidence_score].
  destruct (PrimFloat.ltb cf 0.5) eqn:Hcf;
    destruct st, rk, fl as [|f fl], ts as [|x ts]; vm_compute;
    intuition first [lia | discriminate | congruence].
Qed.

(** ** Related thoughts under a negative limit *)

(** X15: with a negative limit -k, and outside the test runner's shortcut,
    the search returns the ranking of the qualifying records without its
    last k records (all of them are dropped when there are at most k);
    what it returns are still records other than the target with a score
    that is not zero. *)
Theorem find_related_negative_limit (env : TestEnv) (target : ThoughtData)
    (records : list ThoughtData) (max_results : Z) :
  no_related_shortcut env target records ->
  max_results < 0 ->
  exists dropped,
    Permutation
      (ThoughtAnalyzer.find_related_thoughts env target records max_results
       ++ dropped)
      (filter (qualifies target) records)
    ∧ StronglySorted (ranks_before target)
        (ThoughtAnalyzer.find_related_thoughts env target records max_results
         ++ dropped)
    ∧ length dropped
      = Nat.min (Z.to_nat (- max_results))
                (length (filter (qualifies target) records))
    ∧ (forall r,
         r ∈ ThoughtAnalyzer.find_related_thoughts env target records
               max_results ->
         r ∈ records ∧ thought_id r ≠ thought_id target
         ∧ relatedness target r ≠ 0).
Proof.
  intros Henv Hmax.
  destruct (ranked_candidates target records) as [Hperm Hsorted].
  set (ranked := PySort.sort_by_pair_desc ThoughtAnalyzer.sort_key
                   (ThoughtAnalyzer.candidates target records)) in *.
  set (kept := (length ranked - Z.to_nat (- max_results))%nat).
  assert (ThoughtAnalyzer.find_related_thoughts env target records max_results
          = map snd (take kept ranked)) as ->.
  { unfold ThoughtAnalyzer.find_related_thoughts.
    assert (match env with
            | Some helpers => find_related_thoughts_test helpers target records
            | None => []
            end = []) as -> by (destruct env; [exact Henv|reflexivity]).
    unfold PySort.slice_to.
    by replace (0 <=? max_results) with false
      by (symmetry; apply Z.leb_gt; lia). }
  assert (Hsplit :
    map snd (take kept ranked) ++ map snd (drop kept ranked)
    = map snd ranked) by (by rewrite <- map_app, take_drop).
  exists (map snd (drop kept ranked)). rewrite Hsplit.
  split; [exact Hperm|]. split; [exact Hsorted|]. split.
  - rewrite length_map, length_drop, <- (Permutation_length Hperm), length_map.
    unfold kept. lia.
  - intros r Hr.
    assert (r ∈ filter (qualifies target) records) as Hq.
    { rewrite <- Hperm, <- Hsplit. apply elem_of_app. by left. }
    apply list_elem_of_filter in Hq as [[Hid Hscore] Hin]. done.
Qed.

Lemma find_related_negative_limit_witness :
  exists dropped,
    Permutation
      (ThoughtAnalyzer.find_related_thoughts None scoping_1
         [scoping_1; scoping_2; scoping_4] (-1) ++ dropped)
      (filter (qualifies scoping_1) [scoping_1; scoping_2; scoping_4])
    ∧ StronglySorted (ranks_before scoping_1)
        (ThoughtAnalyzer.find_related_thoughts None scoping_1
           [scoping_1; scoping_2; scoping_4] (-1) ++ dropped)
    ∧ length dropped
      = Nat.min (Z.to_nat (- -1))
                (length (filter (qualifies scoping_1)
                                [scoping_1; scoping_2; scoping_4]))
    ∧ (forall r,
         r ∈ ThoughtAnalyzer.find_related_thoughts None scoping_1
               [scoping_1; scoping_2; scoping_4] (-1) ->
         r ∈ [scoping_1; scoping_2; scoping_4]
         ∧ thought_id r ≠ thought_id scoping_1
         ∧ relatedness scoping_1 r ≠ 0).
Proof.
  apply (find_related_negative_limit None scoping_1
           [scoping_1; scoping_2; scoping_4] (-1)); [exact I|lia].
Defined.

(** ** Snippets *)

Lemma length_append (a b : string) :
  String.length (a +:+ b) = (String.length a + String.length b)%nat.
Proof.
  induction a as [|c a IH]; [reflexivity|].
  change (String c a +:+ b) with (String c (a +:+ b)). cbn. by rewrite IH.
Qed.

Lemma length_prefix_chars (n : nat) (s : string) :
  String.length (PyStr.prefix_chars n s) = Nat.min n (String.length s).
Proof.
  revert s. induction n as [|n IH]; intros [|c s]; cbn; try reflexivity.
  by rewrite IH.
Qed.

Lemma prefix_chars_append (n : nat) (a b : string) :
  String.length a = n -> PyStr.prefix_chars n (a +:+ b) = a.
Proof.
  revert a. induction n as [|n IH]; intros [|c a]; cbn; try done.
  intros [= Ha]. change (String c a +:+ b) with (String c (a +:+ b)).
  cbn. by rewrite IH.
Qed.

(** X16: the snippet of a text has at most 103 characters: a text of at
    most 100 characters is its own snippet, a longer one is cut to its
    first 100 characters followed by three dots; the snippet and the text
    agree on their first 100 characters. *)
Theorem snippet_spec (text : string) :
  PyStr.len (ThoughtAnalyzer.snippet text) <= 103
  ∧ (PyStr.len text <= 100 -> ThoughtAnalyzer.snippet text = text)
  ∧ (100 < PyStr.len text ->
     ThoughtAnalyzer.snippet text = PyStr.prefix_chars 100 text +:+ "..."
     ∧ PyStr.len (ThoughtAnalyzer.snippet text) = 103)
  ∧ PyStr.prefix_chars 100 (ThoughtAnalyzer.snippet text)
    = PyStr.prefix_chars 100 text.
Proof.
  unfold ThoughtAnalyzer.snippet, PyStr.len.
  destruct (Z.gtb_spec (Z.of_nat (String.length text)) 100) as [Hlong|Hshort].
  - assert (String.length (PyStr.prefix_chars 100 text) = 100%nat) as Hprefix
      by (rewrite length_prefix_chars; lia).
    assert (String.length (PyStr.prefix_chars 100 text +:+ "...") = 103%nat)
      as Hlen by (rewrite length_append, Hprefix; reflexivity).
    rewrite Hlen. split; [lia|]. split; [lia|]. split; [done|].
    by apply prefix_chars_append.
  - split; [lia|]. split; [done|]. split; [lia|done].
Qed.

(** ** The dependency summary *)

(** X17: the dependency summary counts its items; the items are the
    dependencies named by some record, each once, in strictly ascending
    order; and they are the keys of the dependency map, sorted. *)
Theorem dependency_summary_spec (records : list ThoughtData) :
  (ThoughtAnalyzer._dependency_summary records).1
  = PySort.len (ThoughtAnalyzer._dependency_summary records).2
  ∧ StronglySorted (fun a b => String.ltb a b = true)
                   (ThoughtAnalyzer._dependency_summary records).2
  ∧ (forall dependency,
       dependency ∈ (ThoughtAnalyzer._dependency_summary records).2
       <-> exists t, t ∈ records ∧ dependency ∈ dependencies t)
  ∧ (ThoughtAnalyzer._dependency_summary records).2
    = PySort.sorted_strings
        (PyDict.keys (ThoughtAnalyzer._dependency_map records)).
Proof.
  unfold ThoughtAnalyzer._dependency_summary. cbn [fst snd].
  destruct (sorted_union_spec dependencies records) as (Hsorted & Hnd & Hmem).
  split; [reflexivity|]. split; [exact Hsorted|]. split; [exact Hmem|].
  destruct (dependency_map_keys records) as (Hkeys_nd & Hkeys & _).
  destruct (sorted_strings_spec _ Hkeys_nd) as [Hperm Hsorted'].
  apply (StronglySorted_unique_strong (fun a b => String.ltb a b = true));
    [|exact Hsorted|exact Hsorted'|].
  - intros a b _ _ Hab Hba. by rewrite (string_ltb_asym b a Hab) in Hba.
  - apply NoDup_Permutation; [exact Hnd|by rewrite Hperm|].
    intros d. rewrite Hmem, Hperm. symmetry. apply Hkeys.
Qed.

(** ** The counts of an analysis *)

Lemma analyze_thought_record (env : TestEnv) (t : ThoughtData)
    (records : list ThoughtData) (ratio : float) :
  PyNum.int_truediv (thought_number t) (total_thoughts t) = Ok ratio ->
  exists next why,
    ThoughtAnalyzer.analyze_thought env t records
    = Ok {| a_thoughtNumber := thought_number t;
            a_totalThoughts := total_thoughts t;
            a_nextThoughtNeeded := next_thought_needed t;
            a_stage := stage_value (stage t);
            a_tags := tags t;
            a_timestamp := timestamp t;
            relatedThoughtsCount :=
              PySort.len (ThoughtAnalyzer.related_and_first env t records).1;
            relatedThoughtSummaries :=
              map ThoughtAnalyzer.related_summary
                  (ThoughtAnalyzer.related_and_first env t records).1;
            progress := PrimFloat.mul ratio 100;
            isFirstInStage :=
              (ThoughtAnalyzer.related_and_first env t records).2;
            confidenceScore := confidence_score t;
            metadataAlerts := ThoughtAnalyzer._metadata_alerts t;
            stageCoverage := ThoughtAnalyzer._stage_coverage records;
            pendingStages :=
              map (fun entry : ThoughtStage * Z => stage_value entry.1)
                  (filter (fun entry : ThoughtStage * Z => entry.2 = 0)
                          (ThoughtAnalyzer._stage_coverage records));
            thoughtHistoryLength := PySort.len records;
            currentStage := stage_value (stage t);
            projectDependencies :=
              ThoughtAnalyzer._dependency_summary records;
            testingReady :=
              ThoughtAnalyzer._has_testing_after_implementation records;
            highRiskPendingTests :=
              ThoughtAnalyzer._high_risk_without_tests records;
            recommendedNextThoughtNeeded := next;
            reason := why |}.
Proof.
  intros Hratio. unfold ThoughtAnalyzer.analyze_thought.
  destruct (ThoughtAnalyzer.related_and_first env t records)
    as [related first].
  rewrite Hratio. cbn [bind].
  destruct (ThoughtAnalyzer.guidance t _ (PrimFloat.mul ratio 100))
    as [next why].
  by exists next, why.
Qed.

Lemma coverage_total (records : list ThoughtData) :
  foldr Z.add 0 (map (fun s => coverage s records) all_stages)
  = PySort.len records.
Proof.
  induction records as [|t records IH]; [reflexivity|].
  cbn [all_stages map foldr] in *. rewrite !coverage_cons.
  unfold PySort.len in *. simpl length.
  destruct (stage t); repeat (case_decide; try congruence); lia.
Qed.

Lemma related_and_first_length (env : TestEnv) (t : ThoughtData)
    (records : list ThoughtData) :
  no_related_shortcut env t records ->
  PySort.len (ThoughtAnalyzer.related_and_first env t records).1 <= 3.
Proof.
  intros Henv.
  assert (PySort.len (ThoughtAnalyzer.find_related_thoughts env t records 3)
          <= 3) as Hfound.
  { unfold ThoughtAnalyzer.find_related_thoughts.
    assert (match env with
            | Some helpers => find_related_thoughts_test helpers t records
            | None => []
            end = []) as -> by (destruct env; [exact Henv|reflexivity]).
    unfold PySort.len. rewrite slice_to_nonneg by lia.
    rewrite length_map, length_take. lia. }
  unfold ThoughtAnalyzer.related_and_first.
  destruct env as [helpers|]; [|exact Hfound].
  destruct (set_first_in_stage_test helpers t); [|exact Hfound].
  cbn [fst]. destruct (List.find _ records); unfold PySort.len; simpl; lia.
Qed.

(** X18: the counts of the analysis of a constructed thought agree with
    each other and with the history: the related-thoughts count is the
    number of related summaries, and at most 3 outside the test runner's
    shortcut for the search; the history length is the number of records
    and the sum of the stage coverage, which holds the count of every
    stage; the pending stages are the stages without a record, in the
    order of the enumeration; the number of high-risk records without
    tests is between 0 and the history length. *)
Theorem analysis_counts (env : TestEnv) (t : ThoughtData)
    (records : list ThoughtData) :
  well_formed t = true ->
  exists a,
    ThoughtAnalyzer.analyze_thought env t records = Ok a
    ∧ relatedThoughtsCount a = PySort.len (relatedThoughtSummaries a)
    ∧ (no_related_shortcut env t records -> relatedThoughtsCount a <= 3)
    ∧ thoughtHistoryLength a = PySort.len records
    ∧ stageCoverage a = map (fun s => (s, coverage s records)) all_stages
    ∧ foldr Z.add 0 (map snd (stageCoverage a)) = thoughtHistoryLength a
    ∧ pendingStages a
      = map stage_value (filter (fun s => coverage s records = 0) all_stages)
    ∧ 0 <= highRiskPendingTests a <= thoughtHistoryLength a.
Proof.
  intros Hwf. apply well_formed_bounds in Hwf.
  destruct (int_truediv_within (thought_number t) (total_thoughts t))
    as [ratio Hratio]; [lia|lia|].
  destruct (analyze_thought_record env t records ratio Hratio)
    as (next & why & ->).
  eexists. split; [reflexivity|].
  cbn [relatedThoughtsCount relatedThoughtSummaries thoughtHistoryLength
       stageCoverage pendingStages highRiskPendingTests].
  rewrite stage_coverage_counts.
  split; [unfold PySort.len; by rewrite length_map|].
  split; [apply related_and_first_length|].
  split; [reflexivity|]. split; [reflexivity|]. split; [|split].
  - rewrite map_map. cbn [snd]. apply coverage_total.
  - rewrite filter_map_comm, map_map. reflexivity.
  - unfold ThoughtAnalyzer._high_risk_without_tests, PySort.len.
    pose proof (length_filter
                  (fun thought =>
                     risk_level thought = HIGH ∧ tests_to_run thought = [])
                  records).
    lia.
Qed.

Lemma analysis_counts_witness :
  exists a,
    ThoughtAnalyzer.analyze_thought None thought1 all_thoughts = Ok a
    ∧ relatedThoughtsCount a = PySort.len (relatedThoughtSummaries a)
    ∧ (no_related_shortcut None thought1 all_thoughts ->
       relatedThoughtsCount a <= 3)
    ∧ thoughtHistoryLength a = PySort.len all_thoughts
    ∧ stageCoverage a = map (fun s => (s, coverage s all_thoughts)) all_stages
    ∧ foldr Z.add 0 (map snd (stageCoverage a)) = thoughtHistoryLength a
    ∧ pendingStages a
      = map stage_value
            (filter (fun s => coverage s all_thoughts = 0) all_stages)
    ∧ 0 <= highRiskPendingTests a <= thoughtHistoryLength a.
Proof. apply (analysis_counts None thought1 all_thoughts). reflexivity. Defined.

(** ** Errors of an analysis *)

(** X19: the analysis of a thought raises exactly on its progress ratio,
    which the guard around the guidance does not cover: ZeroDivisionError
    when the total is 0 (no constructed thought has such a total, an
    assignment after the construction can give one), OverflowError when
    the ratio is too large for a float, and no error otherwise. *)
Theorem analyze_thought_raises (env : TestEnv) (t : ThoughtData)
    (records : list ThoughtData) :
  (total_thoughts t = 0 ->
   ThoughtAnalyzer.analyze_thought env t records = Raise ZeroDivisionError)
  ∧ (total_thoughts t ≠ 0 ->
     PyNum.overflow_bound * Z.abs (total_thoughts t)
     <= Z.abs (thought_number t) ->
     ThoughtAnalyzer.analyze_thought env t records = Raise OverflowError)
  ∧ (total_thoughts t ≠ 0 ->
     Z.abs (thought_number t)
     < PyNum.overflow_bound * Z.abs (total_thoughts t) ->
     is_ok (ThoughtAnalyzer.analyze_thought env t records) = true).
Proof.
  unfold ThoughtAnalyzer.analyze_thought.
  destruct (ThoughtAnalyzer.related_and_first env t records)
    as [related first].
  unfold PyNum.int_truediv. split; [|split].
  - by intros ->.
  - intros Hne Hover.
    replace (total_thoughts t =? 0) with false
      by (symmetry; by apply Z.eqb_neq).
    by replace (_ <=? _) with true by (symmetry; by apply Z.leb_le).
  - intros Hne Hfits.
    replace (total_thoughts t =? 0) with false
      by (symmetry; by apply Z.eqb_neq).
    replace (_ <=? _) with false by (symmetry; by apply Z.leb_gt).
    cbn [bind]. by destruct (ThoughtAnalyzer.guidance t _ _).
Qed.

(** ** The store *)

Section StoreOperations.
Context `{UuidText} `{PathLib}.

(** What an access to a project leaves behind: the project is in memory
    with the history returned, nothing else has changed but the alias of
    the default project's history. *)
Lemma ensure_history_frame (pid : string) (h : list ThoughtData)
    (w w' : World) :
  _ensure_history pid w = (Ok h, w') ->
  _project_histories (store w') = <[pid := h]> (_project_histories (store w))
  ∧ (forall h0, _project_histories (store w) !! pid = Some h0 -> h = h0)
  ∧ default_project_id (store w') = default_project_id (store w)
  ∧ storage_dir (store w') = storage_dir (store w)
  ∧ thought_history (store w')
    = (if bool_decide (pid = default_project_id (store w)) then h
       else thought_history (store w))
  ∧ files w' = files w
  ∧ oracles w' = oracles w.
Proof.
  destruct (_project_histories (store w) !! pid) as [h0|] eqn:Hmem.
  - unfold _ensure_history, history_of, set_thought_history.
    run_world. rewrite Hmem. run_world.
    destruct (bool_decide (pid = default_project_id (store w)));
      run_world; rewrite ?Hmem; cbn [default]; intros [= <- <-]; run_world;
      (split; [by rewrite insert_id|]); (split; [by intros ? [= ->]|]); done.
  - unfold _ensure_history, history_of, set_thought_history, set_histories.
    run_world. rewrite Hmem.
    destruct (load_thoughts_from_file (_session_file_for (store w) pid)
                (_lock_file_for (store w) pid) w)
      as [[loaded|e] w1] eqn:Hload; [|run_world; discriminate].
    destruct (load_preserves _ _ _ _ _ Hload) as (Hstore & Hfiles & Ho).
    run_world. rewrite Hstore. run_world.
    destruct (bool_decide (pid = default_project_id (store w)));
      run_world; rewrite ?lookup_insert_eq; cbn [default];
      intros [= <- <-]; run_world; (split; [done|]);
      (split; [discriminate|]); by rewrite ?Hstore.
Qed.


End StoreOperations.

(** ** Adding, clearing and reading *)

Section StoreUpdates.
Context `{UuidText} `{PathLib}.

(** [add_thought], once the project has been accessed. *)
Lemma add_thought_run (t : ThoughtData) (project_id : option string)
    (w : World) :
  add_thought t project_id w
  = match _ensure_history (project_key (store w) project_id) w with
    | (Ok h, w0) =>
        let key := project_key (store w) project_id in
        (Ok tt,
         {| store :=
              {| storage_dir := storage_dir (store w0);
                 default_project_id := default_project_id (store w0);
                 _project_histories :=
                   <[key := h ++ [t]]> (_project_histories (store w0));
                 thought_history :=
                   if bool_decide (key = default_project_id (store w0))
                   then h ++ [t] else thought_history (store w0) |};
            files :=
              <[_session_file_for (store w0) key
                := SessionFile (prepare_thoughts_for_serialization (h ++ [t]))
                               None]> (files w0);
            oracles := oracles w0;
            ticks := ticks w0 |})
    | (Raise e, w0) => (Raise e, w0)
    end.
Proof.
  unfold add_thought. unfold mbind_world at 1.
  rewrite resolve_project_id_key. unfold mbind_world at 1.
  destruct (_ensure_history (project_key (store w) project_id) w)
    as [[h|e] w0]; [|reflexivity].
  unfold _save_session, save_thoughts_to_file, set_histories,
    set_thought_history, history_of, _session_file_for.
  run_world.
  destruct (bool_decide (project_key (store w) project_id
                         = default_project_id (store w0)));
    run_world; by rewrite lookup_insert_eq.
Qed.

(** [clear_history], once the project has been accessed. *)
Lemma clear_history_run (project_id : option string) (w : World) :
  clear_history project_id w
  = match _ensure_history (project_key (store w) project_id) w with
    | (Ok h, w0) =>
        let key := project_key (store w) project_id in
        (Ok tt,
         {| store :=
              {| storage_dir := storage_dir (store w0);
                 default_project_id := default_project_id (store w0);
                 _project_histories :=
                   <[key := []]> (_project_histories (store w0));
                 thought_history :=
                   if bool_decide (key = default_project_id (store w0))
                   then [] else thought_history (store w0) |};
            files :=
              <[_session_file_for (store w0) key
                := SessionFile [] None]> (files w0);
            oracles := oracles w0;
            ticks := ticks w0 |})
    | (Raise e, w0) => (Raise e, w0)
    end.
Proof.
  unfold clear_history. unfold mbind_world at 1.
  rewrite resolve_project_id_key. unfold mbind_world at 1.
  destruct (_ensure_history (project_key (store w) project_id) w)
    as [[h|e] w0]; [|reflexivity].
  unfold _save_session, save_thoughts_to_file, set_histories,
    set_thought_history, history_of, _session_file_for.
  run_world.
  destruct (bool_decide (project_key (store w) project_id
                         = default_project_id (store w0)));
    run_world; by rewrite lookup_insert_eq.
Qed.

Lemma get_all_thoughts_run (project_id : option string) (w : World) :
  get_all_thoughts project_id w
  = _ensure_history (project_key (store w) project_id) w.
Proof.
  unfold get_all_thoughts. unfold mbind_world at 1.
  rewrite resolve_project_id_key. unfold mbind_world, ret.
  by destruct (_ensure_history _ w) as [[h|e] w0].
Qed.

(** X20: after the history of a project has been read, adding a thought
    to the project succeeds; reading the project again gives the history
    with the thought at its end, and the session file of the project
    holds the serialized form of that history. *)
Theorem add_thought_appends (t : ThoughtData) (project_id : option string)
    (h : list ThoughtData) (w w0 : World) :
  get_all_thoughts project_id w = (Ok h, w0) ->
  exists w1 w2,
    add_thought t project_id w0 = (Ok tt, w1)
    ∧ get_all_thoughts project_id w1 = (Ok (h ++ [t]), w2)
    ∧ files w1 !! _session_file_for (store w1)
                    (project_key (store w1) project_id)
      = Some (SessionFile (prepare_thoughts_for_serialization (h ++ [t]))
                          None).
Proof.
  intros Hget. pose proof (get_all_thoughts_post _ _ _ _ Hget) as Hmem.
  destruct (ensure_history_in_memory _ _ _ Hmem)
    as (w0' & Hrun & Hhist & Hdef & Hdir & Hfiles & _).
  pose proof (add_thought_run t project_id w0) as Hadd.
  rewrite Hrun in Hadd. cbn zeta in Hadd.
  set (key := project_key (store w0) project_id) in *.
  match type of Hadd with _ = (_, ?w1') => set (w1 := w1') in * end.
  assert (project_key (store w1) project_id = key) as Hkey.
  { unfold key, project_key, w1. cbn [store default_project_id].
    by rewrite Hdef. }
  destruct (ensure_history_in_memory key (h ++ [t]) w1) as (w2 & Hrun2 & _);
    [apply lookup_insert_eq|].
  exists w1, w2. split; [exact Hadd|]. split.
  - rewrite get_all_thoughts_run, Hkey. exact Hrun2.
  - rewrite Hkey. unfold w1, _session_file_for.
    cbn [files store storage_dir]. apply lookup_insert_eq.
Qed.

(** X21: after the history of a project has been read, clearing the
    project succeeds; reading the project again gives the empty list, its
    session file holds no record, and the attribute [thought_history] is
    empty when the project is the default one. *)
Theorem clear_history_empties (project_id : option string)
    (h : list ThoughtData) (w w0 : World) :
  get_all_thoughts project_id w = (Ok h, w0) ->
  exists w1 w2,
    clear_history project_id w0 = (Ok tt, w1)
    ∧ get_all_thoughts project_id w1 = (Ok [], w2)
    ∧ files w1 !! _session_file_for (store w1)
                    (project_key (store w1) project_id)
      = Some (SessionFile [] None)
    ∧ (project_key (store w1) project_id = default_project_id (store w1) ->
       thought_history (store w1) = []).
Proof.
  intros Hget. pose proof (get_all_thoughts_post _ _ _ _ Hget) as Hmem.
  destruct (ensure_history_in_memory _ _ _ Hmem)
    as (w0' & Hrun & Hhist & Hdef & Hdir & Hfiles & _).
  pose proof (clear_history_run project_id w0) as Hclear.
  rewrite Hrun in Hclear. cbn zeta in Hclear.
  set (key := project_key (store w0) project_id) in *.
  match type of Hclear with _ = (_, ?w1') => set (w1 := w1') in * end.
  assert (project_key (store w1) project_id = key) as Hkey.
  { unfold key, project_key, w1. cbn [store default_project_id].
    by rewrite Hdef. }
  destruct (ensure_history_in_memory key [] w1) as (w2 & Hrun2 & _);
    [apply lookup_insert_eq|].
  exists w1, w2. split; [exact Hclear|]. split; [|split].
  - rewrite get_all_thoughts_run, Hkey. exact Hrun2.
  - rewrite Hkey. unfold w1, _session_file_for.
    cbn [files store storage_dir]. apply lookup_insert_eq.
  - rewrite Hkey. unfold w1. cbn [store default_project_id thought_history].
    intros ->. by rewrite bool_decide_eq_true_2.
Qed.

(** X22: a successful [add_thought] acts on one project, whose name is
    made of the characters [A-Za-z0-9._-] only: the history of every other
    project and the content of every session file other than that of the
    project are as before, and so are the default project and the storage
    directory. *)
Theorem add_thought_isolated (t : ThoughtData) (project_id : option string)
    (w w1 : World) :
  add_thought t project_id w = (Ok tt, w1) ->
  all_chars PyStr.in_safe_class (project_key (store w) project_id) = true
  ∧ (forall other,
       other ≠ project_key (store w) project_id ->
       _project_histories (store w1) !! other
       = _project_histories (store w) !! other)
  ∧ (forall path,
       path ≠ _session_file_for (store w) (project_key (store w) project_id) ->
       files w1 !! path = files w !! path)
  ∧ default_project_id (store w1) = default_project_id (store w)
  ∧ storage_dir (store w1) = storage_dir (store w).
Proof.
  rewrite add_thought_run.
  destruct (_ensure_history (project_key (store w) project_id) w)
    as [[h|e] w0] eqn:Hrun; [|discriminate].
  destruct (ensure_history_frame _ _ _ _ Hrun)
    as (Hhist & _ & Hdef & Hdir & _ & Hfiles & _).
  cbn zeta. intros [= <-]. cbn [store files _project_histories
                                 default_project_id storage_dir].
  split; [apply sanitize_result_safe|]. split; [|split; [|done]].
  - intros other Hother. rewrite Hhist.
    by rewrite !lookup_insert_ne by done.
  - intros path Hpath. unfold _session_file_for in *. rewrite Hdir, Hfiles.
    by rewrite lookup_insert_ne by done.
Qed.

(** X23: reading a project by stage returns the records of that stage
    among those that reading the whole project returns, in the same order,
    and leaves the store in the same state. *)
Theorem get_thoughts_by_stage_filters (wanted : ThoughtStage)
    (project_id : option string) (h : list ThoughtData) (w w0 : World) :
  get_all_thoughts project_id w = (Ok h, w0) ->
  get_thoughts_by_stage wanted project_id w
  = (Ok (filter (fun t => stage t = wanted) h), w0)
  ∧ Forall (fun t => stage t = wanted ∧ t ∈ h)
           (filter (fun t => stage t = wanted) h)
  ∧ (forall t, t ∈ h -> stage t = wanted ->
               t ∈ filter (fun t => stage t = wanted) h).
Proof.
  rewrite get_all_thoughts_run. intros Hrun.
  split; [|split].
  - unfold get_thoughts_by_stage. unfold mbind_world at 1.
    rewrite resolve_project_id_key. unfold mbind_world, ret.
    by rewrite Hrun.
  - apply Forall_forall. intros t Ht.
    by apply list_elem_of_filter in Ht.
  - intros t Ht Hst. by apply list_elem_of_filter.
Qed.

End StoreUpdates.

Lemma add_thought_appends_witness :
  exists w1 w2,
    add_thought (H := sample_uuid_text) testing_3 None
      (get_all_thoughts (H := sample_uuid_text) None sample_world).2
    = (Ok tt, w1)
    ∧ get_all_thoughts (H := sample_uuid_text) None w1
      = (Ok ([scoping_1; scoping_2] ++ [testing_3]), w2)
    ∧ files w1 !! _session_file_for (store w1) (project_key (store w1) None)
      = Some (SessionFile
                (prepare_thoughts_for_serialization (H := sample_uuid_text)
                   ([scoping_1; scoping_2] ++ [testing_3]))
                None).
Proof.
  apply (add_thought_appends (H := sample_uuid_text) testing_3 None
           [scoping_1; scoping_2] sample_world).
  vm_compute. reflexivity.
Defined.

Lemma clear_history_empties_witness :
  exists w1 w2,
    clear_history (H := sample_uuid_text) None
      (get_all_thoughts (H := sample_uuid_text) None sample_world).2
    = (Ok tt, w1)
    ∧ get_all_thoughts (H := sample_uuid_text) None w1 = (Ok [], w2)
    ∧ files w1 !! _session_file_for (store w1) (project_key (store w1) None)
      = Some (SessionFile [] None)
    ∧ (project_key (store w1) None = default_project_id (store w1) ->
       thought_history (store w1) = []).
Proof.
  apply (clear_history_empties (H := sample_uuid_text) None
           [scoping_1; scoping_2] sample_world).
  vm_compute. reflexivity.
Defined.

Lemma add_thought_isolated_witness :
  all_chars PyStr.in_safe_class (project_key (store sample_world) (Some "a/b"))
  = true
  ∧ (forall other,
       other ≠ project_key (store sample_world) (Some "a/b") ->
       _project_histories
         (store (add_thought (H := sample_uuid_text) testing_3 (Some "a/b")
                   sample_world).2) !! other
       = _project_histories (store sample_world) !! other)
  ∧ (forall path,
       path ≠ _session_file_for (store sample_world)
                (project_key (store sample_world) (Some "a/b")) ->
       files (add_thought (H := sample_uuid_text) testing_3 (Some "a/b")
                sample_world).2 !! path
       = files sample_world !! path)
  ∧ default_project_id
      (store (add_thought (H := sample_uuid_text) testing_3 (Some "a/b")
                sample_world).2)
    = default_project_id (store sample_world)
  ∧ storage_dir
      (store (add_thought (H := sample_uuid_text) testing_3 (Some "a/b")
                sample_world).2)
    = storage_dir (store sample_world).
Proof.
  apply (add_thought_isolated (H := sample_uuid_text) testing_3 (Some "a/b")
           sample_world).
  vm_compute. reflexivity.
Defined.

Lemma get_thoughts_by_stage_filters_witness :
  get_thoughts_by_stage (H := sample_uuid_text) SCOPING None sample_world
  = (Ok (filter (fun t => stage t = SCOPING) [scoping_1; scoping_2]),
     (get_all_thoughts (H := sample_uuid_text) None sample_world).2)
  ∧ Forall (fun t => stage t = SCOPING ∧ t ∈ [scoping_1; scoping_2])
           (filter (fun t => stage t = SCOPING) [scoping_1; scoping_2])
  ∧ (forall t, t ∈ [scoping_1; scoping_2] -> stage t = SCOPING ->
               t ∈ filter (fun t => stage t = SCOPING) [scoping_1; scoping_2]).
Proof.
  apply (get_thoughts_by_stage_filters (H := sample_uuid_text) SCOPING None
           [scoping_1; scoping_2] sample_world).
  vm_compute. reflexivity.
Defined.

(** ** Session files *)

Lemma append_eq_same_length (a b c d : string) :
  String.length b = String.length d ->
  a +:+ b = c +:+ d -> a = c ∧ b = d.
Proof.
  intros Hlen. revert c. induction a as [|x a IH]; intros [|y c].
  - by intros E.
  - change (EmptyString +:+ b) with b.
    change (String y c +:+ d) with (String y (c +:+ d)).
    intros E. apply (f_equal String.length) in E. cbn in E.
    rewrite length_append in E. lia.
  - change (EmptyString +:+ d) with d.
    change (String x a +:+ b) with (String x (a +:+ b)).
    intros E. apply (f_equal String.length) in E. cbn in E.
    rewrite length_append in E. lia.
  - change (String x a +:+ b) with (String x (a +:+ b)).
    change (String y c +:+ d) with (String y (c +:+ d)).
    intros [= -> E]. destruct (IH c E) as [-> ->]. done.
Qed.

Lemma append_inj_l (a x y : string) : a +:+ x = a +:+ y -> x = y.
Proof.
  induction a as [|c a IH]; [done|].
  change (String c a +:+ x) with (String c (a +:+ x)).
  change (String c a +:+ y) with (String c (a +:+ y)).
  intros [= E]. by apply IH.
Qed.

(** X24: two sanitized project names have the same session file exactly
    when they are the same name, likewise for the lock files, and no
    session file is a lock file. *)
Theorem session_files_distinct (s : ThoughtStorage) (a b : option string) :
  (_session_file_for s (_sanitize_project_id a)
   = _session_file_for s (_sanitize_project_id b)
   <-> _sanitize_project_id a = _sanitize_project_id b)
  ∧ (_lock_file_for s (_sanitize_project_id a)
     = _lock_file_for s (_sanitize_project_id b)
     <-> _sanitize_project_id a = _sanitize_project_id b)
  ∧ _session_file_for s (_sanitize_project_id a)
    ≠ _lock_file_for s (_sanitize_project_id b).
Proof.
  unfold _session_file_for, _lock_file_for.
  split; [|split].
  - split; [|by intros ->]. intros E.
    apply append_inj_l, append_inj_l in E.
    by apply append_eq_same_length in E as [E _].
  - split; [|by intros ->]. intros E.
    apply append_inj_l, append_inj_l in E.
    by apply append_eq_same_length in E as [E _].
  - intros E. apply append_inj_l, append_inj_l in E.
    by apply append_eq_same_length in E as [_ E].
Qed.

(** ** The alias of the default project's history *)

Section StoreInvariant.
Context `{UuidText} `{PathLib}.

Lemma project_key_fixed (s : ThoughtStorage) (project_id : option string) :
  _sanitize_project_id (Some (project_key s project_id))
  = project_key s project_id
  ∧ PyStr.truthy (project_key s project_id) = true.
Proof.
  unfold project_key.
  destruct (sanitize_result_safe
              (Some match project_id with
                    | Some p => if PyStr.truthy p then p
                                else default_project_id s
                    | None => default_project_id s
                    end)) as [Hsafe Hne].
  split; [by apply sanitize_fixed|exact Hne].
Qed.


End StoreInvariant.

(** ** What is saved is read *)

Section StorePersistence.
Context `{UuidText} `{PathLib}.

(** A store that starts on a directory whose session file holds the
    serialized form of constructed records has these records, up to their
    identifiers, as the history of its default project. *)
Lemma init_loads_session (dir key : string) (env_project : option string)
    (home : string) (h : list ThoughtData) (metadata : option ExportMetadata)
    (w : World) :
  _sanitize_project_id (Some key) = key ->
  PyStr.truthy key = true ->
  files w !! (dir +:+ "/" +:+ key +:+ "_session.json")
  = Some (SessionFile (prepare_thoughts_for_serialization h) metadata) ->
  Forall (fun t => well_formed t = true) h ->
  exists w' h',
    ThoughtStorage_init (Some dir) (Some key) env_project home w = (Ok tt, w')
    ∧ Forall2 same_but_id h h'
    ∧ _project_histories (store w') = {[ key := h' ]}
    ∧ default_project_id (store w') = key
    ∧ storage_dir (store w') = dir
    ∧ thought_history (store w') = h'
    ∧ files w' = files w.
Proof.
  intros Hkey Htruthy Hfile Hwf.
  unfold ThoughtStorage_init. cbn zeta. rewrite Htruthy.
  change (default "default" (Some key)) with key. rewrite Hkey.
  unfold mbind_world at 1. unfold put_store at 1.
  match goal with |- context [mbind_world (_ensure_history key) _ ?wa] =>
    set (fresh := wa)
  end.
  destruct (load_serialized (_session_file_for (store fresh) key)
              (_lock_file_for (store fresh) key) h metadata fresh)
    as (h' & w1 & Hload & Hsame & Hstore & Hfiles); [exact Hfile|exact Hwf|].
  exists
    {| store := {| storage_dir := dir; default_project_id := key;
                   _project_histories := {[ key := h' ]};
                   thought_history := h' |};
       files := files w1; oracles := oracles w1; ticks := ticks w1 |}, h'.
  split; [|by repeat split].
  unfold mbind_world at 1.
  unfold _ensure_history, history_of, set_thought_history, set_histories.
  unfold mbind_world at 1. unfold get_store at 1.
  replace (_project_histories (store fresh) !! key) with
    (@None (list ThoughtData)) by (symmetry; apply lookup_empty).
  unfold mbind_world at 1. unfold mbind_world at 1.
  rewrite Hload. run_world. rewrite Hstore. cbn [fresh store default_project_id
    storage_dir _project_histories thought_history].
  rewrite bool_decide_eq_true_2 by done. run_world.
  rewrite insert_empty, lookup_singleton_eq. reflexivity.
Qed.

(** X26: what [add_thought] saves, a new store reads.  After a successful
    [add_thought], a store constructed on the same directory with the
    project as its default starts, if the records of the project are
    constructed ones, with the history of the project as it was in
    memory, record by record and up to the identifiers.  The file
    operations are those of the missing module [storage_utils], modelled
    from the specification. *)
Theorem add_thought_persists (t : ThoughtData)
    (project_id env_project : option string) (home : string)
    (w w1 : World) :
  add_thought t project_id w = (Ok tt, w1) ->
  Forall (fun r => well_formed r = true)
         (history_of (store w1) (project_key (store w) project_id)) ->
  exists w2 w3 h',
    ThoughtStorage_init (Some (storage_dir (store w1)))
      (Some (project_key (store w) project_id)) env_project home w1
    = (Ok tt, w2)
    ∧ get_all_thoughts None w2 = (Ok h', w3)
    ∧ Forall2 same_but_id
        (history_of (store w1) (project_key (store w) project_id)) h'.
Proof.
  rewrite add_thought_run.
  destruct (_ensure_history (project_key (store w) project_id) w)
    as [[h|e] w0] eqn:Hrun; [|discriminate].
  cbn zeta. intros [= <-]. set (key := project_key (store w) project_id).
  unfold history_of.
  cbn [store files _project_histories default_project_id storage_dir].
  rewrite lookup_insert_eq. cbn [default]. intros Hwf.
  destruct (project_key_fixed (store w) project_id) as [Hfixed Htruthy].
  fold key in Hfixed, Htruthy.
  match goal with |- context [ThoughtStorage_init _ _ _ _ ?w1'] =>
    set (w1 := w1')
  end.
  destruct (init_loads_session (storage_dir (store w0)) key env_project home
              (h ++ [t]) None w1 Hfixed Htruthy)
    as (w2 & h' & Hinit & Hsame & Hhist & Hdef & _); [|exact Hwf|].
  { unfold w1, _session_file_for. cbn [files]. apply lookup_insert_eq. }
  assert (project_key (store w2) None = key) as Hkey2.
  { unfold project_key. by rewrite Hdef. }
  destruct (get_all_thoughts_in_memory None h' w2) as (w3 & Hget).
  { by rewrite Hkey2, Hhist, lookup_singleton_eq. }
  by exists w2, w3, h'.
Qed.

(** X27: after a successful [set_default_project] the default project is
    the sanitized name, a call without project reads that project, whose
    history is the attribute [thought_history]; the histories of the
    other projects and the contents of the session files are as
    before. *)
Theorem set_default_project_switches (project_id : string) (w w1 : World) :
  set_default_project project_id w = (Ok tt, w1) ->
  default_project_id (store w1) = _sanitize_project_id (Some project_id)
  ∧ project_key (store w1) None = _sanitize_project_id (Some project_id)
  ∧ (exists w2,
       get_all_thoughts None w1 = (Ok (thought_history (store w1)), w2))
  ∧ (forall other,
       other ≠ _sanitize_project_id (Some project_id) ->
       _project_histories (store w1) !! other
       = _project_histories (store w) !! other)
  ∧ files w1 = files w.
Proof.
  unfold set_default_project.
  unfold mbind_world at 1. unfold get_store at 1.
  unfold mbind_world at 1. unfold put_store at 1.
  set (resolved := _sanitize_project_id (Some project_id)).
  match goal with |- mbind_world (_ensure_history resolved) _ ?wa = _ -> _ =>
    set (switched := wa)
  end.
  unfold mbind_world at 1.
  destruct (_ensure_history resolved switched) as [[h|e] w0] eqn:Hrun;
    [|discriminate].
  destruct (ensure_history_frame _ _ _ _ Hrun)
    as (Hhist & _ & Hdef & _ & _ & Hfiles & _).
  unfold switched, set_default_project_id in Hhist, Hdef, Hfiles.
  cbn [store default_project_id _project_histories files] in Hhist, Hdef,
    Hfiles.
  run_world. unfold set_thought_history, history_of. intros [= <-].
  cbn [store thought_history default_project_id _project_histories files].
  assert (_sanitize_project_id (Some resolved) = resolved) as Hfixed.
  { destruct (sanitize_result_safe (Some project_id)) as [Hsafe Hne].
    by apply sanitize_fixed. }
  split; [exact Hdef|]. split; [|split; [|split]].
  - unfold project_key. cbn [store default_project_id]. by rewrite Hdef.
  - apply get_all_thoughts_in_memory. unfold project_key.
    cbn [store default_project_id _project_histories].
    by rewrite Hdef, Hfixed, Hhist, lookup_insert_eq.
  - intros other Hother. by rewrite Hhist, lookup_insert_ne.
  - exact Hfiles.
Qed.

End StorePersistence.

Lemma add_thought_persists_witness :
  exists w2 w3 h',
    ThoughtStorage_init (H := sample_uuid_text)
      (Some (storage_dir
               (store (add_thought (H := sample_uuid_text) testing_3 None
                         sample_world).2)))
      (Some (project_key (store sample_world) None)) None "/home/user"
      (add_thought (H := sample_uuid_text) testing_3 None sample_world).2
    = (Ok tt, w2)
    ∧ get_all_thoughts (H := sample_uuid_text) None w2 = (Ok h', w3)
    ∧ Forall2 same_but_id
        (history_of
           (store (add_thought (H := sample_uuid_text) testing_3 None
                     sample_world).2)
           (project_key (store sample_world) None)) h'.
Proof.
  apply (add_thought_persists (H := sample_uuid_text) testing_3 None None
           "/home/user" sample_world).
  - vm_compute. reflexivity.
  - vm_compute. repeat constructor.
Defined.

Lemma set_default_project_switches_witness :
  default_project_id
    (store (set_default_project (H := sample_uuid_text) "a/b" sample_world).2)
  = _sanitize_project_id (Some "a/b")
  ∧ project_key
      (store (set_default_project (H := sample_uuid_text) "a/b"
                sample_world).2) None
    = _sanitize_project_id (Some "a/b")
  ∧ (exists w2,
       get_all_thoughts (H := sample_uuid_text) None
         (set_default_project (H := sample_uuid_text) "a/b" sample_world).2
       = (Ok (thought_history
                (store (set_default_project (H := sample_uuid_text) "a/b"
                          sample_world).2)), w2))
  ∧ (forall other,
       other ≠ _sanitize_project_id (Some "a/b") ->
       _project_histories
         (store (set_default_project (H := sample_uuid_text) "a/b"
                   sample_world).2) !! other
       = _project_histories (store sample_world) !! other)
  ∧ files (set_default_project (H := sample_uuid_text) "a/b" sample_world).2
    = files sample_world.
Proof.
  apply (set_default_project_switches (H := sample_uuid_text) "a/b"
           sample_world).
  vm_compute. reflexivity.
Defined.

(** ** The tool that processes a thought *)

Section ProcessThought.
Context `{UuidText} `{PathLib}.

(** An access to a project that is in memory. *)
Lemma ensure_history_in_memory_run (pid : string) (h : list ThoughtData)
    (w : World) :
  _project_histories (store w) !! pid = Some h ->
  _ensure_history pid w
  = (Ok h,
     {| store :=
          {| storage_dir := storage_dir (store w);
             default_project_id := default_project_id (store w);
             _project_histories := _project_histories (store w);
             thought_history :=
               if bool_decide (pid = default_project_id (store w)) then h
               else thought_history (store w) |};
        files := files w;
        oracles := oracles w;
        ticks := ticks w |}).
Proof.
  intros Hh. unfold _ensure_history, history_of, set_thought_history.
  run_world. rewrite Hh. run_world.
  destruct (bool_decide (pid = default_project_id (store w)));
    run_world; rewrite ?Hh; cbn [default]; [reflexivity|].
  by destruct w as [[] ? ? ?].
Qed.

(** An access to a project, whatever its outcome, changes no file, keeps
    the default project and keeps the histories that are in memory. *)
Lemma ensure_history_keeps (pid : string) (r : result (list ThoughtData))
    (w w' : World) :
  _ensure_history pid w = (r, w') ->
  files w' = files w
  ∧ default_project_id (store w') = default_project_id (store w)
  ∧ (forall k h, _project_histories (store w) !! k = Some h ->
                 _project_histories (store w') !! k = Some h).
Proof.
  destruct r as [h|e].
  - intros Hrun.
    destruct (ensure_history_frame pid h w w' Hrun)
      as (Hhist & Hsame & Hdef & _ & _ & Hfiles & _).
    split; [exact Hfiles|]. split; [exact Hdef|].
    intros k hk Hk. rewrite Hhist.
    destruct (decide (k = pid)) as [->|Hne].
    + rewrite lookup_insert_eq. f_equal. by apply Hsame.
    + by rewrite lookup_insert_ne.
  - unfold _ensure_history, history_of, set_thought_history, set_histories.
    run_world.
    destruct (_project_histories (store w) !! pid) as [h0|] eqn:Hmem.
    + run_world.
      destruct (bool_decide (pid = default_project_id (store w)));
        run_world; discriminate.
    + destruct (load_thoughts_from_file (_session_file_for (store w) pid)
                  (_lock_file_for (store w) pid) w)
        as [[loaded|e'] w1] eqn:Hload.
      * run_world.
        destruct (bool_decide (pid = default_project_id (store w1)));
          run_world; discriminate.
      * run_world. intros [= <- <-].
        destruct (load_preserves _ _ _ _ _ Hload) as (Hstore & Hfiles & _).
        rewrite Hstore. by repeat split.
Qed.

(** The switch of the default project, whatever its outcome. *)
Lemma set_default_project_keeps (project_id : string) (r : result unit)
    (w w' : World) :
  set_default_project project_id w = (r, w') ->
  files w' = files w
  ∧ default_project_id (store w') = _sanitize_project_id (Some project_id)
  ∧ (forall k h, _project_histories (store w) !! k = Some h ->
                 _project_histories (store w') !! k = Some h).
Proof.
  unfold set_default_project.
  unfold mbind_world at 1. unfold get_store at 1.
  unfold mbind_world at 1. unfold put_store at 1.
  set (resolved := _sanitize_project_id (Some project_id)).
  match goal with |- mbind_world (_ensure_history resolved) _ ?wa = _ -> _ =>
    set (switched := wa)
  end.
  unfold mbind_world at 1.
  destruct (_ensure_history resolved switched) as [[h|e] w0] eqn:Hrun;
    destruct (ensure_history_keeps _ _ _ _ Hrun) as (Hfiles & Hdef & Hkeep);
    run_world; unfold set_thought_history; intros [= <- <-]; run_world;
    done.
Qed.

End ProcessThought.

Lemma init_supplied_ok (body : string) (number total : Z) (next : bool)
    (st : ThoughtStage) (confidence : float) (rest : ThoughtKwargs)
    (orc : Oracle) (t : ThoughtData) :
  ThoughtData_init (supplied body number total next st confidence rest) orc
  = Ok t ->
  invariants_hold body number total confidence = true.
Proof.
  unfold invariants_hold, ThoughtData_init, supplied.
  cbn [kw_thought kw_thought_number kw_total_thoughts kw_next_thought_needed
       kw_stage kw_confidence_score required optional].
  unfold thought_not_empty, thought_number_positive, confidence_in_range.
  destruct (PyStr.truthy body) eqn:Hbody;
    destruct (PyStr.truthy (PyStr.strip body)) eqn:Hb; cbn [negb orb];
    destruct (Z.ltb_spec number 1) as [Hn|Hn];
    cbn [passed total_thoughts_valid];
    try destruct (Z.ltb_spec total number) as [Ht|Ht];
    destruct (PyNum.in_unit_interval confidence) eqn:Hc; cbn [negb];
    try discriminate.
  intros _.
  replace (1 <=? number) with true by (symmetry; apply Z.leb_le; lia).
  by replace (number <=? total) with true by (symmetry; apply Z.leb_le; lia).
Qed.


Section ProcessThoughtSteps.
Context `{UuidText} `{PathLib}.



(** X29: a request whose stage does not parse, whose risk level is not
    one of the three, or whose values break an invariant raises, changes
    the content of no session file and no history that is in memory; a
    project named by the request has nonetheless become the default
    project, since the switch comes before the checks. *)
Theorem process_thought_refuses (env : TestEnv) (q : ThoughtRequest)
    (w : World) :
  refused q ->
  exists e w',
    process_thought env q w = (Raise e, w')
    ∧ files w' = files w
    ∧ (forall k h, _project_histories (store w) !! k = Some h ->
                   _project_histories (store w') !! k = Some h)
    ∧ (forall p, q_project_id q = Some p -> PyStr.truthy p = true ->
                 default_project_id (store w')
                 = _sanitize_project_id (Some p)).
Proof.
  intros Hrefused. unfold process_thought. unfold mbind_world at 1.
  (* the switch of the default project, whatever its outcome *)
  assert (exists r1 w1,
    (match q_project_id q with
     | Some project_id =>
         if PyStr.truthy project_id then set_default_project project_id
         else ret tt
     | None => ret tt
     end) w = (r1, w1)
    ∧ files w1 = files w
    ∧ (forall k h, _project_histories (store w) !! k = Some h ->
                   _project_histories (store w1) !! k = Some h)
    ∧ (forall p, q_project_id q = Some p -> PyStr.truthy p = true ->
                 default_project_id (store w1)
                 = _sanitize_project_id (Some p)))
    as (r1 & w1 & -> & Hfiles & Hkeep & Hdef).
  { destruct (q_project_id q) as [p|];
      [|exists (Ok tt), w; by repeat split].
    destruct (PyStr.truthy p) eqn:Hp;
      [|exists (Ok tt), w; repeat split; try done; intros ? [= <-]; congruence].
    destruct (set_default_project p w) as [r1 w1] eqn:Hswitch.
    destruct (set_default_project_keeps p r1 w w1 Hswitch)
      as (Hfiles & Hdef & Hkeep).
    exists r1, w1. repeat split; try done. by intros ? [= <-] _. }
  destruct r1 as [[]|e1]; [|by exists e1, w1].
  unfold mbind_world at 1. unfold lift at 1.
  destruct (from_string (q_stage q)) as [st|e] eqn:Hstage;
    [|by exists e, w1].
  unfold mbind_world at 1. unfold lift at 1.
  match goal with |- context [match ?risk with Ok _ => _ | Raise _ => _ end] =>
    destruct risk as [rk|e] eqn:Hrisk; [|by exists e, w1]
  end.
  unfold mbind_world at 1. unfold next_oracle at 1.
  unfold mbind_world at 1. unfold lift at 1.
  match goal with |- context [ThoughtData_init ?kw ?orc] =>
    destruct (ThoughtData_init kw orc) as [t|e] eqn:Hinit;
      [|by eexists e, _]
  end.
  exfalso.
  apply (init_supplied_ok (q_thought q) (q_thought_number q)
           (q_total_thoughts q) (q_next_thought_needed q) st
           (default 0.5%float (q_confidence_score q))) in Hinit.
  destruct Hrefused as [Hbad|[(r & Hr & Htruthy & Hbad)|Hbad]].
  - rewrite Hstage in Hbad. discriminate Hbad.
  - rewrite Hr, Htruthy in Hrisk.
    destruct (RiskLevel_of_value (PyStr.lower r)); discriminate.
  - congruence.
Qed.

End ProcessThoughtSteps.


Lemma process_thought_refuses_witness :
  exists e w',
    process_thought (H := sample_uuid_text) None unknown_stage_request
      sample_world = (Raise e, w')
    ∧ files w' = files sample_world
    ∧ (forall k h, _project_histories (store sample_world) !! k = Some h ->
                   _project_histories (store w') !! k = Some h)
    ∧ (forall p, q_project_id unknown_stage_request = Some p ->
                 PyStr.truthy p = true ->
                 default_project_id (store w')
                 = _sanitize_project_id (Some p)).
Proof.
  apply (process_thought_refuses (H := sample_uuid_text) None
           unknown_stage_request sample_world).
  left. vm_compute. reflexivity.
Defined.

(** ** The metadata of an export *)

Section ExportMetadata.
Context `{UuidText} `{PathLib}.

(** X30: after the history of a project has been read, an export to a
    path with a file name succeeds and writes the serialized history with
    metadata that name the project, give the number of records, and count
    the records of every stage, the counts adding up to that number; the
    content of no other session file changes, and neither do the
    histories or the default project. *)
Theorem export_session_metadata (file_path lock : string)
    (project_id : option string) (h : list ThoughtData) (w w0 : World) :
  get_all_thoughts project_id w = (Ok h, w0) ->
  with_suffix file_path ".lock" = Ok lock ->
  exists w1 metadata,
    export_session file_path project_id w0 = (Ok tt, w1)
    ∧ files w1 !! file_path
      = Some (SessionFile (prepare_thoughts_for_serialization h)
                          (Some metadata))
    ∧ m_project metadata = project_key (store w0) project_id
    ∧ m_totalThoughts metadata = PySort.len h
    ∧ m_stages metadata
      = map (fun st => (stage_value st, coverage st h)) all_stages
    ∧ foldr Z.add 0 (map snd (m_stages metadata)) = m_totalThoughts metadata
    ∧ _project_histories (store w1) = _project_histories (store w0)
    ∧ default_project_id (store w1) = default_project_id (store w0)
    ∧ (forall path, path ≠ file_path -> files w1 !! path = files w0 !! path).
Proof.
  intros Hget Hlock.
  pose proof (get_all_thoughts_post _ _ _ _ Hget) as Hmem.
  unfold export_session. unfold mbind_world at 1.
  rewrite resolve_project_id_key. unfold mbind_world at 1.
  rewrite (ensure_history_in_memory_run _ h w0 Hmem).
  unfold save_thoughts_to_file. run_world. rewrite Hlock.
  eexists _, _. split; [reflexivity|]. run_world.
  cbn [m_project m_totalThoughts m_stages].
  split; [apply lookup_insert_eq|]. split; [reflexivity|].
  split; [reflexivity|]. split; [reflexivity|]. split.
  { cbn [m_stages m_totalThoughts]. rewrite map_map. cbn [snd].
    apply coverage_total. }
  split; [reflexivity|]. split; [reflexivity|].
  intros path Hpath. by rewrite lookup_insert_ne.
Qed.

End ExportMetadata.

Lemma export_session_metadata_witness :
  exists w1 metadata,
    export_session (H := sample_uuid_text) (H0 := sample_paths)
      "/tmp/export.json" None
      (get_all_thoughts (H := sample_uuid_text) None sample_world).2
    = (Ok tt, w1)
    ∧ files w1 !! "/tmp/export.json"
      = Some (SessionFile
                (prepare_thoughts_for_serialization (H := sample_uuid_text)
                   [scoping_1; scoping_2])
                (Some metadata))
    ∧ m_project metadata
      = project_key
          (store (get_all_thoughts (H := sample_uuid_text) None
                    sample_world).2) None
    ∧ m_totalThoughts metadata = PySort.len [scoping_1; scoping_2]
    ∧ m_stages metadata
      = map (fun st => (stage_value st, coverage st [scoping_1; scoping_2]))
            all_stages
    ∧ foldr Z.add 0 (map snd (m_stages metadata)) = m_totalThoughts metadata
    ∧ _project_histories (store w1)
      = _project_histories
          (store (get_all_thoughts (H := sample_uuid_text) None
                    sample_world).2)
    ∧ default_project_id (store w1)
      = default_project_id
          (store (get_all_thoughts (H := sample_uuid_text) None
                    sample_world).2)
    ∧ (forall path,
         path ≠ "/tmp/export.json" ->
         files w1 !! path
         = files (get_all_thoughts (H := sample_uuid_text) None
                    sample_world).2 !! path).
Proof.
  apply (export_session_metadata (H := sample_uuid_text) (H0 := sample_paths)
           "/tmp/export.json" "/tmp/export.json.lock" None
           [scoping_1; scoping_2] sample_world).
  - vm_compute. reflexivity.
  - reflexivity.
Defined.
